(** * Verification of the gameroy core: memory bus, scheduler tick, serial
    port and the channel-1 part of the sound controller.

    Shallow embedding of [core/src/gameboy.rs] and
    [core/src/sound_controller.rs].  Machine integers are [Z] with their
    wrap-around written out (release-build semantics); a Rust panic
    ([unreachable!()], [expect]) is an [Err] of the [res] monad. *)

From Stdlib Require Import ZArith List Bool Lia.
Import ListNotations.
Open Scope Z_scope.

(** ** Machine integers and panics *)

Definition wrap8 (x : Z) : Z := x mod 256.
Definition wrap16 (x : Z) : Z := x mod 65536.
Definition wrap64 (x : Z) : Z := x mod 18446744073709551616.

(** The ways the embedded code can panic. *)
Inductive Panic : Type :=
| Unreachable   (* [unreachable!()] *)
| ExpectFailed. (* [Option::expect] on [None] *)

(** Result of a function that may panic. *)
Inductive res (A : Type) : Type :=
| Ok (a : A)
| Err (p : Panic).
Arguments Ok {A} a.
Arguments Err {A} p.

Definition res_bind {A B} (r : res A) (k : A -> res B) : res B :=
  match r with Ok a => k a | Err p => Err p end.
Notation "x <- r ;; k" := (res_bind r (fun x => k))
  (at level 61, r at next level, right associativity).

(** [xs[i] = v] on a fixed-size array; an index past the end panics in Rust
    and is not reachable from the code below. *)
Fixpoint list_set {A} (xs : list A) (i : nat) (v : A) : list A :=
  match xs, i with
  | [], _ => []
  | _ :: t, O => v :: t
  | x :: t, S i' => x :: list_set t i' v
  end.

(** [lo, lo+1, ..., lo+n-1]: used to check a property on a range of
    addresses. *)
Fixpoint zseq (lo : Z) (n : nat) : list Z :=
  match n with
  | O => []
  | S n' => lo :: zseq (lo + 1) n'
  end.

(** ** Sound controller ([sound_controller.rs]) *)

(** [consts::CLOCK_SPEED]: the file [consts.rs] is not among the sources; the
    value is the 2^22 Hz T-clock, the one [gameboy.rs] relies on when it
    calls [clock_count >> 9] a 2^13 Hz clock. *)
Definition CLOCK_SPEED : Z := 4194304.

Record SoundController := mkSoundController {
  nr10 : Z;
  nr11 : Z;
  nr12 : Z;
  nr13 : Z;
  nr14 : Z;
  nr21 : Z;
  nr22 : Z;
  nr23 : Z;
  nr24 : Z;
  nr30 : Z;
  nr31 : Z;
  nr32 : Z;
  nr33 : Z;
  nr34 : Z;
  ch3_wave_pattern : list Z;
  nr41 : Z;
  nr42 : Z;
  nr43 : Z;
  nr44 : Z;
  nr50 : Z;
  nr51 : Z;
  nr52 : Z;
  on : bool;
  ch1_channel_enable : bool;
  ch1_length_timer : Z;
  ch1_sweep_enabled : bool;
  ch1_shadow_freq : Z;
  ch1_sweep_timer : Z;
  ch1_frequency_timer : Z;
  ch1_wave_duty_position : Z;
  ch1_current_volume : Z;
  ch1_env_period_timer : Z;
  ch2_channel_enable : bool;
  ch2_length_timer : Z;
  ch2_frequency_timer : Z;
  ch2_wave_duty_position : Z;
  ch2_current_volume : Z;
  ch2_env_period_timer : Z;
  ch3_channel_enable : bool;
  ch3_length_timer : Z;
  ch3_frequency_timer : Z;
  ch3_wave_position : Z;
  output : list Z;
  last_clock : Z;
  sample_frequency : Z;
  sample_mod : Z
}.

(** Field setters: [set_f v s] is [s] with field [f] replaced by [v], the
    embedding of the assignment [self.f = v]. *)
Definition set_nr10 (v : Z) (s : SoundController) : SoundController :=
  mkSoundController v (nr11 s) (nr12 s) (nr13 s) (nr14 s) (nr21 s) (nr22 s) (nr23 s) (nr24 s) (nr30 s) (nr31 s) (nr32 s) (nr33 s) (nr34 s) (ch3_wave_pattern s) (nr41 s) (nr42 s) (nr43 s) (nr44 s) (nr50 s) (nr51 s) (nr52 s) (on s) (ch1_channel_enable s) (ch1_length_timer s) (ch1_sweep_enabled s) (ch1_shadow_freq s) (ch1_sweep_timer s) (ch1_frequency_timer s) (ch1_wave_duty_position s) (ch1_current_volume s) (ch1_env_period_timer s) (ch2_channel_enable s) (ch2_length_timer s) (ch2_frequency_timer s) (ch2_wave_duty_position s) (ch2_current_volume s) (ch2_env_period_timer s) (ch3_channel_enable s) (ch3_length_timer s) (ch3_frequency_timer s) (ch3_wave_position s) (output s) (last_clock s) (sample_frequency s) (sample_mod s).
Definition set_nr11 (v : Z) (s : SoundController) : SoundController :=
  mkSoundController (nr10 s) v (nr12 s) (nr13 s) (nr14 s) (nr21 s) (nr22 s) (nr23 s) (nr24 s) (nr30 s) (nr31 s) (nr32 s) (nr33 s) (nr34 s) (ch3_wave_pattern s) (nr41 s) (nr42 s) (nr43 s) (nr44 s) (nr50 s) (nr51 s) (nr52 s) (on s) (ch1_channel_enable s) (ch1_length_timer s) (ch1_sweep_enabled s) (ch1_shadow_freq s) (ch1_sweep_timer s) (ch1_frequency_timer s) (ch1_wave_duty_position s) (ch1_current_volume s) (ch1_env_period_timer s) (ch2_channel_enable s) (ch2_length_timer s) (ch2_frequency_timer s) (ch2_wave_duty_position s) (ch2_current_volume s) (ch2_env_period_timer s) (ch3_channel_enable s) (ch3_length_timer s) (ch3_frequency_timer s) (ch3_wave_position s) (output s) (last_clock s) (sample_frequency s) (sample_mod s).
Definition set_nr12 (v : Z) (s : SoundController) : SoundController :=
  mkSoundController (nr10 s) (nr11 s) v (nr13 s) (nr14 s) (nr21 s) (nr22 s) (nr23 s) (nr24 s) (nr30 s) (nr31 s) (nr32 s) (nr33 s) (nr34 s) (ch3_wave_pattern s) (nr41 s) (nr42 s) (nr43 s) (nr44 s) (nr50 s) (nr51 s) (nr52 s) (on s) (ch1_channel_enable s) (ch1_length_timer s) (ch1_sweep_enabled s) (ch1_shadow_freq s) (ch1_sweep_timer s) (ch1_frequency_timer s) (ch1_wave_duty_position s) (ch1_current_volume s) (ch1_env_period_timer s) (ch2_channel_enable s) (ch2_length_timer s) (ch2_frequency_timer s) (ch2_wave_duty_position s) (ch2_current_volume s) (ch2_env_period_timer s) (ch3_channel_enable s) (ch3_length_timer s) (ch3_frequency_timer s) (ch3_wave_position s) (output s) (last_clock s) (sample_frequency s) (sample_mod s).
Definition set_nr13 (v : Z) (s : SoundController) : SoundController :=
  mkSoundController (nr10 s) (nr11 s) (nr12 s) v (nr14 s) (nr21 s) (nr22 s) (nr23 s) (nr24 s) (nr30 s) (nr31 s) (nr32 s) (nr33 s) (nr34 s) (ch3_wave_pattern s) (nr41 s) (nr42 s) (nr43 s) (nr44 s) (nr50 s) (nr51 s) (nr52 s) (on s) (ch1_channel_enable s) (ch1_length_timer s) (ch1_sweep_enabled s) (ch1_shadow_freq s) (ch1_sweep_timer s) (ch1_frequency_timer s) (ch1_wave_duty_position s) (ch1_current_volume s) (ch1_env_period_timer s) (ch2_channel_enable s) (ch2_length_timer s) (ch2_frequency_timer s) (ch2_wave_duty_position s) (ch2_current_volume s) (ch2_env_period_timer s) (ch3_channel_enable s) (ch3_length_timer s) (ch3_frequency_timer s) (ch3_wave_position s) (output s) (last_clock s) (sample_frequency s) (sample_mod s).
Definition set_nr14 (v : Z) (s : SoundController) : SoundController :=
  mkSoundController (nr10 s) (nr11 s) (nr12 s) (nr13 s) v (nr21 s) (nr22 s) (nr23 s) (nr24 s) (nr30 s) (nr31 s) (nr32 s) (nr33 s) (nr34 s) (ch3_wave_pattern s) (nr41 s) (nr42 s) (nr43 s) (nr44 s) (nr50 s) (nr51 s) (nr52 s) (on s) (ch1_channel_enable s) (ch1_length_timer s) (ch1_sweep_enabled s) (ch1_shadow_freq s) (ch1_sweep_timer s) (ch1_frequency_timer s) (ch1_wave_duty_position s) (ch1_current_volume s) (ch1_env_period_timer s) (ch2_channel_enable s) (ch2_length_timer s) (ch2_frequency_timer s) (ch2_wave_duty_position s) (ch2_current_volume s) (ch2_env_period_timer s) (ch3_channel_enable s) (ch3_length_timer s) (ch3_frequency_timer s) (ch3_wave_position s) (output s) (last_clock s) (sample_frequency s) (sample_mod s).
Definition set_nr21 (v : Z) (s : SoundController) : SoundController :=
  mkSoundController (nr10 s) (nr11 s) (nr12 s) (nr13 s) (nr14 s) v (nr22 s) (nr23 s) (nr24 s) (nr30 s) (nr31 s) (nr32 s) (nr33 s) (nr34 s) (ch3_wave_pattern s) (nr41 s) (nr42 s) (nr43 s) (nr44 s) (nr50 s) (nr51 s) (nr52 s) (on s) (ch1_channel_enable s) (ch1_length_timer s) (ch1_sweep_enabled s) (ch1_shadow_freq s) (ch1_sweep_timer s) (ch1_frequency_timer s) (ch1_wave_duty_position s) (ch1_current_volume s) (ch1_env_period_timer s) (ch2_channel_enable s) (ch2_length_timer s) (ch2_frequency_timer s) (ch2_wave_duty_position s) (ch2_current_volume s) (ch2_env_period_timer s) (ch3_channel_enable s) (ch3_length_timer s) (ch3_frequency_timer s) (ch3_wave_position s) (output s) (last_clock s) (sample_frequency s) (sample_mod s).
Definition set_nr22 (v : Z) (s : SoundController) : SoundController :=
  mkSoundController (nr10 s) (nr11 s) (nr12 s) (nr13 s) (nr14 s) (nr21 s) v (nr23 s) (nr24 s) (nr30 s) (nr31 s) (nr32 s) (nr33 s) (nr34 s) (ch3_wave_pattern s) (nr41 s) (nr42 s) (nr43 s) (nr44 s) (nr50 s) (nr51 s) (nr52 s) (on s) (ch1_channel_enable s) (ch1_length_timer s) (ch1_sweep_enabled s) (ch1_shadow_freq s) (ch1_sweep_timer s) (ch1_frequency_timer s) (ch1_wave_duty_position s) (ch1_current_volume s) (ch1_env_period_timer s) (ch2_channel_enable s) (ch2_length_timer s) (ch2_frequency_timer s) (ch2_wave_duty_position s) (ch2_current_volume s) (ch2_env_period_timer s) (ch3_channel_enable s) (ch3_length_timer s) (ch3_frequency_timer s) (ch3_wave_position s) (output s) (last_clock s) (sample_frequency s) (sample_mod s).
Definition set_nr23 (v : Z) (s : SoundController) : SoundController :=
  mkSoundController (nr10 s) (nr11 s) (nr12 s) (nr13 s) (nr14 s) (nr21 s) (nr22 s) v (nr24 s) (nr30 s) (nr31 s) (nr32 s) (nr33 s) (nr34 s) (ch3_wave_pattern s) (nr41 s) (nr42 s) (nr43 s) (nr44 s) (nr50 s) (nr51 s) (nr52 s) (on s) (ch1_channel_enable s) (ch1_length_timer s) (ch1_sweep_enabled s) (ch1_shadow_freq s) (ch1_sweep_timer s) (ch1_frequency_timer s) (ch1_wave_duty_position s) (ch1_current_volume s) (ch1_env_period_timer s) (ch2_channel_enable s) (ch2_length_timer s) (ch2_frequency_timer s) (ch2_wave_duty_position s) (ch2_current_volume s) (ch2_env_period_timer s) (ch3_channel_enable s) (ch3_length_timer s) (ch3_frequency_timer s) (ch3_wave_position s) (output s) (last_clock s) (sample_frequency s) (sample_mod s).
Definition set_nr24 (v : Z) (s : SoundController) : SoundController :=
  mkSoundController (nr10 s) (nr11 s) (nr12 s) (nr13 s) (nr14 s) (nr21 s) (nr22 s) (nr23 s) v (nr30 s) (nr31 s) (nr32 s) (nr33 s) (nr34 s) (ch3_wave_pattern s) (nr41 s) (nr42 s) (nr43 s) (nr44 s) (nr50 s) (nr51 s) (nr52 s) (on s) (ch1_channel_enable s) (ch1_length_timer s) (ch1_sweep_enabled s) (ch1_shadow_freq s) (ch1_sweep_timer s) (ch1_frequency_timer s) (ch1_wave_duty_position s) (ch1_current_volume s) (ch1_env_period_timer s) (ch2_channel_enable s) (ch2_length_timer s) (ch2_frequency_timer s) (ch2_wave_duty_position s) (ch2_current_volume s) (ch2_env_period_timer s) (ch3_channel_enable s) (ch3_length_timer s) (ch3_frequency_timer s) (ch3_wave_position s) (output s) (last_clock s) (sample_frequency s) (sample_mod s).
Definition set_nr30 (v : Z) (s : SoundController) : SoundController :=
  mkSoundController (nr10 s) (nr11 s) (nr12 s) (nr13 s) (nr14 s) (nr21 s) (nr22 s) (nr23 s) (nr24 s) v (nr31 s) (nr32 s) (nr33 s) (nr34 s) (ch3_wave_pattern s) (nr41 s) (nr42 s) (nr43 s) (nr44 s) (nr50 s) (nr51 s) (nr52 s) (on s) (ch1_channel_enable s) (ch1_length_timer s) (ch1_sweep_enabled s) (ch1_shadow_freq s) (ch1_sweep_timer s) (ch1_frequency_timer s) (ch1_wave_duty_position s) (ch1_current_volume s) (ch1_env_period_timer s) (ch2_channel_enable s) (ch2_length_timer s) (ch2_frequency_timer s) (ch2_wave_duty_position s) (ch2_current_volume s) (ch2_env_period_timer s) (ch3_channel_enable s) (ch3_length_timer s) (ch3_frequency_timer s) (ch3_wave_position s) (output s) (last_clock s) (sample_frequency s) (sample_mod s).
Definition set_nr31 (v : Z) (s : SoundController) : SoundController :=
  mkSoundController (nr10 s) (nr11 s) (nr12 s) (nr13 s) (nr14 s) (nr21 s) (nr22 s) (nr23 s) (nr24 s) (nr30 s) v (nr32 s) (nr33 s) (nr34 s) (ch3_wave_pattern s) (nr41 s) (nr42 s) (nr43 s) (nr44 s) (nr50 s) (nr51 s) (nr52 s) (on s) (ch1_channel_enable s) (ch1_length_timer s) (ch1_sweep_enabled s) (ch1_shadow_freq s) (ch1_sweep_timer s) (ch1_frequency_timer s) (ch1_wave_duty_position s) (ch1_current_volume s) (ch1_env_period_timer s) (ch2_channel_enable s) (ch2_length_timer s) (ch2_frequency_timer s) (ch2_wave_duty_position s) (ch2_current_volume s) (ch2_env_period_timer s) (ch3_channel_enable s) (ch3_length_timer s) (ch3_frequency_timer s) (ch3_wave_position s) (output s) (last_clock s) (sample_frequency s) (sample_mod s).
Definition set_nr32 (v : Z) (s : SoundController) : SoundController :=
  mkSoundController (nr10 s) (nr11 s) (nr12 s) (nr13 s) (nr14 s) (nr21 s) (nr22 s) (nr23 s) (nr24 s) (nr30 s) (nr31 s) v (nr33 s) (nr34 s) (ch3_wave_pattern s) (nr41 s) (nr42 s) (nr43 s) (nr44 s) (nr50 s) (nr51 s) (nr52 s) (on s) (ch1_channel_enable s) (ch1_length_timer s) (ch1_sweep_enabled s) (ch1_shadow_freq s) (ch1_sweep_timer s) (ch1_frequency_timer s) (ch1_wave_duty_position s) (ch1_current_volume s) (ch1_env_period_timer s) (ch2_channel_enable s) (ch2_length_timer s) (ch2_frequency_timer s) (ch2_wave_duty_position s) (ch2_current_volume s) (ch2_env_period_timer s) (ch3_channel_enable s) (ch3_length_timer s) (ch3_frequency_timer s) (ch3_wave_position s) (output s) (last_clock s) (sample_frequency s) (sample_mod s).
Definition set_nr33 (v : Z) (s : SoundController) : SoundController :=
  mkSoundController (nr10 s) (nr11 s) (nr12 s) (nr13 s) (nr14 s) (nr21 s) (nr22 s) (nr23 s) (nr24 s) (nr30 s) (nr31 s) (nr32 s) v (nr34 s) (ch3_wave_pattern s) (nr41 s) (nr42 s) (nr43 s) (nr44 s) (nr50 s) (nr51 s) (nr52 s) (on s) (ch1_channel_enable s) (ch1_length_timer s) (ch1_sweep_enabled s) (ch1_shadow_freq s) (ch1_sweep_timer s) (ch1_frequency_timer s) (ch1_wave_duty_position s) (ch1_current_volume s) (ch1_env_period_timer s) (ch2_channel_enable s) (ch2_length_timer s) (ch2_frequency_timer s) (ch2_wave_duty_position s) (ch2_current_volume s) (ch2_env_period_timer s) (ch3_channel_enable s) (ch3_length_timer s) (ch3_frequency_timer s) (ch3_wave_position s) (output s) (last_clock s) (sample_frequency s) (sample_mod s).
Definition set_nr34 (v : Z) (s : SoundController) : SoundController :=
  mkSoundController (nr10 s) (nr11 s) (nr12 s) (nr13 s) (nr14 s) (nr21 s) (nr22 s) (nr23 s) (nr24 s) (nr30 s) (nr31 s) (nr32 s) (nr33 s) v (ch3_wave_pattern s) (nr41 s) (nr42 s) (nr43 s) (nr44 s) (nr50 s) (nr51 s) (nr52 s) (on s) (ch1_channel_enable s) (ch1_length_timer s) (ch1_sweep_enabled s) (ch1_shadow_freq s) (ch1_sweep_timer s) (ch1_frequency_timer s) (ch1_wave_duty_position s) (ch1_current_volume s) (ch1_env_period_timer s) (ch2_channel_enable s) (ch2_length_timer s) (ch2_frequency_timer s) (ch2_wave_duty_position s) (ch2_current_volume s) (ch2_env_period_timer s) (ch3_channel_enable s) (ch3_length_timer s) (ch3_frequency_timer s) (ch3_wave_position s) (output s) (last_clock s) (sample_frequency s) (sample_mod s).
Definition set_ch3_wave_pattern (v : list Z) (s : SoundController) : SoundController :=
  mkSoundController (nr10 s) (nr11 s) (nr12 s) (nr13 s) (nr14 s) (nr21 s) (nr22 s) (nr23 s) (nr24 s) (nr30 s) (nr31 s) (nr32 s) (nr33 s) (nr34 s) v (nr41 s) (nr42 s) (nr43 s) (nr44 s) (nr50 s) (nr51 s) (nr52 s) (on s) (ch1_channel_enable s) (ch1_length_timer s) (ch1_sweep_enabled s) (ch1_shadow_freq s) (ch1_sweep_timer s) (ch1_frequency_timer s) (ch1_wave_duty_position s) (ch1_current_volume s) (ch1_env_period_timer s) (ch2_channel_enable s) (ch2_length_timer s) (ch2_frequency_timer s) (ch2_wave_duty_position s) (ch2_current_volume s) (ch2_env_period_timer s) (ch3_channel_enable s) (ch3_length_timer s) (ch3_frequency_timer s) (ch3_wave_position s) (output s) (last_clock s) (sample_frequency s) (sample_mod s).
Definition set_nr41 (v : Z) (s : SoundController) : SoundController :=
  mkSoundController (nr10 s) (nr11 s) (nr12 s) (nr13 s) (nr14 s) (nr21 s) (nr22 s) (nr23 s) (nr24 s) (nr30 s) (nr31 s) (nr32 s) (nr33 s) (nr34 s) (ch3_wave_pattern s) v (nr42 s) (nr43 s) (nr44 s) (nr50 s) (nr51 s) (nr52 s) (on s) (ch1_channel_enable s) (ch1_length_timer s) (ch1_sweep_enabled s) (ch1_shadow_freq s) (ch1_sweep_timer s) (ch1_frequency_timer s) (ch1_wave_duty_position s) (ch1_current_volume s) (ch1_env_period_timer s) (ch2_channel_enable s) (ch2_length_timer s) (ch2_frequency_timer s) (ch2_wave_duty_position s) (ch2_current_volume s) (ch2_env_period_timer s) (ch3_channel_enable s) (ch3_length_timer s) (ch3_frequency_timer s) (ch3_wave_position s) (output s) (last_clock s) (sample_frequency s) (sample_mod s).
Definition set_nr42 (v : Z) (s : SoundController) : SoundController :=
  mkSoundController (nr10 s) (nr11 s) (nr12 s) (nr13 s) (nr14 s) (nr21 s) (nr22 s) (nr23 s) (nr24 s) (nr30 s) (nr31 s) (nr32 s) (nr33 s) (nr34 s) (ch3_wave_pattern s) (nr41 s) v (nr43 s) (nr44 s) (nr50 s) (nr51 s) (nr52 s) (on s) (ch1_channel_enable s) (ch1_length_timer s) (ch1_sweep_enabled s) (ch1_shadow_freq s) (ch1_sweep_timer s) (ch1_frequency_timer s) (ch1_wave_duty_position s) (ch1_current_volume s) (ch1_env_period_timer s) (ch2_channel_enable s) (ch2_length_timer s) (ch2_frequency_timer s) (ch2_wave_duty_position s) (ch2_current_volume s) (ch2_env_period_timer s) (ch3_channel_enable s) (ch3_length_timer s) (ch3_frequency_timer s) (ch3_wave_position s) (output s) (last_clock s) (sample_frequency s) (sample_mod s).
Definition set_nr43 (v : Z) (s : SoundController) : SoundController :=
  mkSoundController (nr10 s) (nr11 s) (nr12 s) (nr13 s) (nr14 s) (nr21 s) (nr22 s) (nr23 s) (nr24 s) (nr30 s) (nr31 s) (nr32 s) (nr33 s) (nr34 s) (ch3_wave_pattern s) (nr41 s) (nr42 s) v (nr44 s) (nr50 s) (nr51 s) (nr52 s) (on s) (ch1_channel_enable s) (ch1_length_timer s) (ch1_sweep_enabled s) (ch1_shadow_freq s) (ch1_sweep_timer s) (ch1_frequency_timer s) (ch1_wave_duty_position s) (ch1_current_volume s) (ch1_env_period_timer s) (ch2_channel_enable s) (ch2_length_timer s) (ch2_frequency_timer s) (ch2_wave_duty_position s) (ch2_current_volume s) (ch2_env_period_timer s) (ch3_channel_enable s) (ch3_length_timer s) (ch3_frequency_timer s) (ch3_wave_position s) (output s) (last_clock s) (sample_frequency s) (sample_mod s).
Definition set_nr44 (v : Z) (s : SoundController) : SoundController :=
  mkSoundController (nr10 s) (nr11 s) (nr12 s) (nr13 s) (nr14 s) (nr21 s) (nr22 s) (nr23 s) (nr24 s) (nr30 s) (nr31 s) (nr32 s) (nr33 s) (nr34 s) (ch3_wave_pattern s) (nr41 s) (nr42 s) (nr43 s) v (nr50 s) (nr51 s) (nr52 s) (on s) (ch1_channel_enable s) (ch1_length_timer s) (ch1_sweep_enabled s) (ch1_shadow_freq s) (ch1_sweep_timer s) (ch1_frequency_timer s) (ch1_wave_duty_position s) (ch1_current_volume s) (ch1_env_period_timer s) (ch2_channel_enable s) (ch2_length_timer s) (ch2_frequency_timer s) (ch2_wave_duty_position s) (ch2_current_volume s) (ch2_env_period_timer s) (ch3_channel_enable s) (ch3_length_timer s) (ch3_frequency_timer s) (ch3_wave_position s) (output s) (last_clock s) (sample_frequency s) (sample_mod s).
Definition set_nr50 (v : Z) (s : SoundController) : SoundController :=
  mkSoundController (nr10 s) (nr11 s) (nr12 s) (nr13 s) (nr14 s) (nr21 s) (nr22 s) (nr23 s) (nr24 s) (nr30 s) (nr31 s) (nr32 s) (nr33 s) (nr34 s) (ch3_wave_pattern s) (nr41 s) (nr42 s) (nr43 s) (nr44 s) v (nr51 s) (nr52 s) (on s) (ch1_channel_enable s) (ch1_length_timer s) (ch1_sweep_enabled s) (ch1_shadow_freq s) (ch1_sweep_timer s) (ch1_frequency_timer s) (ch1_wave_duty_position s) (ch1_current_volume s) (ch1_env_period_timer s) (ch2_channel_enable s) (ch2_length_timer s) (ch2_frequency_timer s) (ch2_wave_duty_position s) (ch2_current_volume s) (ch2_env_period_timer s) (ch3_channel_enable s) (ch3_length_timer s) (ch3_frequency_timer s) (ch3_wave_position s) (output s) (last_clock s) (sample_frequency s) (sample_mod s).
Definition set_nr51 (v : Z) (s : SoundController) : SoundController :=
  mkSoundController (nr10 s) (nr11 s) (nr12 s) (nr13 s) (nr14 s) (nr21 s) (nr22 s) (nr23 s) (nr24 s) (nr30 s) (nr31 s) (nr32 s) (nr33 s) (nr34 s) (ch3_wave_pattern s) (nr41 s) (nr42 s) (nr43 s) (nr44 s) (nr50 s) v (nr52 s) (on s) (ch1_channel_enable s) (ch1_length_timer s) (ch1_sweep_enabled s) (ch1_shadow_freq s) (ch1_sweep_timer s) (ch1_frequency_timer s) (ch1_wave_duty_position s) (ch1_current_volume s) (ch1_env_period_timer s) (ch2_channel_enable s) (ch2_length_timer s) (ch2_frequency_timer s) (ch2_wave_duty_position s) (ch2_current_volume s) (ch2_env_period_timer s) (ch3_channel_enable s) (ch3_length_timer s) (ch3_frequency_timer s) (ch3_wave_position s) (output s) (last_clock s) (sample_frequency s) (sample_mod s).
Definition set_nr52 (v : Z) (s : SoundController) : SoundController :=
  mkSoundController (nr10 s) (nr11 s) (nr12 s) (nr13 s) (nr14 s) (nr21 s) (nr22 s) (nr23 s) (nr24 s) (nr30 s) (nr31 s) (nr32 s) (nr33 s) (nr34 s) (ch3_wave_pattern s) (nr41 s) (nr42 s) (nr43 s) (nr44 s) (nr50 s) (nr51 s) v (on s) (ch1_channel_enable s) (ch1_length_timer s) (ch1_sweep_enabled s) (ch1_shadow_freq s) (ch1_sweep_timer s) (ch1_frequency_timer s) (ch1_wave_duty_position s) (ch1_current_volume s) (ch1_env_period_timer s) (ch2_channel_enable s) (ch2_length_timer s) (ch2_frequency_timer s) (ch2_wave_duty_position s) (ch2_current_volume s) (ch2_env_period_timer s) (ch3_channel_enable s) (ch3_length_timer s) (ch3_frequency_timer s) (ch3_wave_position s) (output s) (last_clock s) (sample_frequency s) (sample_mod s).
Definition set_on (v : bool) (s : SoundController) : SoundController :=
  mkSoundController (nr10 s) (nr11 s) (nr12 s) (nr13 s) (nr14 s) (nr21 s) (nr22 s) (nr23 s) (nr24 s) (nr30 s) (nr31 s) (nr32 s) (nr33 s) (nr34 s) (ch3_wave_pattern s) (nr41 s) (nr42 s) (nr43 s) (nr44 s) (nr50 s) (nr51 s) (nr52 s) v (ch1_channel_enable s) (ch1_length_timer s) (ch1_sweep_enabled s) (ch1_shadow_freq s) (ch1_sweep_timer s) (ch1_frequency_timer s) (ch1_wave_duty_position s) (ch1_current_volume s) (ch1_env_period_timer s) (ch2_channel_enable s) (ch2_length_timer s) (ch2_frequency_timer s) (ch2_wave_duty_position s) (ch2_current_volume s) (ch2_env_period_timer s) (ch3_channel_enable s) (ch3_length_timer s) (ch3_frequency_timer s) (ch3_wave_position s) (output s) (last_clock s) (sample_frequency s) (sample_mod s).
Definition set_ch1_channel_enable (v : bool) (s : SoundController) : SoundController :=
  mkSoundController (nr10 s) (nr11 s) (nr12 s) (nr13 s) (nr14 s) (nr21 s) (nr22 s) (nr23 s) (nr24 s) (nr30 s) (nr31 s) (nr32 s) (nr33 s) (nr34 s) (ch3_wave_pattern s) (nr41 s) (nr42 s) (nr43 s) (nr44 s) (nr50 s) (nr51 s) (nr52 s) (on s) v (ch1_length_timer s) (ch1_sweep_enabled s) (ch1_shadow_freq s) (ch1_sweep_timer s) (ch1_frequency_timer s) (ch1_wave_duty_position s) (ch1_current_volume s) (ch1_env_period_timer s) (ch2_channel_enable s) (ch2_length_timer s) (ch2_frequency_timer s) (ch2_wave_duty_position s) (ch2_current_volume s) (ch2_env_period_timer s) (ch3_channel_enable s) (ch3_length_timer s) (ch3_frequency_timer s) (ch3_wave_position s) (output s) (last_clock s) (sample_frequency s) (sample_mod s).
Definition set_ch1_length_timer (v : Z) (s : SoundController) : SoundController :=
  mkSoundController (nr10 s) (nr11 s) (nr12 s) (nr13 s) (nr14 s) (nr21 s) (nr22 s) (nr23 s) (nr24 s) (nr30 s) (nr31 s) (nr32 s) (nr33 s) (nr34 s) (ch3_wave_pattern s) (nr41 s) (nr42 s) (nr43 s) (nr44 s) (nr50 s) (nr51 s) (nr52 s) (on s) (ch1_channel_enable s) v (ch1_sweep_enabled s) (ch1_shadow_freq s) (ch1_sweep_timer s) (ch1_frequency_timer s) (ch1_wave_duty_position s) (ch1_current_volume s) (ch1_env_period_timer s) (ch2_channel_enable s) (ch2_length_timer s) (ch2_frequency_timer s) (ch2_wave_duty_position s) (ch2_current_volume s) (ch2_env_period_timer s) (ch3_channel_enable s) (ch3_length_timer s) (ch3_frequency_timer s) (ch3_wave_position s) (output s) (last_clock s) (sample_frequency s) (sample_mod s).
Definition set_ch1_sweep_enabled (v : bool) (s : SoundController) : SoundController :=
  mkSoundController (nr10 s) (nr11 s) (nr12 s) (nr13 s) (nr14 s) (nr21 s) (nr22 s) (nr23 s) (nr24 s) (nr30 s) (nr31 s) (nr32 s) (nr33 s) (nr34 s) (ch3_wave_pattern s) (nr41 s) (nr42 s) (nr43 s) (nr44 s) (nr50 s) (nr51 s) (nr52 s) (on s) (ch1_channel_enable s) (ch1_length_timer s) v (ch1_shadow_freq s) (ch1_sweep_timer s) (ch1_frequency_timer s) (ch1_wave_duty_position s) (ch1_current_volume s) (ch1_env_period_timer s) (ch2_channel_enable s) (ch2_length_timer s) (ch2_frequency_timer s) (ch2_wave_duty_position s) (ch2_current_volume s) (ch2_env_period_timer s) (ch3_channel_enable s) (ch3_length_timer s) (ch3_frequency_timer s) (ch3_wave_position s) (output s) (last_clock s) (sample_frequency s) (sample_mod s).
Definition set_ch1_shadow_freq (v : Z) (s : SoundController) : SoundController :=
  mkSoundController (nr10 s) (nr11 s) (nr12 s) (nr13 s) (nr14 s) (nr21 s) (nr22 s) (nr23 s) (nr24 s) (nr30 s) (nr31 s) (nr32 s) (nr33 s) (nr34 s) (ch3_wave_pattern s) (nr41 s) (nr42 s) (nr43 s) (nr44 s) (nr50 s) (nr51 s) (nr52 s) (on s) (ch1_channel_enable s) (ch1_length_timer s) (ch1_sweep_enabled s) v (ch1_sweep_timer s) (ch1_frequency_timer s) (ch1_wave_duty_position s) (ch1_current_volume s) (ch1_env_period_timer s) (ch2_channel_enable s) (ch2_length_timer s) (ch2_frequency_timer s) (ch2_wave_duty_position s) (ch2_current_volume s) (ch2_env_period_timer s) (ch3_channel_enable s) (ch3_length_timer s) (ch3_frequency_timer s) (ch3_wave_position s) (output s) (last_clock s) (sample_frequency s) (sample_mod s).
Definition set_ch1_sweep_timer (v : Z) (s : SoundController) : SoundController :=
  mkSoundController (nr10 s) (nr11 s) (nr12 s) (nr13 s) (nr14 s) (nr21 s) (nr22 s) (nr23 s) (nr24 s) (nr30 s) (nr31 s) (nr32 s) (nr33 s) (nr34 s) (ch3_wave_pattern s) (nr41 s) (nr42 s) (nr43 s) (nr44 s) (nr50 s) (nr51 s) (nr52 s) (on s) (ch1_channel_enable s) (ch1_length_timer s) (ch1_sweep_enabled s) (ch1_shadow_freq s) v (ch1_frequency_timer s) (ch1_wave_duty_position s) (ch1_current_volume s) (ch1_env_period_timer s) (ch2_channel_enable s) (ch2_length_timer s) (ch2_frequency_timer s) (ch2_wave_duty_position s) (ch2_current_volume s) (ch2_env_period_timer s) (ch3_channel_enable s) (ch3_length_timer s) (ch3_frequency_timer s) (ch3_wave_position s) (output s) (last_clock s) (sample_frequency s) (sample_mod s).
Definition set_ch1_frequency_timer (v : Z) (s : SoundController) : SoundController :=
  mkSoundController (nr10 s) (nr11 s) (nr12 s) (nr13 s) (nr14 s) (nr21 s) (nr22 s) (nr23 s) (nr24 s) (nr30 s) (nr31 s) (nr32 s) (nr33 s) (nr34 s) (ch3_wave_pattern s) (nr41 s) (nr42 s) (nr43 s) (nr44 s) (nr50 s) (nr51 s) (nr52 s) (on s) (ch1_channel_enable s) (ch1_length_timer s) (ch1_sweep_enabled s) (ch1_shadow_freq s) (ch1_sweep_timer s) v (ch1_wave_duty_position s) (ch1_current_volume s) (ch1_env_period_timer s) (ch2_channel_enable s) (ch2_length_timer s) (ch2_frequency_timer s) (ch2_wave_duty_position s) (ch2_current_volume s) (ch2_env_period_timer s) (ch3_channel_enable s) (ch3_length_timer s) (ch3_frequency_timer s) (ch3_wave_position s) (output s) (last_clock s) (sample_frequency s) (sample_mod s).
Definition set_ch1_wave_duty_position (v : Z) (s : SoundController) : SoundController :=
  mkSoundController (nr10 s) (nr11 s) (nr12 s) (nr13 s) (nr14 s) (nr21 s) (nr22 s) (nr23 s) (nr24 s) (nr30 s) (nr31 s) (nr32 s) (nr33 s) (nr34 s) (ch3_wave_pattern s) (nr41 s) (nr42 s) (nr43 s) (nr44 s) (nr50 s) (nr51 s) (nr52 s) (on s) (ch1_channel_enable s) (ch1_length_timer s) (ch1_sweep_enabled s) (ch1_shadow_freq s) (ch1_sweep_timer s) (ch1_frequency_timer s) v (ch1_current_volume s) (ch1_env_period_timer s) (ch2_channel_enable s) (ch2_length_timer s) (ch2_frequency_timer s) (ch2_wave_duty_position s) (ch2_current_volume s) (ch2_env_period_timer s) (ch3_channel_enable s) (ch3_length_timer s) (ch3_frequency_timer s) (ch3_wave_position s) (output s) (last_clock s) (sample_frequency s) (sample_mod s).
Definition set_ch1_current_volume (v : Z) (s : SoundController) : SoundController :=
  mkSoundController (nr10 s) (nr11 s) (nr12 s) (nr13 s) (nr14 s) (nr21 s) (nr22 s) (nr23 s) (nr24 s) (nr30 s) (nr31 s) (nr32 s) (nr33 s) (nr34 s) (ch3_wave_pattern s) (nr41 s) (nr42 s) (nr43 s) (nr44 s) (nr50 s) (nr51 s) (nr52 s) (on s) (ch1_channel_enable s) (ch1_length_timer s) (ch1_sweep_enabled s) (ch1_shadow_freq s) (ch1_sweep_timer s) (ch1_frequency_timer s) (ch1_wave_duty_position s) v (ch1_env_period_timer s) (ch2_channel_enable s) (ch2_length_timer s) (ch2_frequency_timer s) (ch2_wave_duty_position s) (ch2_current_volume s) (ch2_env_period_timer s) (ch3_channel_enable s) (ch3_length_timer s) (ch3_frequency_timer s) (ch3_wave_position s) (output s) (last_clock s) (sample_frequency s) (sample_mod s).
Definition set_ch1_env_period_timer (v : Z) (s : SoundController) : SoundController :=
  mkSoundController (nr10 s) (nr11 s) (nr12 s) (nr13 s) (nr14 s) (nr21 s) (nr22 s) (nr23 s) (nr24 s) (nr30 s) (nr31 s) (nr32 s) (nr33 s) (nr34 s) (ch3_wave_pattern s) (nr41 s) (nr42 s) (nr43 s) (nr44 s) (nr50 s) (nr51 s) (nr52 s) (on s) (ch1_channel_enable s) (ch1_length_timer s) (ch1_sweep_enabled s) (ch1_shadow_freq s) (ch1_sweep_timer s) (ch1_frequency_timer s) (ch1_wave_duty_position s) (ch1_current_volume s) v (ch2_channel_enable s) (ch2_length_timer s) (ch2_frequency_timer s) (ch2_wave_duty_position s) (ch2_current_volume s) (ch2_env_period_timer s) (ch3_channel_enable s) (ch3_length_timer s) (ch3_frequency_timer s) (ch3_wave_position s) (output s) (last_clock s) (sample_frequency s) (sample_mod s).
Definition set_ch2_channel_enable (v : bool) (s : SoundController) : SoundController :=
  mkSoundController (nr10 s) (nr11 s) (nr12 s) (nr13 s) (nr14 s) (nr21 s) (nr22 s) (nr23 s) (nr24 s) (nr30 s) (nr31 s) (nr32 s) (nr33 s) (nr34 s) (ch3_wave_pattern s) (nr41 s) (nr42 s) (nr43 s) (nr44 s) (nr50 s) (nr51 s) (nr52 s) (on s) (ch1_channel_enable s) (ch1_length_timer s) (ch1_sweep_enabled s) (ch1_shadow_freq s) (ch1_sweep_timer s) (ch1_frequency_timer s) (ch1_wave_duty_position s) (ch1_current_volume s) (ch1_env_period_timer s) v (ch2_length_timer s) (ch2_frequency_timer s) (ch2_wave_duty_position s) (ch2_current_volume s) (ch2_env_period_timer s) (ch3_channel_enable s) (ch3_length_timer s) (ch3_frequency_timer s) (ch3_wave_position s) (output s) (last_clock s) (sample_frequency s) (sample_mod s).
Definition set_ch2_length_timer (v : Z) (s : SoundController) : SoundController :=
  mkSoundController (nr10 s) (nr11 s) (nr12 s) (nr13 s) (nr14 s) (nr21 s) (nr22 s) (nr23 s) (nr24 s) (nr30 s) (nr31 s) (nr32 s) (nr33 s) (nr34 s) (ch3_wave_pattern s) (nr41 s) (nr42 s) (nr43 s) (nr44 s) (nr50 s) (nr51 s) (nr52 s) (on s) (ch1_channel_enable s) (ch1_length_timer s) (ch1_sweep_enabled s) (ch1_shadow_freq s) (ch1_sweep_timer s) (ch1_frequency_timer s) (ch1_wave_duty_position s) (ch1_current_volume s) (ch1_env_period_timer s) (ch2_channel_enable s) v (ch2_frequency_timer s) (ch2_wave_duty_position s) (ch2_current_volume s) (ch2_env_period_timer s) (ch3_channel_enable s) (ch3_length_timer s) (ch3_frequency_timer s) (ch3_wave_position s) (output s) (last_clock s) (sample_frequency s) (sample_mod s).
Definition set_ch2_frequency_timer (v : Z) (s : SoundController) : SoundController :=
  mkSoundController (nr10 s) (nr11 s) (nr12 s) (nr13 s) (nr14 s) (nr21 s) (nr22 s) (nr23 s) (nr24 s) (nr30 s) (nr31 s) (nr32 s) (nr33 s) (nr34 s) (ch3_wave_pattern s) (nr41 s) (nr42 s) (nr43 s) (nr44 s) (nr50 s) (nr51 s) (nr52 s) (on s) (ch1_channel_enable s) (ch1_length_timer s) (ch1_sweep_enabled s) (ch1_shadow_freq s) (ch1_sweep_timer s) (ch1_frequency_timer s) (ch1_wave_duty_position s) (ch1_current_volume s) (ch1_env_period_timer s) (ch2_channel_enable s) (ch2_length_timer s) v (ch2_wave_duty_position s) (ch2_current_volume s) (ch2_env_period_timer s) (ch3_channel_enable s) (ch3_length_timer s) (ch3_frequency_timer s) (ch3_wave_position s) (output s) (last_clock s) (sample_frequency s) (sample_mod s).
Definition set_ch2_wave_duty_position (v : Z) (s : SoundController) : SoundController :=
  mkSoundController (nr10 s) (nr11 s) (nr12 s) (nr13 s) (nr14 s) (nr21 s) (nr22 s) (nr23 s) (nr24 s) (nr30 s) (nr31 s) (nr32 s) (nr33 s) (nr34 s) (ch3_wave_pattern s) (nr41 s) (nr42 s) (nr43 s) (nr44 s) (nr50 s) (nr51 s) (nr52 s) (on s) (ch1_channel_enable s) (ch1_length_timer s) (ch1_sweep_enabled s) (ch1_shadow_freq s) (ch1_sweep_timer s) (ch1_frequency_timer s) (ch1_wave_duty_position s) (ch1_current_volume s) (ch1_env_period_timer s) (ch2_channel_enable s) (ch2_length_timer s) (ch2_frequency_timer s) v (ch2_current_volume s) (ch2_env_period_timer s) (ch3_channel_enable s) (ch3_length_timer s) (ch3_frequency_timer s) (ch3_wave_position s) (output s) (last_clock s) (sample_frequency s) (sample_mod s).
Definition set_ch2_current_volume (v : Z) (s : SoundController) : SoundController :=
  mkSoundController (nr10 s) (nr11 s) (nr12 s) (nr13 s) (nr14 s) (nr21 s) (nr22 s) (nr23 s) (nr24 s) (nr30 s) (nr31 s) (nr32 s) (nr33 s) (nr34 s) (ch3_wave_pattern s) (nr41 s) (nr42 s) (nr43 s) (nr44 s) (nr50 s) (nr51 s) (nr52 s) (on s) (ch1_channel_enable s) (ch1_length_timer s) (ch1_sweep_enabled s) (ch1_shadow_freq s) (ch1_sweep_timer s) (ch1_frequency_timer s) (ch1_wave_duty_position s) (ch1_current_volume s) (ch1_env_period_timer s) (ch2_channel_enable s) (ch2_length_timer s) (ch2_frequency_timer s) (ch2_wave_duty_position s) v (ch2_env_period_timer s) (ch3_channel_enable s) (ch3_length_timer s) (ch3_frequency_timer s) (ch3_wave_position s) (output s) (last_clock s) (sample_frequency s) (sample_mod s).
Definition set_ch2_env_period_timer (v : Z) (s : SoundController) : SoundController :=
  mkSoundController (nr10 s) (nr11 s) (nr12 s) (nr13 s) (nr14 s) (nr21 s) (nr22 s) (nr23 s) (nr24 s) (nr30 s) (nr31 s) (nr32 s) (nr33 s) (nr34 s) (ch3_wave_pattern s) (nr41 s) (nr42 s) (nr43 s) (nr44 s) (nr50 s) (nr51 s) (nr52 s) (on s) (ch1_channel_enable s) (ch1_length_timer s) (ch1_sweep_enabled s) (ch1_shadow_freq s) (ch1_sweep_timer s) (ch1_frequency_timer s) (ch1_wave_duty_position s) (ch1_current_volume s) (ch1_env_period_timer s) (ch2_channel_enable s) (ch2_length_timer s) (ch2_frequency_timer s) (ch2_wave_duty_position s) (ch2_current_volume s) v (ch3_channel_enable s) (ch3_length_timer s) (ch3_frequency_timer s) (ch3_wave_position s) (output s) (last_clock s) (sample_frequency s) (sample_mod s).
Definition set_ch3_channel_enable (v : bool) (s : SoundController) : SoundController :=
  mkSoundController (nr10 s) (nr11 s) (nr12 s) (nr13 s) (nr14 s) (nr21 s) (nr22 s) (nr23 s) (nr24 s) (nr30 s) (nr31 s) (nr32 s) (nr33 s) (nr34 s) (ch3_wave_pattern s) (nr41 s) (nr42 s) (nr43 s) (nr44 s) (nr50 s) (nr51 s) (nr52 s) (on s) (ch1_channel_enable s) (ch1_length_timer s) (ch1_sweep_enabled s) (ch1_shadow_freq s) (ch1_sweep_timer s) (ch1_frequency_timer s) (ch1_wave_duty_position s) (ch1_current_volume s) (ch1_env_period_timer s) (ch2_channel_enable s) (ch2_length_timer s) (ch2_frequency_timer s) (ch2_wave_duty_position s) (ch2_current_volume s) (ch2_env_period_timer s) v (ch3_length_timer s) (ch3_frequency_timer s) (ch3_wave_position s) (output s) (last_clock s) (sample_frequency s) (sample_mod s).
Definition set_ch3_length_timer (v : Z) (s : SoundController) : SoundController :=
  mkSoundController (nr10 s) (nr11 s) (nr12 s) (nr13 s) (nr14 s) (nr21 s) (nr22 s) (nr23 s) (nr24 s) (nr30 s) (nr31 s) (nr32 s) (nr33 s) (nr34 s) (ch3_wave_pattern s) (nr41 s) (nr42 s) (nr43 s) (nr44 s) (nr50 s) (nr51 s) (nr52 s) (on s) (ch1_channel_enable s) (ch1_length_timer s) (ch1_sweep_enabled s) (ch1_shadow_freq s) (ch1_sweep_timer s) (ch1_frequency_timer s) (ch1_wave_duty_position s) (ch1_current_volume s) (ch1_env_period_timer s) (ch2_channel_enable s) (ch2_length_timer s) (ch2_frequency_timer s) (ch2_wave_duty_position s) (ch2_current_volume s) (ch2_env_period_timer s) (ch3_channel_enable s) v (ch3_frequency_timer s) (ch3_wave_position s) (output s) (last_clock s) (sample_frequency s) (sample_mod s).
Definition set_ch3_frequency_timer (v : Z) (s : SoundController) : SoundController :=
  mkSoundController (nr10 s) (nr11 s) (nr12 s) (nr13 s) (nr14 s) (nr21 s) (nr22 s) (nr23 s) (nr24 s) (nr30 s) (nr31 s) (nr32 s) (nr33 s) (nr34 s) (ch3_wave_pattern s) (nr41 s) (nr42 s) (nr43 s) (nr44 s) (nr50 s) (nr51 s) (nr52 s) (on s) (ch1_channel_enable s) (ch1_length_timer s) (ch1_sweep_enabled s) (ch1_shadow_freq s) (ch1_sweep_timer s) (ch1_frequency_timer s) (ch1_wave_duty_position s) (ch1_current_volume s) (ch1_env_period_timer s) (ch2_channel_enable s) (ch2_length_timer s) (ch2_frequency_timer s) (ch2_wave_duty_position s) (ch2_current_volume s) (ch2_env_period_timer s) (ch3_channel_enable s) (ch3_length_timer s) v (ch3_wave_position s) (output s) (last_clock s) (sample_frequency s) (sample_mod s).
Definition set_ch3_wave_position (v : Z) (s : SoundController) : SoundController :=
  mkSoundController (nr10 s) (nr11 s) (nr12 s) (nr13 s) (nr14 s) (nr21 s) (nr22 s) (nr23 s) (nr24 s) (nr30 s) (nr31 s) (nr32 s) (nr33 s) (nr34 s) (ch3_wave_pattern s) (nr41 s) (nr42 s) (nr43 s) (nr44 s) (nr50 s) (nr51 s) (nr52 s) (on s) (ch1_channel_enable s) (ch1_length_timer s) (ch1_sweep_enabled s) (ch1_shadow_freq s) (ch1_sweep_timer s) (ch1_frequency_timer s) (ch1_wave_duty_position s) (ch1_current_volume s) (ch1_env_period_timer s) (ch2_channel_enable s) (ch2_length_timer s) (ch2_frequency_timer s) (ch2_wave_duty_position s) (ch2_current_volume s) (ch2_env_period_timer s) (ch3_channel_enable s) (ch3_length_timer s) (ch3_frequency_timer s) v (output s) (last_clock s) (sample_frequency s) (sample_mod s).
Definition set_output (v : list Z) (s : SoundController) : SoundController :=
  mkSoundController (nr10 s) (nr11 s) (nr12 s) (nr13 s) (nr14 s) (nr21 s) (nr22 s) (nr23 s) (nr24 s) (nr30 s) (nr31 s) (nr32 s) (nr33 s) (nr34 s) (ch3_wave_pattern s) (nr41 s) (nr42 s) (nr43 s) (nr44 s) (nr50 s) (nr51 s) (nr52 s) (on s) (ch1_channel_enable s) (ch1_length_timer s) (ch1_sweep_enabled s) (ch1_shadow_freq s) (ch1_sweep_timer s) (ch1_frequency_timer s) (ch1_wave_duty_position s) (ch1_current_volume s) (ch1_env_period_timer s) (ch2_channel_enable s) (ch2_length_timer s) (ch2_frequency_timer s) (ch2_wave_duty_position s) (ch2_current_volume s) (ch2_env_period_timer s) (ch3_channel_enable s) (ch3_length_timer s) (ch3_frequency_timer s) (ch3_wave_position s) v (last_clock s) (sample_frequency s) (sample_mod s).
Definition set_last_clock (v : Z) (s : SoundController) : SoundController :=
  mkSoundController (nr10 s) (nr11 s) (nr12 s) (nr13 s) (nr14 s) (nr21 s) (nr22 s) (nr23 s) (nr24 s) (nr30 s) (nr31 s) (nr32 s) (nr33 s) (nr34 s) (ch3_wave_pattern s) (nr41 s) (nr42 s) (nr43 s) (nr44 s) (nr50 s) (nr51 s) (nr52 s) (on s) (ch1_channel_enable s) (ch1_length_timer s) (ch1_sweep_enabled s) (ch1_shadow_freq s) (ch1_sweep_timer s) (ch1_frequency_timer s) (ch1_wave_duty_position s) (ch1_current_volume s) (ch1_env_period_timer s) (ch2_channel_enable s) (ch2_length_timer s) (ch2_frequency_timer s) (ch2_wave_duty_position s) (ch2_current_volume s) (ch2_env_period_timer s) (ch3_channel_enable s) (ch3_length_timer s) (ch3_frequency_timer s) (ch3_wave_position s) (output s) v (sample_frequency s) (sample_mod s).
Definition set_sample_frequency (v : Z) (s : SoundController) : SoundController :=
  mkSoundController (nr10 s) (nr11 s) (nr12 s) (nr13 s) (nr14 s) (nr21 s) (nr22 s) (nr23 s) (nr24 s) (nr30 s) (nr31 s) (nr32 s) (nr33 s) (nr34 s) (ch3_wave_pattern s) (nr41 s) (nr42 s) (nr43 s) (nr44 s) (nr50 s) (nr51 s) (nr52 s) (on s) (ch1_channel_enable s) (ch1_length_timer s) (ch1_sweep_enabled s) (ch1_shadow_freq s) (ch1_sweep_timer s) (ch1_frequency_timer s) (ch1_wave_duty_position s) (ch1_current_volume s) (ch1_env_period_timer s) (ch2_channel_enable s) (ch2_length_timer s) (ch2_frequency_timer s) (ch2_wave_duty_position s) (ch2_current_volume s) (ch2_env_period_timer s) (ch3_channel_enable s) (ch3_length_timer s) (ch3_frequency_timer s) (ch3_wave_position s) (output s) (last_clock s) v (sample_mod s).
Definition set_sample_mod (v : Z) (s : SoundController) : SoundController :=
  mkSoundController (nr10 s) (nr11 s) (nr12 s) (nr13 s) (nr14 s) (nr21 s) (nr22 s) (nr23 s) (nr24 s) (nr30 s) (nr31 s) (nr32 s) (nr33 s) (nr34 s) (ch3_wave_pattern s) (nr41 s) (nr42 s) (nr43 s) (nr44 s) (nr50 s) (nr51 s) (nr52 s) (on s) (ch1_channel_enable s) (ch1_length_timer s) (ch1_sweep_enabled s) (ch1_shadow_freq s) (ch1_sweep_timer s) (ch1_frequency_timer s) (ch1_wave_duty_position s) (ch1_current_volume s) (ch1_env_period_timer s) (ch2_channel_enable s) (ch2_length_timer s) (ch2_frequency_timer s) (ch2_wave_duty_position s) (ch2_current_volume s) (ch2_env_period_timer s) (ch3_channel_enable s) (ch3_length_timer s) (ch3_frequency_timer s) (ch3_wave_position s) (output s) (last_clock s) (sample_frequency s) v.

(** [impl Default for SoundController]. *)
Definition sound_default : SoundController :=
  mkSoundController 0 0 0 0 0  0 0 0 0  0 0 0 0 0 (repeat 0 16)
    0 0 0 0 0 0 0
    false
    false 0 false 0 0 0 0 0 0
    false 0 0 0 0 0
    false 0 0 0
    [] 0 48000 0.

Definition WAVE_DUTY_TABLE : list Z := [1; 3; 15; 252].

(** [u16::from_be_bytes([hi, lo]) & 0x07FF]. *)
Definition freq_of (hi lo : Z) : Z := Z.land (hi * 256 + lo) 2047.

(** [SoundController::calculate_frequency]: returns the new state and the
    computed frequency. *)
Definition calculate_frequency (s : SoundController) (ch1_sweep_shift : Z)
    (is_downwards : bool) : SoundController * Z :=
  let new_freq := Z.shiftr (ch1_shadow_freq s) ch1_sweep_shift in
  let new_freq := if is_downwards then ch1_shadow_freq s - new_freq
                  else wrap16 (ch1_shadow_freq s + new_freq) in
  let s := if 2048 <=? new_freq then set_ch1_sweep_enabled false s else s in
  (s, new_freq).

(** The local function [env] of [update]: one envelope step on
    [(period_timer, current_volume)]. *)
Definition env (period period_timer current_volume : Z) (is_upwards : bool)
    : Z * Z :=
  if period =? 0 then (period_timer, current_volume)
  else
    let period_timer := if 0 <? period_timer then period_timer - 1
                        else period_timer in
    if period_timer =? 0 then
      let period_timer := period in
      if (current_volume <? 15) && is_upwards
         || (0 <? current_volume) && negb is_upwards then
        (period_timer, if is_upwards then current_volume + 1
                       else current_volume - 1)
      else (period_timer, current_volume)
    else (period_timer, current_volume).

(** The locals [update] computes from the registers before its loop. *)
Record UpdateParams := mkUpdateParams {
  p_ch1_duty : Z; p_ch1_sweep_period : Z; p_ch1_sweep_direction : bool;
  p_ch1_sweep_shift : Z; p_ch1_env_period : Z; p_ch1_env_direction : bool;
  p_ch2_duty : Z; p_ch2_freq : Z; p_ch2_period : Z; p_ch2_env_direction : bool;
  p_ch3_output_level : Z; p_ch3_freq : Z;
  p_volume_left : Z; p_ch1_left : bool; p_ch2_left : bool; p_ch3_left : bool;
  p_volume_right : Z; p_ch1_right : bool; p_ch2_right : bool; p_ch3_right : bool
}.

Definition update_params (s : SoundController) : UpdateParams :=
  mkUpdateParams
    (Z.land (Z.shiftr (nr11 s) 6) 3)
    (Z.shiftr (Z.land (nr10 s) 112) 4)
    (negb (Z.land (nr10 s) 128 =? 0))
    (Z.land (nr10 s) 7)
    (Z.land (nr12 s) 7)
    (negb (Z.land (nr12 s) 8 =? 0))
    (Z.land (Z.shiftr (nr21 s) 6) 3)
    (freq_of (nr24 s) (nr23 s))
    (Z.land (nr22 s) 7)
    (negb (Z.land (nr22 s) 8 =? 0))
    (nth (Z.to_nat (Z.shiftr (Z.land (nr32 s) 96) 5)) [4; 0; 1; 2] 0)
    (freq_of (nr34 s) (nr33 s))
    (Z.shiftr (Z.land (nr50 s) 112) 4)
    (negb (Z.land (nr51 s) 16 =? 0))
    (negb (Z.land (nr51 s) 32 =? 0))
    (negb (Z.land (nr51 s) 64 =? 0))
    (Z.land (nr50 s) 7)
    (negb (Z.land (nr51 s) 1 =? 0))
    (negb (Z.land (nr51 s) 2 =? 0))
    (negb (Z.land (nr51 s) 4 =? 0)).

(** The three frequency timers of one loop iteration of [update]. *)
Definition step_frequency_timers (p : UpdateParams) (ch1_freq : Z)
    (s : SoundController) : SoundController :=
  let s := if ch1_frequency_timer s <=? 1 then
             let s := set_ch1_frequency_timer (wrap16 ((2048 - ch1_freq) * 4)) s in
             set_ch1_wave_duty_position (wrap8 (ch1_wave_duty_position s + 1) mod 8) s
           else set_ch1_frequency_timer (ch1_frequency_timer s - 1) s in
  let s := if ch2_frequency_timer s <=? 1 then
             let s := set_ch2_frequency_timer (wrap16 ((2048 - p_ch2_freq p) * 4)) s in
             set_ch2_wave_duty_position (wrap8 (ch2_wave_duty_position s + 1) mod 8) s
           else set_ch2_frequency_timer (ch2_frequency_timer s - 1) s in
  if ch3_frequency_timer s <=? 1 then
    let s := set_ch3_frequency_timer (wrap16 ((2048 - p_ch3_freq p) * 2)) s in
    set_ch3_wave_position (wrap8 (ch3_wave_position s + 1) mod 32) s
  else set_ch3_frequency_timer (ch3_frequency_timer s - 1) s.

(** The [lenght_ctr] step of the frame sequencer. *)
Definition length_step (s : SoundController) : SoundController :=
  let s := if negb (Z.land (nr14 s) 64 =? 0) && negb (ch1_length_timer s =? 0) then
             let s := set_ch1_length_timer (ch1_length_timer s - 1) s in
             if ch1_length_timer s =? 0 then set_ch1_channel_enable false s else s
           else s in
  let s := if negb (Z.land (nr24 s) 64 =? 0) && negb (ch2_length_timer s =? 0) then
             let s := set_ch2_length_timer (ch2_length_timer s - 1) s in
             if ch2_length_timer s =? 0 then set_ch2_channel_enable false s else s
           else s in
  if negb (Z.land (nr34 s) 64 =? 0) && negb (ch3_length_timer s =? 0) then
    let s := set_ch3_length_timer (ch3_length_timer s - 1) s in
    if ch3_length_timer s =? 0 then set_ch3_channel_enable false s else s
  else s.

(** The [volume_env] step of the frame sequencer. *)
Definition envelope_step (p : UpdateParams) (s : SoundController)
    : SoundController :=
  let '(t1, v1) := env (p_ch1_env_period p) (ch1_env_period_timer s)
                       (ch1_current_volume s) (p_ch1_env_direction p) in
  let s := set_ch1_current_volume v1 (set_ch1_env_period_timer t1 s) in
  let '(t2, v2) := env (p_ch2_period p) (ch2_env_period_timer s)
                       (ch2_current_volume s) (p_ch2_env_direction p) in
  set_ch2_current_volume v2 (set_ch2_env_period_timer t2 s).

(** The [sweep] step of the frame sequencer; it also updates the local
    [ch1_freq] of [update]. *)
Definition sweep_step (p : UpdateParams) (st : SoundController * Z)
    : SoundController * Z :=
  let '(s, ch1_freq) := st in
  let shift := p_ch1_sweep_shift p in
  let dir := p_ch1_sweep_direction p in
  let s := if 0 <? ch1_sweep_timer s then
             set_ch1_sweep_timer (ch1_sweep_timer s - 1) s else s in
  if ch1_sweep_timer s =? 0 then
    let s := set_ch1_sweep_timer
               (if p_ch1_sweep_period p =? 0 then 8 else p_ch1_sweep_period p) s in
    if ch1_sweep_enabled s && negb (p_ch1_sweep_period p =? 0) then
      let '(s, new_freq) := calculate_frequency s shift dir in
      if (new_freq <? 2048) && (0 <? shift) then
        let ch1_freq := new_freq in
        let upper := Z.shiftr ch1_freq 8 in
        let lower := Z.land ch1_freq 255 in
        let s := set_nr14 (Z.lor (Z.land (nr14 s) 248) (Z.land upper 7)) s in
        let s := set_nr13 lower s in
        let s := set_ch1_shadow_freq new_freq s in
        (* do overflow check again *)
        let '(s, _) := calculate_frequency s shift dir in
        (s, ch1_freq)
      else (s, ch1_freq)
    else (s, ch1_freq)
  else (s, ch1_freq).

(** Sample collection at the end of one loop iteration.  A [u8 >> n] with
    [n >= 8] is taken modulo 8 as a release build does. *)
Definition collect_sample (p : UpdateParams) (s : SoundController)
    : SoundController :=
  let s := set_sample_mod
             (wrap64 (sample_mod s + sample_frequency s) mod CLOCK_SPEED) s in
  if sample_mod s <? sample_frequency s then
    let ch1_amp := wrap8 (Z.land (Z.shiftr (nth (Z.to_nat (p_ch1_duty p)) WAVE_DUTY_TABLE 0)
                                   (ch1_wave_duty_position s mod 8)) 1
                          * ch1_current_volume s) in
    let ch2_amp := wrap8 (Z.land (Z.shiftr (nth (Z.to_nat (p_ch2_duty p)) WAVE_DUTY_TABLE 0)
                                   (ch2_wave_duty_position s mod 8)) 1
                          * ch2_current_volume s) in
    let ch3_amp := Z.shiftr
                     (Z.land (Z.shiftr (nth (Z.to_nat (ch3_wave_position s / 2))
                                            (ch3_wave_pattern s) 0)
                                       (nth (Z.to_nat (ch3_wave_position s mod 2)) [4; 0] 0))
                             15)
                     (p_ch3_output_level p) in
    let '(left', right') := (0, 0) in
    let '(left', right') :=
      if ch1_channel_enable s then
        (if p_ch1_left p then wrap16 (left' + ch1_amp) else left',
         if p_ch1_right p then wrap16 (right' + ch1_amp) else right')
      else (left', right') in
    let '(left', right') :=
      if ch2_channel_enable s then
        (if p_ch2_left p then wrap16 (left' + ch2_amp) else left',
         if p_ch2_right p then wrap16 (right' + ch2_amp) else right')
      else (left', right') in
    let '(left', right') :=
      if ch3_channel_enable s && negb (Z.land (nr30 s) 128 =? 0) then
        (if p_ch3_left p then wrap16 (left' + ch3_amp) else left',
         if p_ch3_right p then wrap16 (right' + ch3_amp) else right')
      else (left', right') in
    set_output (output s ++ [wrap16 (left' * p_volume_left p);
                             wrap16 (right' * p_volume_right p)]) s
  else s.

(** One iteration [clock] of the loop [for clock in self.last_clock..clock_count]
    of [update], on the state and the local [ch1_freq]. *)
Definition update_clock (p : UpdateParams) (clock : Z) (st : SoundController * Z)
    : SoundController * Z :=
  let '(s, ch1_freq) := st in
  let s := step_frequency_timers p ch1_freq s in
  let '(s, ch1_freq) :=
    if clock mod (CLOCK_SPEED / 512) =? 0 then
      let lenght_ctr := clock mod (CLOCK_SPEED / 256) =? 0 in
      let volume_env := clock mod (CLOCK_SPEED / 64) =? 0 in
      let sweep := wrap64 (clock + CLOCK_SPEED / 256) mod (CLOCK_SPEED / 128) =? 0 in
      let s := if lenght_ctr then length_step s else s in
      let s := if volume_env then envelope_step p s else s in
      if sweep then sweep_step p (s, ch1_freq) else (s, ch1_freq)
    else (s, ch1_freq) in
  (collect_sample p s, ch1_freq).

Fixpoint update_loop (p : UpdateParams) (n : nat) (clock : Z)
    (st : SoundController * Z) : SoundController * Z :=
  match n with
  | O => st
  | S n' => update_loop p n' (clock + 1) (update_clock p clock st)
  end.

(** [SoundController::update]. *)
Definition update (s : SoundController) (clock_count : Z) : SoundController :=
  if negb (on s) then
    let anchor := last_clock s - last_clock s mod CLOCK_SPEED in
    let l := last_clock s - anchor in
    let r := wrap64 (clock_count - anchor) in
    let fs := sample_frequency s in
    let n := wrap64 (wrap64 (wrap64 (r * fs) / CLOCK_SPEED - wrap64 (l * fs) / CLOCK_SPEED)
                     + (if wrap64 (l * fs) mod CLOCK_SPEED <? fs then 1 else 0)) in
    let s := set_output (output s ++ repeat 0 (Z.to_nat (wrap64 (2 * n)))) s in
    let s := set_last_clock clock_count s in
    let elapsed_clock := wrap64 (clock_count - last_clock s) in
    set_sample_mod (wrap64 (sample_mod s + wrap64 (elapsed_clock * fs)) mod CLOCK_SPEED) s
  else
    let p := update_params s in
    let ch1_freq := freq_of (nr14 s) (nr13 s) in
    let '(s, _) := update_loop p (Z.to_nat (clock_count - last_clock s)) (last_clock s)
                     (s, ch1_freq) in
    set_last_clock clock_count s.

(** The trigger event of a write to NR14 ([value & 0x80 != 0]). *)
Definition ch1_trigger (s : SoundController) : SoundController :=
  let ch1_freq := freq_of (nr14 s) (nr13 s) in
  let ch1_sweep_period := Z.shiftr (Z.land (nr10 s) 112) 4 in
  let ch1_sweep_shift := Z.land (nr10 s) 7 in
  let ch1_sweep_direction := negb (Z.land (nr10 s) 128 =? 0) in
  let s := set_ch1_channel_enable true s in
  let s := if ch1_length_timer s =? 0 then set_ch1_length_timer 64 s else s in
  let s := set_ch1_frequency_timer (wrap16 ((2048 - ch1_freq) * 4)) s in
  let s := set_ch1_wave_duty_position 0 s in
  let s := set_ch1_sweep_timer
             (if ch1_sweep_period =? 0 then 8 else ch1_sweep_period) s in
  let s := set_ch1_shadow_freq (ch1_frequency_timer s) s in
  let s := set_ch1_sweep_enabled
             (negb (ch1_sweep_period =? 0) || negb (ch1_sweep_shift =? 0)) s in
  let s := if negb (ch1_sweep_period =? 0) then
             fst (calculate_frequency s ch1_sweep_shift ch1_sweep_direction)
           else s in
  let s := set_ch1_env_period_timer (Z.land (nr12 s) 7) s in
  set_ch1_current_volume (Z.shiftr (Z.land (nr12 s) 240) 4) s.

(** The trigger event of a write to NR24. *)
Definition ch2_trigger (s : SoundController) : SoundController :=
  let ch2_freq := freq_of (nr24 s) (nr23 s) in
  let s := set_ch2_channel_enable true s in
  let s := if ch2_length_timer s =? 0 then set_ch2_length_timer 64 s else s in
  let s := set_ch2_env_period_timer (Z.land (nr22 s) 7) s in
  let s := set_ch2_current_volume (Z.shiftr (Z.land (nr22 s) 240) 4) s in
  let s := set_ch2_frequency_timer (wrap16 ((2048 - ch2_freq) * 4)) s in
  set_ch2_wave_duty_position 0 s.

(** The trigger event of a write to NR34. *)
Definition ch3_trigger (s : SoundController) : SoundController :=
  let ch3_freq := freq_of (nr34 s) (nr33 s) in
  let s := set_ch3_channel_enable true s in
  let s := if ch3_length_timer s =? 0 then set_ch3_length_timer 256 s else s in
  let s := set_ch3_frequency_timer (wrap16 ((2048 - ch3_freq) * 2)) s in
  set_ch3_wave_position 0 s.

(** [SoundController::write] (the [eprintln!] traces are not modelled). *)
Definition sound_write (s : SoundController) (clock_count address value : Z)
    : res SoundController :=
  let s := update s clock_count in
  if address =? 16 then Ok (set_nr10 value s)
  else if address =? 17 then
    let s := set_nr11 value s in
    Ok (set_ch1_length_timer (64 - Z.land (nr11 s) 63) s)
  else if address =? 18 then Ok (set_nr12 value s)
  else if address =? 19 then Ok (set_nr13 value s)
  else if address =? 20 then
    let s := if negb (Z.land value 128 =? 0) then ch1_trigger s else s in
    Ok (set_nr14 value s)
  else if address =? 22 then Ok (set_nr21 value s)
  else if address =? 23 then Ok (set_nr22 value s)
  else if address =? 24 then
    let s := set_nr23 value s in
    Ok (set_ch2_length_timer (64 - Z.land (nr21 s) 63) s)
  else if address =? 25 then
    let s := if negb (Z.land value 128 =? 0) then ch2_trigger s else s in
    Ok (set_nr24 value s)
  else if address =? 26 then Ok (set_nr30 value s)
  else if address =? 27 then
    let s := set_nr31 value s in
    Ok (set_ch3_length_timer (wrap16 (256 - nr31 s)) s)
  else if address =? 28 then Ok (set_nr32 value s)
  else if address =? 29 then Ok (set_nr33 value s)
  else if address =? 30 then
    let s := if negb (Z.land value 128 =? 0) then ch3_trigger s else s in
    Ok (set_nr34 value s)
  else if address =? 32 then Ok (set_nr41 value s)
  else if address =? 33 then Ok (set_nr42 value s)
  else if address =? 34 then Ok (set_nr43 value s)
  else if address =? 35 then Ok (set_nr44 value s)
  else if address =? 36 then Ok (set_nr50 value s)
  else if address =? 37 then Ok (set_nr51 value s)
  else if address =? 38 then
    (* Bit 7 stop all sounds *)
    if Z.land value 128 =? 0 then
      (* [self.on = false], then [*self = Self::default()] resets all
         registers *)
      Ok sound_default
    else Ok (set_on true s)
  else if (48 <=? address) && (address <=? 63) then
    Ok (set_ch3_wave_pattern
          (list_set (ch3_wave_pattern s) (Z.to_nat (address - 48)) value) s)
  else Err Unreachable.

(** [SoundController::read]. *)
Definition sound_read (s : SoundController) (address : Z) : res Z :=
  if address =? 16 then Ok (nr10 s)
  else if address =? 17 then Ok (nr11 s)
  else if address =? 18 then Ok (nr12 s)
  else if address =? 19 then Ok (nr13 s)
  else if address =? 20 then Ok (nr14 s)
  else if address =? 22 then Ok (nr21 s)
  else if address =? 23 then Ok (nr22 s)
  else if address =? 24 then Ok (nr23 s)
  else if address =? 25 then Ok (nr24 s)
  else if address =? 26 then Ok (nr30 s)
  else if address =? 27 then Ok (nr31 s)
  else if address =? 28 then Ok (nr32 s)
  else if address =? 29 then Ok (nr33 s)
  else if address =? 30 then Ok (nr34 s)
  else if address =? 32 then Ok (nr41 s)
  else if address =? 33 then Ok (nr42 s)
  else if address =? 34 then Ok (nr43 s)
  else if address =? 35 then Ok (nr44 s)
  else if address =? 36 then Ok (nr50 s)
  else if address =? 37 then Ok (nr51 s)
  else if address =? 38 then Ok (nr52 s)
  else if (48 <=? address) && (address <=? 63) then
    Ok (nth (Z.to_nat (address - 48)) (ch3_wave_pattern s) 0)
  else Err Unreachable.

(** [SoundController::get_output]: the output generated up to
    [clock_count]; the buffer of the returned state is empty. *)
Definition get_output (s : SoundController) (clock_count : Z)
    : list Z * SoundController :=
  let s := update s clock_count in
  (output s, set_output [] s).

(** Channel-1 sweep scenario: power on (NR52 = 0x80), NR10 = 0x77, frequency
    2000 = 0x7D0 through NR13 = 0xD0 and NR14 = 0x07, then a trigger
    NR14 = 0x87; all five writes at clock [c0]. *)
Definition ch1_sweep_scenario (s : SoundController) (c0 : Z) : res SoundController :=
  s <- sound_write s c0 38 128 ;;
  s <- sound_write s c0 16 119 ;;
  s <- sound_write s c0 19 208 ;;
  s <- sound_write s c0 20 7 ;;
  sound_write s c0 20 135.

(** ** CPU and timer state ([cpu.rs], [timer.rs] are not among the sources;
    their fields are the ones [GameBoy::reset_after_boot] initialises) *)

Inductive ImeState := Disabled | ToBeEnabled | Enabled.
Inductive CpuState := Running | Halted | Stopped | HaltBug.

Record Cpu := mkCpu {
  a : Z; f : Z; b : Z; c : Z; d : Z; e : Z; h : Z; l : Z;
  sp : Z; pc : Z; ime : ImeState; state : CpuState
}.

Definition set_pc (v : Z) (r : Cpu) : Cpu :=
  mkCpu (a r) (f r) (b r) (c r) (d r) (e r) (h r) (l r) (sp r) v (ime r) (state r).

Record Timer := mkTimer {
  div : Z; tima : Z; tma : Z; tac : Z;
  last_counter_bit : bool; last_clock_count : Z; loading : Z
}.

(** [SERIAL_OFFSET]. *)
Definition SERIAL_OFFSET : Z := 8.

(** ** The system ([gameboy.rs]) *)

(** The arms of the address [match] of [GameBoy::read] and [GameBoy::write],
    for a 16-bit address. *)
Inductive BusRegion :=
| CartridgeRom | VideoRam | CartridgeRam | WorkRam | EchoRam
| SpriteAttributeTable | NotUsable | IoRegisters | HighRam | IeRegister.

Definition bus_region (address : Z) : BusRegion :=
  if address <=? 0x7FFF then CartridgeRom
  else if address <=? 0x9FFF then VideoRam
  else if address <=? 0xBFFF then CartridgeRam
  else if address <=? 0xDFFF then WorkRam
  else if address <=? 0xFDFF then EchoRam
  else if address <=? 0xFE9F then SpriteAttributeTable
  else if address <=? 0xFEFF then NotUsable
  else if address <=? 0xFF7F then IoRegisters
  else if address <=? 0xFFFE then HighRam
  else IeRegister.

(** [if (0xE000..=0xFDFF).contains(&address) { address -= 0x2000; }] *)
Definition echo_rewrite (address : Z) : Z :=
  if (0xE000 <=? address) && (address <=? 0xFDFF) then address - 0x2000
  else address.

(** The I/O addresses dispatched to the sound controller. *)
Definition is_sound_io (address : Z) : bool :=
  (0x10 <=? address) && (address <=? 0x14) || (0x16 <=? address) && (address <=? 0x1e)
  || (0x20 <=? address) && (address <=? 0x26) || (0x30 <=? address) && (address <=? 0x3f).

Definition in_range (lo hi x : Z) : bool := (lo <=? x) && (x <=? hi).

Section GameBoyBus.

(** The cartridge and the PPU are components whose code is not among the
    sources; their types are left abstract. *)
Context {Cartridge Ppu : Type}.

(** [struct GameBoy].  The [trace] cell and the [v_blank] callback take no
    part in the bus, the tick or the serial port and are left out; for the
    serial callback only its presence ([Some]) is recorded: the bytes it is
    called with are the output of the functions below. *)
Record GameBoy := mkGameBoy {
  cpu : Cpu;
  cartridge : Cartridge;
  wram : list Z;
  hram : list Z;
  boot_rom : option (list Z);
  boot_rom_active : bool;
  clock_count : Z;
  timer : Timer;
  sound : SoundController;
  ppu : Ppu;
  joypad_io : Z;
  joypad : Z;
  serial_data : Z;
  serial_control : Z;
  serial_transfer_started : Z;
  serial_transfer_callback : bool;
  interrupt_flag : Z;
  dma : Z;
  interrupt_enabled : Z;
  v_blank_trigger : bool
}.

Definition set_cpu (v : Cpu) (gb : GameBoy) : GameBoy :=
  mkGameBoy v (cartridge gb) (wram gb) (hram gb) (boot_rom gb) (boot_rom_active gb) (clock_count gb) (timer gb) (sound gb) (ppu gb) (joypad_io gb) (joypad gb) (serial_data gb) (serial_control gb) (serial_transfer_started gb) (serial_transfer_callback gb) (interrupt_flag gb) (dma gb) (interrupt_enabled gb) (v_blank_trigger gb).
Definition set_cartridge (v : Cartridge) (gb : GameBoy) : GameBoy :=
  mkGameBoy (cpu gb) v (wram gb) (hram gb) (boot_rom gb) (boot_rom_active gb) (clock_count gb) (timer gb) (sound gb) (ppu gb) (joypad_io gb) (joypad gb) (serial_data gb) (serial_control gb) (serial_transfer_started gb) (serial_transfer_callback gb) (interrupt_flag gb) (dma gb) (interrupt_enabled gb) (v_blank_trigger gb).
Definition set_wram (v : list Z) (gb : GameBoy) : GameBoy :=
  mkGameBoy (cpu gb) (cartridge gb) v (hram gb) (boot_rom gb) (boot_rom_active gb) (clock_count gb) (timer gb) (sound gb) (ppu gb) (joypad_io gb) (joypad gb) (serial_data gb) (serial_control gb) (serial_transfer_started gb) (serial_transfer_callback gb) (interrupt_flag gb) (dma gb) (interrupt_enabled gb) (v_blank_trigger gb).
Definition set_hram (v : list Z) (gb : GameBoy) : GameBoy :=
  mkGameBoy (cpu gb) (cartridge gb) (wram gb) v (boot_rom gb) (boot_rom_active gb) (clock_count gb) (timer gb) (sound gb) (ppu gb) (joypad_io gb) (joypad gb) (serial_data gb) (serial_control gb) (serial_transfer_started gb) (serial_transfer_callback gb) (interrupt_flag gb) (dma gb) (interrupt_enabled gb) (v_blank_trigger gb).
Definition set_boot_rom (v : option (list Z)) (gb : GameBoy) : GameBoy :=
  mkGameBoy (cpu gb) (cartridge gb) (wram gb) (hram gb) v (boot_rom_active gb) (clock_count gb) (timer gb) (sound gb) (ppu gb) (joypad_io gb) (joypad gb) (serial_data gb) (serial_control gb) (serial_transfer_started gb) (serial_transfer_callback gb) (interrupt_flag gb) (dma gb) (interrupt_enabled gb) (v_blank_trigger gb).
Definition set_boot_rom_active (v : bool) (gb : GameBoy) : GameBoy :=
  mkGameBoy (cpu gb) (cartridge gb) (wram gb) (hram gb) (boot_rom gb) v (clock_count gb) (timer gb) (sound gb) (ppu gb) (joypad_io gb) (joypad gb) (serial_data gb) (serial_control gb) (serial_transfer_started gb) (serial_transfer_callback gb) (interrupt_flag gb) (dma gb) (interrupt_enabled gb) (v_blank_trigger gb).
Definition set_clock_count (v : Z) (gb : GameBoy) : GameBoy :=
  mkGameBoy (cpu gb) (cartridge gb) (wram gb) (hram gb) (boot_rom gb) (boot_rom_active gb) v (timer gb) (sound gb) (ppu gb) (joypad_io gb) (joypad gb) (serial_data gb) (serial_control gb) (serial_transfer_started gb) (serial_transfer_callback gb) (interrupt_flag gb) (dma gb) (interrupt_enabled gb) (v_blank_trigger gb).
Definition set_timer (v : Timer) (gb : GameBoy) : GameBoy :=
  mkGameBoy (cpu gb) (cartridge gb) (wram gb) (hram gb) (boot_rom gb) (boot_rom_active gb) (clock_count gb) v (sound gb) (ppu gb) (joypad_io gb) (joypad gb) (serial_data gb) (serial_control gb) (serial_transfer_started gb) (serial_transfer_callback gb) (interrupt_flag gb) (dma gb) (interrupt_enabled gb) (v_blank_trigger gb).
Definition set_sound (v : SoundController) (gb : GameBoy) : GameBoy :=
  mkGameBoy (cpu gb) (cartridge gb) (wram gb) (hram gb) (boot_rom gb) (boot_rom_active gb) (clock_count gb) (timer gb) v (ppu gb) (joypad_io gb) (joypad gb) (serial_data gb) (serial_control gb) (serial_transfer_started gb) (serial_transfer_callback gb) (interrupt_flag gb) (dma gb) (interrupt_enabled gb) (v_blank_trigger gb).
Definition set_ppu (v : Ppu) (gb : GameBoy) : GameBoy :=
  mkGameBoy (cpu gb) (cartridge gb) (wram gb) (hram gb) (boot_rom gb) (boot_rom_active gb) (clock_count gb) (timer gb) (sound gb) v (joypad_io gb) (joypad gb) (serial_data gb) (serial_control gb) (serial_transfer_started gb) (serial_transfer_callback gb) (interrupt_flag gb) (dma gb) (interrupt_enabled gb) (v_blank_trigger gb).
Definition set_joypad_io (v : Z) (gb : GameBoy) : GameBoy :=
  mkGameBoy (cpu gb) (cartridge gb) (wram gb) (hram gb) (boot_rom gb) (boot_rom_active gb) (clock_count gb) (timer gb) (sound gb) (ppu gb) v (joypad gb) (serial_data gb) (serial_control gb) (serial_transfer_started gb) (serial_transfer_callback gb) (interrupt_flag gb) (dma gb) (interrupt_enabled gb) (v_blank_trigger gb).
Definition set_joypad (v : Z) (gb : GameBoy) : GameBoy :=
  mkGameBoy (cpu gb) (cartridge gb) (wram gb) (hram gb) (boot_rom gb) (boot_rom_active gb) (clock_count gb) (timer gb) (sound gb) (ppu gb) (joypad_io gb) v (serial_data gb) (serial_control gb) (serial_transfer_started gb) (serial_transfer_callback gb) (interrupt_flag gb) (dma gb) (interrupt_enabled gb) (v_blank_trigger gb).
Definition set_serial_data (v : Z) (gb : GameBoy) : GameBoy :=
  mkGameBoy (cpu gb) (cartridge gb) (wram gb) (hram gb) (boot_rom gb) (boot_rom_active gb) (clock_count gb) (timer gb) (sound gb) (ppu gb) (joypad_io gb) (joypad gb) v (serial_control gb) (serial_transfer_started gb) (serial_transfer_callback gb) (interrupt_flag gb) (dma gb) (interrupt_enabled gb) (v_blank_trigger gb).
Definition set_serial_control (v : Z) (gb : GameBoy) : GameBoy :=
  mkGameBoy (cpu gb) (cartridge gb) (wram gb) (hram gb) (boot_rom gb) (boot_rom_active gb) (clock_count gb) (timer gb) (sound gb) (ppu gb) (joypad_io gb) (joypad gb) (serial_data gb) v (serial_transfer_started gb) (serial_transfer_callback gb) (interrupt_flag gb) (dma gb) (interrupt_enabled gb) (v_blank_trigger gb).
Definition set_serial_transfer_started (v : Z) (gb : GameBoy) : GameBoy :=
  mkGameBoy (cpu gb) (cartridge gb) (wram gb) (hram gb) (boot_rom gb) (boot_rom_active gb) (clock_count gb) (timer gb) (sound gb) (ppu gb) (joypad_io gb) (joypad gb) (serial_data gb) (serial_control gb) v (serial_transfer_callback gb) (interrupt_flag gb) (dma gb) (interrupt_enabled gb) (v_blank_trigger gb).
Definition set_serial_transfer_callback (v : bool) (gb : GameBoy) : GameBoy :=
  mkGameBoy (cpu gb) (cartridge gb) (wram gb) (hram gb) (boot_rom gb) (boot_rom_active gb) (clock_count gb) (timer gb) (sound gb) (ppu gb) (joypad_io gb) (joypad gb) (serial_data gb) (serial_control gb) (serial_transfer_started gb) v (interrupt_flag gb) (dma gb) (interrupt_enabled gb) (v_blank_trigger gb).
Definition set_interrupt_flag (v : Z) (gb : GameBoy) : GameBoy :=
  mkGameBoy (cpu gb) (cartridge gb) (wram gb) (hram gb) (boot_rom gb) (boot_rom_active gb) (clock_count gb) (timer gb) (sound gb) (ppu gb) (joypad_io gb) (joypad gb) (serial_data gb) (serial_control gb) (serial_transfer_started gb) (serial_transfer_callback gb) v (dma gb) (interrupt_enabled gb) (v_blank_trigger gb).
Definition set_dma (v : Z) (gb : GameBoy) : GameBoy :=
  mkGameBoy (cpu gb) (cartridge gb) (wram gb) (hram gb) (boot_rom gb) (boot_rom_active gb) (clock_count gb) (timer gb) (sound gb) (ppu gb) (joypad_io gb) (joypad gb) (serial_data gb) (serial_control gb) (serial_transfer_started gb) (serial_transfer_callback gb) (interrupt_flag gb) v (interrupt_enabled gb) (v_blank_trigger gb).
Definition set_interrupt_enabled (v : Z) (gb : GameBoy) : GameBoy :=
  mkGameBoy (cpu gb) (cartridge gb) (wram gb) (hram gb) (boot_rom gb) (boot_rom_active gb) (clock_count gb) (timer gb) (sound gb) (ppu gb) (joypad_io gb) (joypad gb) (serial_data gb) (serial_control gb) (serial_transfer_started gb) (serial_transfer_callback gb) (interrupt_flag gb) (dma gb) v (v_blank_trigger gb).
Definition set_v_blank_trigger (v : bool) (gb : GameBoy) : GameBoy :=
  mkGameBoy (cpu gb) (cartridge gb) (wram gb) (hram gb) (boot_rom gb) (boot_rom_active gb) (clock_count gb) (timer gb) (sound gb) (ppu gb) (joypad_io gb) (joypad gb) (serial_data gb) (serial_control gb) (serial_transfer_started gb) (serial_transfer_callback gb) (interrupt_flag gb) (dma gb) (interrupt_enabled gb) v.

(** Interfaces of the components whose code is not among the sources.
    Modelled from the spec: [cartridge.rs], [timer.rs] and [ppu.rs] are
    missing; each handler changes only its own component's state ("shared
    resources ... are owned by their components; the bus brokers every
    access"), the PPU's handlers taking the whole system as the Rust ones
    take [&GameBoy]/[&mut GameBoy] to catch up and to run DMA, and
    [Ppu::start_dma] also giving the new value of the DMA register. *)
Context (cpu_default : Cpu).
Context (cart_read : Cartridge -> Z -> Z).
Context (cart_write : Cartridge -> Z -> Z -> Cartridge).
Context (timer_new : Timer).
Context (timer_read : Timer -> Z -> Z).
Context (timer_write : Timer -> Z -> Z -> Timer).
Context (timer_update : Timer -> Z -> Timer * bool).
Context (ppu_default : Ppu).
Context (ppu_reset_after_boot : Ppu -> Ppu).
Context (ppu_read_vram ppu_read_oam ppu_read : GameBoy -> Z -> Z).
Context (ppu_write_vram ppu_write_oam ppu_write : GameBoy -> Z -> Z -> Ppu).
Context (ppu_start_dma : GameBoy -> Z -> Ppu * Z).
Context (ppu_update : GameBoy -> Ppu * bool * bool).
(** [load_state] of the embedded [after_boot/sound.sav] snapshot, unwrapped. *)
Context (sound_load_after_boot : SoundController -> SoundController).

(** [GameBoy::reset_after_boot]. *)
Definition reset_after_boot (gb : GameBoy) : GameBoy :=
  let gb := set_cpu (mkCpu 0x01 0xb0 0x00 0x13 0x00 0xd8 0x01 0x4d 0xfffe 0x0100
                           Disabled Running) gb in
  let gb := set_wram (repeat 0 0x2000) gb in
  let gb := set_hram (repeat 0 0x7F) gb in
  let gb := set_hram (list_set (list_set (list_set (hram gb) 0x7a 0x39) 0x7b 0x01)
                               0x7c 0x2e) gb in
  let gb := set_boot_rom_active false gb in
  let gb := set_clock_count 23440324 gb in
  let gb := set_ppu (ppu_reset_after_boot (ppu gb)) gb in
  let gb := set_joypad 0xFF gb in
  let gb := set_joypad_io 0xCF gb in
  let gb := set_serial_data 0x00 gb in
  let gb := set_serial_control 0x7E gb in
  let gb := set_timer (mkTimer 0xabcc 0x00 0x00 0xf8 false (clock_count gb) 0) gb in
  let gb := set_interrupt_flag 0xE1 gb in
  set_sound (sound_load_after_boot (sound gb)) gb.

(** [GameBoy::new]. *)
Definition new (boot_rom : option (list Z)) (cartridge : Cartridge) : GameBoy :=
  let this := mkGameBoy cpu_default cartridge (repeat 0 0x2000) (repeat 0 0x7F)
                boot_rom true 0 timer_new sound_default ppu_default
                0x00 0xFF 0 0x7E 0 true 0 0xff 0 false in
  match boot_rom with
  | None => reset_after_boot this
  | Some _ => this
  end.

(** [GameBoy::read_io]. *)
Definition read_io (gb : GameBoy) (address : Z) : res Z :=
  if address =? 0x00 then
    let v := Z.land (joypad_io gb) 0x30 in
    let r := Z.lor v 0xC0 in
    let r := if negb (Z.land v 0x10 =? 0)
             then Z.lor r (Z.land (Z.shiftr (joypad gb) 4) 0x0F) else r in
    let r := if negb (Z.land v 0x20 =? 0) then Z.lor r (Z.land (joypad gb) 0x0F) else r in
    let r := if v =? 0 then Z.lor r 0x0F else r in
    Ok r
  else if address =? 0x01 then Ok (serial_data gb)
  else if address =? 0x02 then Ok (serial_control gb)
  else if address =? 0x03 then Ok 0xff
  else if in_range 0x04 0x07 address then Ok (timer_read (timer gb) address)
  else if in_range 0x08 0x0e address then Ok 0xff
  else if address =? 0x0f then Ok (Z.lor (interrupt_flag gb) 0xE0)
  else if is_sound_io address then sound_read (sound gb) address
  else if (address =? 0x15) || (address =? 0x1f) || in_range 0x27 0x2f address then Ok 0xff
  else if in_range 0x40 0x45 address then Ok (ppu_read gb address)
  else if address =? 0x46 then Ok (dma gb)
  else if in_range 0x47 0x4b address then Ok (ppu_read gb address)
  else if in_range 0x4c 0x7f address then Ok 0xff
  else if in_range 0x80 0xfe address then Ok (nth (Z.to_nat (address - 0x80)) (hram gb) 0)
  else Ok (interrupt_enabled gb).

(** [GameBoy::read]. *)
Definition read (gb : GameBoy) (address : Z) : res Z :=
  if boot_rom_active gb && (address <? 0x100) then
    match boot_rom gb with
    | Some boot_rom => Ok (nth (Z.to_nat address) boot_rom 0)
    | None => Err ExpectFailed (* "the boot rom is only actived when there is one" *)
    end
  else
    let address := echo_rewrite address in
    match bus_region address with
    | CartridgeRom => Ok (cart_read (cartridge gb) address)
    | VideoRam => Ok (ppu_read_vram gb address)
    | CartridgeRam => Ok (cart_read (cartridge gb) address)
    | WorkRam => Ok (nth (Z.to_nat (address - 0xC000)) (wram gb) 0)
    | EchoRam => Err Unreachable
    | SpriteAttributeTable => Ok (ppu_read_oam gb address)
    | NotUsable => Ok 0xff
    | IoRegisters => read_io gb (Z.land address 0xFF)
    | HighRam => Ok (nth (Z.to_nat (address - 0xFF80)) (hram gb) 0)
    | IeRegister => read_io gb (Z.land address 0xFF)
    end.

(** [GameBoy::write_io].  The list returned holds the bytes the serial
    transfer callback is called with. *)
Definition write_io (gb : GameBoy) (address value : Z) : res (GameBoy * list Z) :=
  if address =? 0x00 then Ok (set_joypad_io (Z.lor 0xCF (Z.land value 0x30)) gb, [])
  else if address =? 0x01 then Ok (set_serial_data value gb, [])
  else if address =? 0x02 then
    let gb := set_serial_control (Z.lor value 0x7E) gb in
    if Z.land value 0x81 =? 0x81 then
      (* serial transfer is aligned to a 8192Hz (2^13 Hz) clock. *)
      let gb := set_serial_transfer_started
                  (Z.shiftr (wrap64 (clock_count gb + SERIAL_OFFSET)) 9) gb in
      let data := serial_data gb in
      Ok (gb, if serial_transfer_callback gb then [data] else [])
    else Ok (gb, [])
  else if address =? 0x03 then Ok (gb, [])
  else if in_range 0x04 0x07 address then
    Ok (set_timer (timer_write (timer gb) address value) gb, [])
  else if in_range 0x08 0x0e address then Ok (gb, [])
  else if address =? 0x0f then Ok (set_interrupt_flag value gb, [])
  else if is_sound_io address then
    s <- sound_write (sound gb) (clock_count gb) address value ;;
    Ok (set_sound s gb, [])
  else if (address =? 0x15) || (address =? 0x1f) || in_range 0x27 0x2f address then
    Ok (gb, [])
  else if in_range 0x40 0x45 address then Ok (set_ppu (ppu_write gb address value) gb, [])
  else if address =? 0x46 then
    (* DMA Transfer *)
    let '(p, dma_reg) := ppu_start_dma gb value in
    Ok (set_dma dma_reg (set_ppu p gb), [])
  else if in_range 0x47 0x4b address then Ok (set_ppu (ppu_write gb address value) gb, [])
  else if in_range 0x4c 0x4f address then Ok (gb, [])
  else if address =? 0x50 then
    if boot_rom_active gb && negb (Z.land value 1 =? 0) then
      let gb := set_boot_rom_active false gb in
      Ok (set_cpu (set_pc 0x100 (cpu gb)) gb, [])
    else Ok (gb, [])
  else if in_range 0x51 0x7f address then Ok (gb, [])
  else if in_range 0x80 0xfe address then
    Ok (set_hram (list_set (hram gb) (Z.to_nat (address - 0x80)) value) gb, [])
  else Ok (set_interrupt_enabled value gb, []).

(** [GameBoy::write]. *)
Definition write (gb : GameBoy) (address value : Z) : res (GameBoy * list Z) :=
  let address := echo_rewrite address in
  match bus_region address with
  | CartridgeRom => Ok (set_cartridge (cart_write (cartridge gb) address value) gb, [])
  | VideoRam => Ok (set_ppu (ppu_write_vram gb address value) gb, [])
  | CartridgeRam => Ok (set_cartridge (cart_write (cartridge gb) address value) gb, [])
  | WorkRam => Ok (set_wram (list_set (wram gb) (Z.to_nat (address - 0xC000)) value) gb, [])
  | EchoRam => Err Unreachable
  | SpriteAttributeTable => Ok (set_ppu (ppu_write_oam gb address value) gb, [])
  | NotUsable => Ok (gb, [])
  | IoRegisters => write_io gb (Z.land address 0xFF) value
  | HighRam => Ok (set_hram (list_set (hram gb) (Z.to_nat (address - 0xFF80)) value) gb, [])
  | IeRegister => write_io gb (Z.land address 0xFF) value
  end.

(** [GameBoy::tick]: advance the clock by [count] cycles, then PPU, timer and
    serial.  The list returned holds the bytes the serial callback is called
    with during the tick. *)
Definition tick (gb : GameBoy) (count : Z) : GameBoy * list Z :=
  let gb := set_clock_count (wrap64 (clock_count gb + count)) gb in
  (* ppu *)
  let '(p, v_blank_interrupt, stat_interrupt) := ppu_update gb in
  let gb := set_ppu p gb in
  let gb := if stat_interrupt
            then set_interrupt_flag (Z.lor (interrupt_flag gb) 2) gb else gb in
  let gb := if v_blank_interrupt
            then set_v_blank_trigger true (set_interrupt_flag (Z.lor (interrupt_flag gb) 1) gb)
            else gb in
  (* timer *)
  let '(t, timer_interrupt) := timer_update (timer gb) (clock_count gb) in
  let gb := set_timer t gb in
  let gb := if timer_interrupt
            then set_interrupt_flag (Z.lor (interrupt_flag gb) 4) gb else gb in
  (* serial *)
  let gb := if negb (serial_transfer_started gb =? 0)
               && (wrap64 (serial_transfer_started gb + 7)
                   <? Z.shiftr (wrap64 (clock_count gb + SERIAL_OFFSET)) 9) then
              let gb := set_interrupt_flag (Z.lor (interrupt_flag gb) 8) gb in
              (* clear tranfer flag bit *)
              let gb := set_serial_control (Z.land (serial_control gb) 0x7F) gb in
              set_serial_transfer_started 0 gb
            else gb in
  (gb, []).

(** [GameBoy::read16]: [u16::from_le_bytes([read(address),
    read(address.wrapping_add(1))])]. *)
Definition read16 (gb : GameBoy) (address : Z) : res Z :=
  lo <- read gb address ;;
  hi <- read gb (wrap16 (address + 1)) ;;
  Ok (lo + 256 * hi).

(** [GameBoy::write16]: the two bytes of [value.to_le_bytes()], the low one
    at [address], the high one at [address.wrapping_add(1)]. *)
Definition write16 (gb : GameBoy) (address value : Z) : res (GameBoy * list Z) :=
  let a := Z.land value 0xFF in
  let b := Z.shiftr value 8 in
  r1 <- write gb address a ;;
  let '(gb, out1) := r1 in
  r2 <- write gb (wrap16 (address + 1)) b ;;
  let '(gb, out2) := r2 in
  Ok (gb, out1 ++ out2).

(** [GameBoy::reset]. *)
Definition reset (gb : GameBoy) : GameBoy :=
  match boot_rom gb with
  | None => reset_after_boot gb
  | Some _ =>
      let gb := set_cpu cpu_default gb in
      let gb := set_wram (repeat 0 0x2000) gb in
      let gb := set_hram (repeat 0 0x7F) gb in
      let gb := set_boot_rom_active true gb in
      let gb := set_clock_count 0 gb in
      let gb := set_timer timer_new gb in
      let gb := set_sound sound_default gb in
      let gb := set_ppu ppu_default gb in
      let gb := set_joypad 0xFF gb in
      set_joypad_io 0x00 gb
  end.

End GameBoyBus.

(** ** A concrete instance of the components, to run the model *)

Definition sample_cpu : Cpu := mkCpu 0 0 0 0 0 0 0 0 0 0 Disabled Running.
Definition sample_timer : Timer := mkTimer 0 0 0 0 false 0 0.
Definition sample_cart_read (_ : unit) (_ : Z) : Z := 0xFF.
Definition sample_cart_write (x : unit) (_ _ : Z) : unit := x.
Definition sample_timer_read (_ : Timer) (_ : Z) : Z := 0xFF.
Definition sample_timer_write (t : Timer) (_ _ : Z) : Timer := t.
Definition sample_timer_update (t : Timer) (_ : Z) : Timer * bool := (t, false).
Definition sample_ppu_read (_ : GameBoy (Cartridge:=unit) (Ppu:=unit)) (_ : Z) : Z := 0xFF.
Definition sample_ppu_write (_ : GameBoy (Cartridge:=unit) (Ppu:=unit)) (_ _ : Z) : unit := tt.
Definition sample_ppu_start_dma (_ : GameBoy (Cartridge:=unit) (Ppu:=unit)) (v : Z)
    : unit * Z := (tt, v).
Definition sample_ppu_update (_ : GameBoy (Cartridge:=unit) (Ppu:=unit))
    : unit * bool * bool := (tt, false, false).

(** A running system: clock 1000, no boot ROM, SB = 0x42, callback installed. *)
Definition sample_gb : GameBoy (Cartridge:=unit) (Ppu:=unit) :=
  mkGameBoy sample_cpu tt (repeat 0 0x2000) (repeat 0 0x7F) None false 1000
    sample_timer sound_default tt 0xCF 0xFF 0x42 0x7E 0 true 0 0xFF 0 false.

Definition sample_read :=
  read sample_cart_read sample_timer_read sample_ppu_read sample_ppu_read sample_ppu_read.
Definition sample_write :=
  write sample_cart_write sample_timer_write sample_ppu_write sample_ppu_write
    sample_ppu_write sample_ppu_start_dma.
Definition sample_tick := tick sample_timer_update sample_ppu_update.

(** The channel-1 enable latch with the length counter disabled (NR14 bit 6
    clear) is kept by every step of [SoundController::update]. *)
Definition ch1_on_no_length (s : SoundController) : Prop :=
  ch1_channel_enable s = true /\ Z.land (nr14 s) 64 = 0.

(** The state of [sample_gb] once a write of 0x81 to SC has started a
    transfer: [serial_transfer_started = (1000 + 8) >> 9 = 1]. *)
Definition sample_gb_sending : GameBoy (Cartridge:=unit) (Ppu:=unit) :=
  set_serial_transfer_started 1 (set_serial_control 0xFF sample_gb).

Definition sample_write_result (gb : GameBoy (Cartridge:=unit) (Ppu:=unit))
    (address value : Z) : GameBoy (Cartridge:=unit) (Ppu:=unit) :=
  match sample_write gb address value with
  | Ok (gb', _) => gb'
  | Err _ => gb
  end.

(** A powered, playing APU state: master power on, channels 1-3 enabled,
    NR12 = 0xF3, NR50 = 0x77. *)
Definition sample_apu_on : SoundController :=
  set_nr50 0x77 (set_nr12 0xF3 (set_ch3_channel_enable true
    (set_ch2_channel_enable true (set_ch1_channel_enable true
      (set_on true sound_default))))).

Definition sound_write_result (s : SoundController) (clk address value : Z)
    : SoundController :=
  match sound_write s clk address value with
  | Ok s' => s'
  | Err _ => s
  end.

(** The shape of a system as the Rust types fix it: a boot ROM of 0x100
    bytes present whenever it is active ([Option<[u8; 0x100]>]), 0x2000
    bytes of work RAM and 0x7F of high RAM. *)
Definition well_formed {Cartridge Ppu : Type}
    (gb : GameBoy (Cartridge:=Cartridge) (Ppu:=Ppu)) : Prop :=
  (forall r, boot_rom gb = Some r -> length r = 0x100%nat)
  /\ (boot_rom_active gb = true -> boot_rom gb <> None)
  /\ length (wram gb) = 0x2000%nat
  /\ length (hram gb) = 0x7F%nat.

(** The part of the sound controller state [update] never writes: every
    register but NR13 and NR14 (which a frequency sweep rewrites), the wave
    pattern RAM, the power flag and the sample frequency. *)
Definition sound_frame (s : SoundController) : list Z * list Z * bool * Z :=
  ([nr10 s; nr11 s; nr12 s; nr21 s; nr22 s; nr23 s; nr24 s; nr30 s; nr31 s;
    nr32 s; nr33 s; nr34 s; nr41 s; nr42 s; nr43 s; nr44 s; nr50 s; nr51 s;
    nr52 s], ch3_wave_pattern s, on s, sample_frequency s).

(** Ranges of the channel state: volumes 0-15, duty positions 0-7 and the
    wave position 0-31 (so that [ch3_wave_position / 2] indexes the 16 bytes
    of wave RAM). *)
Definition channel_bounds (s : SoundController) : Prop :=
  0 <= ch1_current_volume s <= 15 /\ 0 <= ch2_current_volume s <= 15
  /\ 0 <= ch1_wave_duty_position s < 8 /\ 0 <= ch2_wave_duty_position s < 8
  /\ 0 <= ch3_wave_position s < 32.

(** [sample_gb] right after power-on with a boot ROM of 0x31 bytes: the
    boot ROM is present and active. *)
Definition sample_gb_boot : GameBoy (Cartridge:=unit) (Ppu:=unit) :=
  set_boot_rom_active true (set_boot_rom (Some (repeat 0x31 0x100)) sample_gb).

(** * Proofs *)

Ltac break_ifs :=
  repeat match goal with
  | |- context [if ?b then _ else _] => destruct b
  | |- context [match ?p with pair _ _ => _ end] => destruct p
  end.

Lemma echo_rewrite_echo (A : Z) :
  0xE000 <= A <= 0xFDFF -> echo_rewrite A = A - 0x2000.
Proof.
  intros H. unfold echo_rewrite.
  destruct (Z.leb_spec 0xE000 A), (Z.leb_spec A 0xFDFF); simpl; lia.
Qed.

Lemma echo_rewrite_other (A : Z) :
  ~ (0xE000 <= A <= 0xFDFF) -> echo_rewrite A = A.
Proof.
  intros H. unfold echo_rewrite.
  destruct (Z.leb_spec 0xE000 A), (Z.leb_spec A 0xFDFF); simpl; lia.
Qed.

Lemma bus_region_echo (x : Z) : bus_region x = EchoRam <-> 0xDFFF < x <= 0xFDFF.
Proof.
  unfold bus_region.
  repeat match goal with |- context [if ?x <=? ?y then _ else _] =>
    destruct (Z.leb_spec x y) end;
  split; intros; try discriminate; try reflexivity; lia.
Qed.

Lemma in_zseq (n : nat) : forall lo x, lo <= x < lo + Z.of_nat n -> In x (zseq lo n).
Proof.
  induction n as [|n IH]; intros lo x H; simpl in *.
  - lia.
  - destruct (Z.eq_dec lo x) as [->|Hne]; [now left|right].
    apply IH; lia.
Qed.

Lemma is_sound_io_in (x : Z) :
  is_sound_io x = true -> In x (zseq 16 5 ++ zseq 22 9 ++ zseq 32 7 ++ zseq 48 16).
Proof.
  intros H. unfold is_sound_io in H.
  repeat rewrite in_app_iff.
  repeat rewrite orb_true_iff in H; repeat rewrite andb_true_iff in H;
    repeat rewrite Z.leb_le in H.
  destruct H as [[[H|H]|H]|H];
    [left|right; left|right; right; left|right; right; right];
    apply in_zseq; simpl; lia.
Qed.

(** The [unreachable!()] arms of [SoundController::read] and
    [SoundController::write] are not reached from the I/O dispatch. *)
Lemma sound_read_io_ok (s : SoundController) (x : Z) :
  is_sound_io x = true -> sound_read s x <> Err Unreachable.
Proof.
  intros H. apply is_sound_io_in in H. simpl in H.
  repeat (destruct H as [<-|H]; [unfold sound_read; simpl; discriminate|]).
  contradiction.
Qed.

Lemma sound_write_io_ok (s : SoundController) (clk x v : Z) :
  is_sound_io x = true -> sound_write s clk x v <> Err Unreachable.
Proof.
  intros H. apply is_sound_io_in in H. simpl in H.
  unfold sound_write; cbv zeta; generalize (update s clk); intros s'.
  repeat (destruct H as [<-|H]; [simpl; break_ifs; discriminate|]).
  contradiction.
Qed.

Lemma bus_region_io (x : Z) : bus_region x = IoRegisters <-> 0xFEFF < x <= 0xFF7F.
Proof.
  unfold bus_region.
  repeat match goal with |- context [if ?x <=? ?y then _ else _] =>
    destruct (Z.leb_spec x y) end;
  split; intros; try discriminate; try reflexivity; lia.
Qed.

Lemma bus_region_ie (x : Z) : bus_region x = IeRegister <-> 0xFFFE < x.
Proof.
  unfold bus_region.
  repeat match goal with |- context [if ?x <=? ?y then _ else _] =>
    destruct (Z.leb_spec x y) end;
  split; intros; try discriminate; try reflexivity; lia.
Qed.

(** [address as u8] on the I/O page. *)
Lemma land_255_io (x : Z) : 0xFF00 <= x <= 0xFFFF -> Z.land x 0xFF = x - 0xFF00.
Proof.
  intros H. change 0xFF with (Z.ones 8). rewrite Z.land_ones by lia.
  Z.div_mod_to_equations. lia.
Qed.

(** An address whose rewritten form lies at or above 0xFE00 is not rewritten. *)
Lemma echo_rewrite_high (A : Z) : 0xFE00 <= echo_rewrite A -> echo_rewrite A = A.
Proof.
  unfold echo_rewrite.
  destruct (Z.leb_spec 0xE000 A), (Z.leb_spec A 0xFDFF); simpl; intros; lia.
Qed.

Ltac break_ifs_in H :=
  repeat match type of H with
  | context [if ?b then _ else _] => destruct b eqn:?
  | context [match ?p with pair _ _ => _ end] => destruct p
  | context [res_bind (sound_write ?s ?c ?x ?v) _] =>
      unfold res_bind in H; destruct (sound_write s c x v)
  end.

Section Properties.

Context {Cartridge Ppu : Type}.
Context (cpu_default : Cpu).
Context (cart_read : Cartridge -> Z -> Z).
Context (cart_write : Cartridge -> Z -> Z -> Cartridge).
Context (timer_new : Timer).
Context (timer_read : Timer -> Z -> Z).
Context (timer_write : Timer -> Z -> Z -> Timer).
Context (timer_update : Timer -> Z -> Timer * bool).
Context (ppu_default : Ppu).
Context (ppu_reset_after_boot : Ppu -> Ppu).
Context (ppu_read_vram ppu_read_oam ppu_read : GameBoy (Cartridge:=Cartridge) (Ppu:=Ppu) -> Z -> Z).
Context (ppu_write_vram ppu_write_oam ppu_write :
          GameBoy (Cartridge:=Cartridge) (Ppu:=Ppu) -> Z -> Z -> Ppu).
Context (ppu_start_dma : GameBoy (Cartridge:=Cartridge) (Ppu:=Ppu) -> Z -> Ppu * Z).
Context (ppu_update : GameBoy (Cartridge:=Cartridge) (Ppu:=Ppu) -> Ppu * bool * bool).
Context (sound_load_after_boot : SoundController -> SoundController).

Local Abbreviation gb_read :=
  (read cart_read timer_read ppu_read_vram ppu_read_oam ppu_read).
Local Abbreviation gb_read_io := (read_io timer_read ppu_read).
Local Abbreviation gb_write :=
  (write cart_write timer_write ppu_write_vram ppu_write_oam ppu_write ppu_start_dma).
Local Abbreviation gb_write_io := (write_io timer_write ppu_write ppu_start_dma).
Local Abbreviation gb_tick := (tick timer_update ppu_update).
Lemma read_io_no_unreachable (gb : GameBoy) (x : Z) :
  gb_read_io gb x <> Err Unreachable.
Proof.
  unfold read_io.
  repeat match goal with |- context [if ?b then _ else _] => destruct b eqn:? end;
    try discriminate.
  now apply sound_read_io_ok.
Qed.

Lemma write_io_no_unreachable (gb : GameBoy) (x v : Z) :
  gb_write_io gb x v <> Err Unreachable.
Proof.
  unfold write_io.
  repeat match goal with
  | |- context [if ?b then _ else _] => destruct b eqn:?
  | |- context [match ?p with pair _ _ => _ end] => destruct p
  end; try discriminate.
  unfold res_bind.
  destruct (sound_write _ _ _ _) eqn:Hw; [discriminate|].
  intros E. inversion E; subst. eapply sound_write_io_ok; eauto.
Qed.

(** C9: for every address and every state, the ECHO-RAM arms
    ([0xE000..=0xFDFF => unreachable!()]) of [GameBoy::read] and
    [GameBoy::write] are never executed: after the mirror rewrite the address
    never decodes to that arm, and neither function panics with
    [unreachable!()]. *)
Theorem echo_arm_never_executed (gb : GameBoy) (A v : Z) :
  bus_region (echo_rewrite A) <> EchoRam
  /\ gb_read gb A <> Err Unreachable
  /\ gb_write gb A v <> Err Unreachable.
Proof.
  assert (Hr : bus_region (echo_rewrite A) <> EchoRam).
  { rewrite bus_region_echo.
    destruct (Z_le_dec 0xE000 A), (Z_le_dec A 0xFDFF).
    - rewrite echo_rewrite_echo by lia. lia.
    - rewrite echo_rewrite_other by lia. lia.
    - rewrite echo_rewrite_other by lia. lia.
    - rewrite echo_rewrite_other by lia. lia. }
  split; [exact Hr|split].
  - unfold read.
    destruct (boot_rom_active gb && (A <? 256)).
    + destruct (boot_rom gb); discriminate.
    + destruct (bus_region (echo_rewrite A)); try discriminate;
        try contradiction; apply read_io_no_unreachable.
  - unfold write.
    destruct (bus_region (echo_rewrite A)); try discriminate;
      try contradiction; apply write_io_no_unreachable.
Qed.

(** C2: ECHO mirror and unusable range.  For every state, an address [A] in
    0xE000-0xFDFF reads as [A - 0x2000] and a write to it produces the same
    post-state (and serial output) as the write to [A - 0x2000]; an address
    in 0xFEA0-0xFEFF reads 0xFF and a write to it leaves the state unchanged. *)
Theorem echo_mirror_and_unusable (gb : GameBoy) (A v : Z) :
  (0xE000 <= A <= 0xFDFF ->
     gb_read gb A = gb_read gb (A - 0x2000)
     /\ gb_write gb A v = gb_write gb (A - 0x2000) v)
  /\ (0xFEA0 <= A <= 0xFEFF ->
     gb_read gb A = Ok 0xFF /\ gb_write gb A v = Ok (gb, [])).
Proof.
  split; intros H.
  - assert (E1 : echo_rewrite A = A - 0x2000) by (apply echo_rewrite_echo; lia).
    assert (E2 : echo_rewrite (A - 0x2000) = A - 0x2000)
      by (apply echo_rewrite_other; lia).
    assert (L1 : (A <? 256) = false) by (apply Z.ltb_ge; lia).
    assert (L2 : (A - 0x2000 <? 256) = false) by (apply Z.ltb_ge; lia).
    unfold read, write. rewrite E1, E2, L1, L2, !andb_false_r. split; reflexivity.
  - assert (E : echo_rewrite A = A) by (apply echo_rewrite_other; lia).
    assert (L : (A <? 256) = false) by (apply Z.ltb_ge; lia).
    assert (R : bus_region A = NotUsable).
    { unfold bus_region.
      repeat match goal with |- context [if ?x <=? ?y then _ else _] =>
        destruct (Z.leb_spec x y) end; first [reflexivity | lia]. }
    unfold read, write. rewrite E, L, andb_false_r, R. split; reflexivity.
Qed.

(** C10: a write to 0xFF50 with bit 0 set while the boot ROM is active
    clears [boot_rom_active] and sets the program counter to 0x0100; any
    other write to 0xFF50 leaves the whole state unchanged. *)
Theorem boot_rom_disable_register (gb : GameBoy) (v : Z) :
  gb_write gb 0xFF50 v =
  Ok (if boot_rom_active gb && negb (Z.land v 1 =? 0)
      then set_cpu (set_pc 0x100 (cpu gb)) (set_boot_rom_active false gb)
      else gb, []).
Proof.
  unfold write, write_io. simpl.
  destruct (boot_rom_active gb && negb (Z.land v 1 =? 0)); reflexivity.
Qed.

(** C8: [GameBoy::new(None, cartridge)] yields the post-boot fingerprint:
    clock 23,440,324, boot ROM inactive, registers A=0x01 F=0xB0 B=0x00
    C=0x13 D=0x00 E=0xD8 H=0x01 L=0x4D SP=0xFFFE PC=0x0100, IME disabled and
    the CPU running. *)
Theorem new_without_boot_rom_fingerprint (cartridge : Cartridge) :
  let gb := new cpu_default timer_new ppu_default ppu_reset_after_boot
              sound_load_after_boot None cartridge in
  clock_count gb = 23440324
  /\ boot_rom_active gb = false
  /\ cpu gb
     = mkCpu 0x01 0xB0 0x00 0x13 0x00 0xD8 0x01 0x4D 0xFFFE 0x0100 Disabled Running.
Proof. repeat split. Qed.

Lemma write_io_clock_count (gb gb' : GameBoy) (x v : Z) (out : list Z) :
  gb_write_io gb x v = Ok (gb', out) -> clock_count gb' = clock_count gb.
Proof.
  unfold write_io. intros H. break_ifs_in H; inversion H; subst; reflexivity.
Qed.

Lemma write_clock_count (gb gb' : GameBoy) (A v : Z) (out : list Z) :
  gb_write gb A v = Ok (gb', out) -> clock_count gb' = clock_count gb.
Proof.
  unfold write. intros H. cbv zeta in H.
  destruct (bus_region (echo_rewrite A));
    try (inversion H; subst; reflexivity);
    eapply write_io_clock_count; eauto.
Qed.

Lemma tick_clock_count (gb : GameBoy) (n : Z) :
  clock_count (fst (gb_tick gb n)) = wrap64 (clock_count gb + n).
Proof.
  unfold tick. break_ifs; reflexivity.
Qed.

(** C1 (as corrected): [GameBoy::write] never changes [clock_count] (and
    [GameBoy::read] takes the state immutably); [clock_count] is advanced
    only by [GameBoy::tick(count)], by exactly [count] modulo 2^64, so it is
    monotonic as long as it does not wrap. *)
Theorem clock_count_only_ticks :
  (forall (gb gb' : GameBoy) (A v : Z) (out : list Z),
     gb_write gb A v = Ok (gb', out) -> clock_count gb' = clock_count gb)
  /\ (forall (gb : GameBoy) (n : Z),
     clock_count (fst (gb_tick gb n)) = wrap64 (clock_count gb + n))
  /\ (forall (gb : GameBoy) (n : Z),
     0 <= clock_count gb -> 0 <= n -> clock_count gb + n < 2^64 ->
     clock_count gb <= clock_count (fst (gb_tick gb n))).
Proof.
  split; [|split].
  - intros. eapply write_clock_count; eauto.
  - apply tick_clock_count.
  - intros gb n H0 H1 H2. rewrite tick_clock_count. unfold wrap64.
    rewrite Z.mod_small; lia.
Qed.

Lemma write_io_serial_out (gb gb' : GameBoy) (x v : Z) (out : list Z) :
  gb_write_io gb x v = Ok (gb', out) ->
  out = if (x =? 2) && (Z.land v 0x81 =? 0x81) && serial_transfer_callback gb
        then [serial_data gb] else [].
Proof.
  unfold write_io. intros H. break_ifs_in H; inversion H; subst gb' out; clear H;
  destruct (Z.eqb_spec x 2) as [->|Hne]; simpl in *; try congruence;
  repeat match goal with E : ?b = true |- context [?b] => rewrite E end;
  repeat match goal with E : ?b = false |- context [?b] => rewrite E end;
  simpl; try reflexivity; destruct (serial_transfer_callback gb); reflexivity.
Qed.

(** C4 (as corrected): the serial callback is called only from a bus write
    to SC (0xFF02) of a value with bits 7 and 0 set, i.e. when a transfer
    starts, with the current SB byte (when a callback is installed); [tick],
    where a transfer completes, never calls it. *)
Theorem serial_callback_on_start :
  (forall (gb gb' : GameBoy) (A v : Z) (out : list Z),
     0 <= A <= 0xFFFF ->
     gb_write gb A v = Ok (gb', out) ->
     out = if (A =? 0xFF02) && (Z.land v 0x81 =? 0x81) && serial_transfer_callback gb
           then [serial_data gb] else [])
  /\ (forall (gb : GameBoy) (n : Z), snd (gb_tick gb n) = []).
Proof.
  split.
  - intros gb gb' A v out HA H. unfold write in H. cbv zeta in H.
    destruct (bus_region (echo_rewrite A)) eqn:R; try discriminate H;
      try (inversion H; subst;
           destruct (A =? 0xFF02) eqn:E; [|reflexivity];
           apply Z.eqb_eq in E; subst; discriminate R).
    + apply write_io_serial_out in H.
      apply bus_region_io in R.
      rewrite (echo_rewrite_high A) in * by lia.
      rewrite land_255_io in H by lia.
      rewrite H. replace (A - 0xFF00 =? 2) with (A =? 0xFF02); [reflexivity|].
      destruct (Z.eqb_spec (A - 0xFF00) 2), (Z.eqb_spec A 0xFF02);
        first [reflexivity | lia].
    + apply write_io_serial_out in H.
      apply bus_region_ie in R.
      rewrite (echo_rewrite_high A) in * by lia.
      assert (A = 0xFFFF) by lia. subst. reflexivity.
  - intros gb n. unfold tick. break_ifs; reflexivity.
Qed.

(** C5: a write to SC of a value with bits 7 and 0 set starts a transfer:
    [serial_transfer_started] becomes [(clock_count + SERIAL_OFFSET) >> 9] and
    SC bit 7 is set.  While a transfer is in progress
    ([serial_transfer_started <> 0]), a tick that brings the 2^13 Hz clock
    [(clock_count + SERIAL_OFFSET) >> 9] to at least
    [serial_transfer_started + 8] (eight bit periods) sets IF bit 3, clears
    SC bit 7 and returns [serial_transfer_started] to 0; any earlier tick
    changes none of the three.  (No wrap of the 64-bit counters.) *)
Theorem serial_transfer_timing :
  (forall (gb gb' : GameBoy) (v : Z) (out : list Z),
     Z.land v 0x81 = 0x81 ->
     gb_write gb 0xFF02 v = Ok (gb', out) ->
     serial_transfer_started gb' = Z.shiftr (wrap64 (clock_count gb + SERIAL_OFFSET)) 9
     /\ Z.land (serial_control gb') 0x80 = 0x80)
  /\ (forall (gb : GameBoy) (n : Z),
     0 <= clock_count gb -> 0 <= n -> clock_count gb + n + SERIAL_OFFSET < 2^64 ->
     0 < serial_transfer_started gb < 2^64 - 7 ->
     let gb' := fst (gb_tick gb n) in
     if serial_transfer_started gb + 8 <=? Z.shiftr (clock_count gb + n + SERIAL_OFFSET) 9
     then Z.testbit (interrupt_flag gb') 3 = true
          /\ Z.land (serial_control gb') 0x80 = 0
          /\ serial_transfer_started gb' = 0
     else Z.testbit (interrupt_flag gb') 3 = Z.testbit (interrupt_flag gb) 3
          /\ serial_control gb' = serial_control gb
          /\ serial_transfer_started gb' = serial_transfer_started gb).
Proof.
  split.
  - intros gb gb' v out Hv H.
    unfold write, write_io in H. simpl in H. rewrite Hv in H. simpl in H.
    inversion H; subst; clear H. simpl. split; [reflexivity|].
    rewrite Z.land_lor_distr_l.
    replace (Z.land v 0x80) with (Z.land (Z.land v 0x81) 0x80)
      by (rewrite <- Z.land_assoc; reflexivity).
    rewrite Hv. reflexivity.
  - intros gb n Hc Hn Hover Hs gb'. subst gb'. unfold tick.
    unfold SERIAL_OFFSET in *.
    destruct (ppu_update _) as [[p vb] st].
    destruct (timer_update _ _) as [t ti].
    cbn -[Z.testbit Z.lor Z.land Z.shiftr Z.ltb Z.leb Z.eqb wrap64].
    assert (W1 : wrap64 (clock_count gb + n) = clock_count gb + n)
      by (unfold wrap64; rewrite Z.mod_small; lia).
    rewrite !W1.
    assert (W2 : wrap64 (clock_count gb + n + 8) = clock_count gb + n + 8)
      by (unfold wrap64; rewrite Z.mod_small; lia).
    assert (W3 : wrap64 (serial_transfer_started gb + 7)
                 = serial_transfer_started gb + 7)
      by (unfold wrap64; rewrite Z.mod_small; lia).
    assert (Hnz : (serial_transfer_started gb =? 0) = false) by (apply Z.eqb_neq; lia).
    assert (T : Z.testbit 1 3 = false /\ Z.testbit 2 3 = false
                /\ Z.testbit 4 3 = false /\ Z.testbit 8 3 = true)
      by (repeat split).
    destruct T as (T1 & T2 & T4 & T8).
    destruct vb, st, ti;
      cbn -[Z.testbit Z.lor Z.land Z.shiftr Z.ltb Z.leb Z.eqb wrap64];
      rewrite ?W2, ?W3, ?Hnz; cbn -[Z.testbit Z.lor Z.land Z.shiftr Z.ltb Z.leb wrap64];
      destruct (Z.leb_spec (serial_transfer_started gb + 8)
                  (Z.shiftr (clock_count gb + n + 8) 9));
      destruct (Z.ltb_spec (serial_transfer_started gb + 7)
                  (Z.shiftr (clock_count gb + n + 8) 9));
      try lia; cbn -[Z.testbit Z.lor Z.land Z.shiftr wrap64];
      rewrite ?Z.lor_spec, ?T1, ?T2, ?T4, ?T8, ?orb_false_r, ?orb_true_r;
      repeat split; try reflexivity;
      rewrite <- Z.land_assoc; apply Z.land_0_r.
Qed.

End Properties.

(** ** Sound controller *)

(** C6: writing a value with bit 7 clear to NR52 turns master power off;
    afterwards every channel-enable latch is false and every register
    NR10-NR52 reads back as zero. *)
Theorem nr52_power_off (s s' : SoundController) (clk v : Z) :
  Z.land v 0x80 = 0 ->
  sound_write s clk 0x26 v = Ok s' ->
  on s' = false
  /\ ch1_channel_enable s' = false
  /\ ch2_channel_enable s' = false
  /\ ch3_channel_enable s' = false
  /\ (forall a, 0x10 <= a <= 0x26 -> a <> 0x15 -> a <> 0x1F -> sound_read s' a = Ok 0).
Proof.
  intros Hv H.
  unfold sound_write in H. cbv zeta in H. generalize dependent (update s clk).
  intros s0 H. simpl in H. rewrite Hv in H. inversion H; subst s'; clear H.
  repeat split.
  intros x Hx H15 H1F.
  assert (Hin : In x (zseq 16 23)) by (apply in_zseq; simpl; lia).
  simpl in Hin.
  repeat (destruct Hin as [<-|Hin]; [first [reflexivity | contradiction] |]).
  contradiction.
Qed.

Lemma calculate_frequency_ch1_on (s : SoundController) (sh : Z) (dn : bool) :
  ch1_on_no_length s -> ch1_on_no_length (fst (calculate_frequency s sh dn)).
Proof. unfold calculate_frequency. break_ifs; simpl; auto. Qed.

Lemma step_frequency_timers_ch1_on p fr s :
  ch1_on_no_length s -> ch1_on_no_length (step_frequency_timers p fr s).
Proof. unfold step_frequency_timers. break_ifs; simpl; auto. Qed.

Lemma length_step_ch1_on s :
  ch1_on_no_length s -> ch1_on_no_length (length_step s).
Proof.
  intros [H1 H2]. unfold length_step. rewrite H2. simpl.
  break_ifs; split; simpl; auto.
Qed.

Lemma envelope_step_ch1_on p s :
  ch1_on_no_length s -> ch1_on_no_length (envelope_step p s).
Proof. unfold envelope_step. break_ifs; simpl; auto. Qed.

Lemma sweep_step_ch1_on p s fr :
  ch1_on_no_length s -> ch1_on_no_length (fst (sweep_step p (s, fr))).
Proof.
  intros H. unfold sweep_step. cbv beta iota zeta.
  set (s1 := if 0 <? ch1_sweep_timer s then _ else s).
  assert (H1 : ch1_on_no_length s1)
    by (subst s1; destruct (_ <? _); [destruct H; split; auto | auto]).
  clearbody s1.
  destruct (ch1_sweep_timer s1 =? 0); [|exact H1].
  set (s2 := set_ch1_sweep_timer _ s1).
  assert (H2 : ch1_on_no_length s2) by (destruct H1; split; auto).
  clearbody s2.
  destruct (ch1_sweep_enabled s2 && _); [|exact H2].
  pose proof (calculate_frequency_ch1_on s2 (p_ch1_sweep_shift p)
                (p_ch1_sweep_direction p) H2) as H3.
  destruct (calculate_frequency s2 _ _) as [s3 nf]. simpl in H3.
  destruct (_ && _); [|exact H3].
  match goal with |- context [calculate_frequency ?s0 ?a ?b] =>
    pose proof (calculate_frequency_ch1_on s0 a b) as H4;
    destruct (calculate_frequency s0 a b) end.
  apply H4. destruct H3 as [H3a H3b]. split; simpl; [exact H3a|].
  rewrite Z.land_lor_distr_l, <- !Z.land_assoc. simpl.
  rewrite Z.land_0_r, Z.lor_0_r. exact H3b.
Qed.

Lemma collect_sample_ch1_on p s :
  ch1_on_no_length s -> ch1_on_no_length (collect_sample p s).
Proof. unfold collect_sample. cbv zeta. break_ifs; simpl; auto. Qed.

Lemma update_clock_ch1_on p clock s fr :
  ch1_on_no_length s -> ch1_on_no_length (fst (update_clock p clock (s, fr))).
Proof.
  intros H. unfold update_clock. cbv beta iota zeta.
  pose proof (step_frequency_timers_ch1_on p fr s H) as H1.
  set (s1 := step_frequency_timers p fr s) in *. clearbody s1.
  set (s2 := if clock mod (CLOCK_SPEED / 256) =? 0 then length_step s1 else s1).
  assert (H2 : ch1_on_no_length s2)
    by (subst s2; destruct (_ =? 0); [apply length_step_ch1_on|]; auto).
  clearbody s2.
  set (s3 := if clock mod (CLOCK_SPEED / 64) =? 0 then envelope_step p s2 else s2).
  assert (H3 : ch1_on_no_length s3)
    by (subst s3; destruct (_ =? 0); [apply envelope_step_ch1_on|]; auto).
  clearbody s3.
  pose proof (sweep_step_ch1_on p s3 fr H3) as H4.
  destruct (sweep_step p (s3, fr)) as [s4 fr4].
  destruct (clock mod (CLOCK_SPEED / 512) =? 0);
    [destruct (_ =? 0)|]; apply collect_sample_ch1_on; assumption.
Qed.

Lemma update_loop_ch1_on p n clock s fr :
  ch1_on_no_length s -> ch1_on_no_length (fst (update_loop p n clock (s, fr))).
Proof.
  revert clock s fr. induction n as [|n IH]; intros clock s fr H;
    cbn [update_loop]; [exact H|].
  pose proof (update_clock_ch1_on p clock s fr H) as H1.
  destruct (update_clock p clock (s, fr)) as [s1 fr1]. apply IH. exact H1.
Qed.

(** [SoundController::update] never clears the channel-1 enable latch while
    the length counter of channel 1 is disabled: with power off it touches
    only the sample bookkeeping, with power on no step clears the latch. *)
Lemma update_ch1_on s clock :
  ch1_on_no_length s -> ch1_on_no_length (update s clock).
Proof.
  intros H. unfold update. destruct (on s); simpl negb; cbv iota zeta.
  - pose proof (update_loop_ch1_on (update_params s)
                  (Z.to_nat (clock - last_clock s)) (last_clock s) s
                  (freq_of (nr14 s) (nr13 s)) H) as H1.
    destruct (update_loop _ _ _ _) as [s1 fr1]. destruct H1; split; auto.
  - destruct H; split; auto.
Qed.

(** A trigger write to NR14 sets the channel-1 enable latch and stores the
    written value in NR14. *)
Lemma nr14_trigger_write s clk v s' :
  Z.land v 128 <> 0 -> sound_write s clk 20 v = Ok s' ->
  ch1_channel_enable s' = true /\ nr14 s' = v.
Proof.
  intros Hv H. unfold sound_write in H. cbv zeta in H. simpl in H.
  destruct (Z.eqb_spec (Z.land v 128) 0) as [E|_]; [contradiction|].
  simpl in H. inversion H; subst s'. clear H. split; [|reflexivity].
  cbn [ch1_channel_enable set_nr14]. unfold ch1_trigger. cbv zeta.
  unfold calculate_frequency; cbv zeta. break_ifs; reflexivity.
Qed.

Lemma ch1_sweep_scenario_ch1_on s c0 s1 :
  ch1_sweep_scenario s c0 = Ok s1 -> ch1_on_no_length s1.
Proof.
  unfold ch1_sweep_scenario, res_bind.
  destruct (sound_write s c0 38 128) as [sa|]; [|discriminate].
  destruct (sound_write sa c0 16 119) as [sb|]; [|discriminate].
  destruct (sound_write sb c0 19 208) as [sc|]; [|discriminate].
  destruct (sound_write sc c0 20 7) as [sd|]; [|discriminate].
  intros H. apply nr14_trigger_write in H; [|discriminate].
  destruct H as [H1 H2]. split; [exact H1|]. rewrite H2. reflexivity.
Qed.

(** C3, as the code behaves: a sweep recalculation whose new frequency is
    at least 2048 clears only [ch1_sweep_enabled] and leaves the channel-1
    enable latch as it was (the channel is not disabled); in particular,
    after the writes NR52 = 0x80, NR10 = 0x77, NR13 = 0xD0, NR14 = 0x07 and
    the trigger NR14 = 0x87, from any state and at any clock, the channel-1
    enable latch is still true after any later [update]. *)
Theorem ch1_sweep_overflow_keeps_latch :
  (forall s sh dn,
     2048 <= snd (calculate_frequency s sh dn) ->
     ch1_sweep_enabled (fst (calculate_frequency s sh dn)) = false
     /\ ch1_channel_enable (fst (calculate_frequency s sh dn)) = ch1_channel_enable s)
  /\ (forall s c0 s1 c,
        ch1_sweep_scenario s c0 = Ok s1 -> ch1_channel_enable (update s1 c) = true).
Proof.
  split.
  - intros s sh dn. unfold calculate_frequency. cbv zeta. simpl snd.
    intros H. apply Z.leb_le in H. rewrite H. split; reflexivity.
  - intros s c0 s1 c H.
    apply (update_ch1_on s1 c), (ch1_sweep_scenario_ch1_on s c0 s1), H.
Qed.

(** C7: the trigger write to NR14 stores the frequency timer
    [(2048 - freq) * 4] in [ch1_shadow_freq], not the frequency: from the
    default state, after NR52 = 0x80, NR13 = 0xD0, NR14 = 0x07 and the
    trigger NR14 = 0x87 (frequency 2000), all at clock 0, the shadow
    frequency is 192 rather than 2000. *)
Theorem ch1_trigger_shadow_is_timer :
  match (s <- sound_write sound_default 0 38 128 ;;
         s <- sound_write s 0 19 208 ;;
         s <- sound_write s 0 20 7 ;;
         sound_write s 0 20 135) with
  | Ok s => freq_of (nr14 s) (nr13 s) = 2000
            /\ ch1_frequency_timer s = 192
            /\ ch1_shadow_freq s = 192
  | Err _ => False
  end.
Proof. vm_compute. repeat split. Qed.

(** ** Concrete runs on the sample instance *)

Lemma echo_mirror_and_unusable_witness :
  ((0xE000 <= 0xE123 <= 0xFDFF)
   /\ sample_read sample_gb 0xE123 = sample_read sample_gb (0xE123 - 0x2000)
   /\ sample_write sample_gb 0xE123 0x5A = sample_write sample_gb (0xE123 - 0x2000) 0x5A)
  /\ ((0xFEA0 <= 0xFEA5 <= 0xFEFF)
      /\ sample_read sample_gb 0xFEA5 = Ok 0xFF
      /\ sample_write sample_gb 0xFEA5 0x5A = Ok (sample_gb, [])).
Proof.
  split.
  - assert (H : 0xE000 <= 0xE123 <= 0xFDFF)
      by (split; apply Z.leb_le; reflexivity).
    split; [exact H|].
    exact (proj1 (echo_mirror_and_unusable sample_cart_read sample_cart_write
                    sample_timer_read sample_timer_write sample_ppu_read
                    sample_ppu_read sample_ppu_read sample_ppu_write
                    sample_ppu_write sample_ppu_write sample_ppu_start_dma
                    sample_gb 0xE123 0x5A) H).
  - assert (H : 0xFEA0 <= 0xFEA5 <= 0xFEFF)
      by (split; apply Z.leb_le; reflexivity).
    split; [exact H|].
    exact (proj2 (echo_mirror_and_unusable sample_cart_read sample_cart_write
                    sample_timer_read sample_timer_write sample_ppu_read
                    sample_ppu_read sample_ppu_read sample_ppu_write
                    sample_ppu_write sample_ppu_write sample_ppu_start_dma
                    sample_gb 0xFEA5 0x5A) H).
Defined.

Lemma clock_count_only_ticks_witness :
  (sample_write sample_gb 0xC000 0x12 = Ok (sample_write_result sample_gb 0xC000 0x12, [])
   /\ clock_count (sample_write_result sample_gb 0xC000 0x12) = clock_count sample_gb)
  /\ ((0 <= clock_count sample_gb /\ 0 <= 4 /\ clock_count sample_gb + 4 < 2 ^ 64)
      /\ clock_count sample_gb <= clock_count (fst (sample_tick sample_gb 4))).
Proof.
  destruct (clock_count_only_ticks sample_cart_write sample_timer_write
              sample_timer_update sample_ppu_write sample_ppu_write
              sample_ppu_write sample_ppu_start_dma sample_ppu_update)
    as [Hw [_ Hm]].
  assert (E : sample_write sample_gb 0xC000 0x12
              = Ok (sample_write_result sample_gb 0xC000 0x12, []))
    by (vm_compute; reflexivity).
  split; [split; [exact E | exact (Hw _ _ _ _ _ E)]|].
  assert (B : 0 <= clock_count sample_gb /\ 0 <= 4 /\ clock_count sample_gb + 4 < 2 ^ 64)
    by (split; [|split]; [apply Z.leb_le | apply Z.leb_le | apply Z.ltb_lt];
        vm_compute; reflexivity).
  destruct B as [B1 [B2 B3]].
  split; [split; [exact B1 | split; [exact B2 | exact B3]] | exact (Hm _ _ B1 B2 B3)].
Defined.

(** C1 refuted: a bus write to work RAM leaves [clock_count] at 1000; it
    does not advance it by 4 (only [tick] advances the clock). *)
Lemma write_does_not_advance_clock :
  sample_write sample_gb 0xC000 0x12 = Ok (sample_write_result sample_gb 0xC000 0x12, [])
  /\ clock_count sample_gb = 1000
  /\ clock_count (sample_write_result sample_gb 0xC000 0x12) = 1000.
Proof. vm_compute. repeat split. Defined.

Lemma serial_callback_on_start_witness :
  ((0 <= 0xFF02 <= 0xFFFF)
   /\ sample_write sample_gb 0xFF02 0x81
      = Ok (sample_write_result sample_gb 0xFF02 0x81, [0x42])
   /\ [0x42] = [serial_data sample_gb])
  /\ snd (sample_tick sample_gb_sending 4000) = [].
Proof.
  destruct (serial_callback_on_start sample_cart_write sample_timer_write
              sample_timer_update sample_ppu_write sample_ppu_write
              sample_ppu_write sample_ppu_start_dma sample_ppu_update)
    as [Hw Ht].
  assert (H1 : 0 <= 0xFF02 <= 0xFFFF) by (split; apply Z.leb_le; reflexivity).
  assert (H2 : sample_write sample_gb 0xFF02 0x81
               = Ok (sample_write_result sample_gb 0xFF02 0x81, [0x42]))
    by (vm_compute; reflexivity).
  split; [split; [exact H1 | split; [exact H2 | exact (Hw _ _ _ _ _ H1 H2)]]|].
  exact (Ht sample_gb_sending 4000).
Defined.

(** C4 refuted: the write of 0x81 to SC invokes the callback with the SB
    byte 0x42 at once, while the transfer has only started: afterwards
    [serial_transfer_started] is 1, SC bit 7 is still set and IF bit 3 is
    still clear. *)
Lemma serial_callback_at_transfer_start :
  sample_write sample_gb 0xFF02 0x81
    = Ok (sample_write_result sample_gb 0xFF02 0x81, [0x42])
  /\ serial_transfer_started (sample_write_result sample_gb 0xFF02 0x81) = 1
  /\ Z.land (serial_control (sample_write_result sample_gb 0xFF02 0x81)) 0x80 = 0x80
  /\ Z.testbit (interrupt_flag (sample_write_result sample_gb 0xFF02 0x81)) 3 = false.
Proof. vm_compute. repeat split. Defined.

Lemma serial_transfer_timing_witness :
  (Z.land 0x81 0x81 = 0x81
   /\ sample_write sample_gb 0xFF02 0x81
      = Ok (sample_write_result sample_gb 0xFF02 0x81, [0x42])
   /\ serial_transfer_started (sample_write_result sample_gb 0xFF02 0x81)
      = Z.shiftr (wrap64 (clock_count sample_gb + SERIAL_OFFSET)) 9
   /\ Z.land (serial_control (sample_write_result sample_gb 0xFF02 0x81)) 0x80 = 0x80)
  /\ ((0 <= clock_count sample_gb_sending /\ 0 <= 4000
       /\ clock_count sample_gb_sending + 4000 + SERIAL_OFFSET < 2 ^ 64
       /\ 0 < serial_transfer_started sample_gb_sending < 2 ^ 64 - 7)
      /\ Z.testbit (interrupt_flag (fst (sample_tick sample_gb_sending 4000))) 3 = true
      /\ Z.land (serial_control (fst (sample_tick sample_gb_sending 4000))) 0x80 = 0
      /\ serial_transfer_started (fst (sample_tick sample_gb_sending 4000)) = 0).
Proof.
  destruct (serial_transfer_timing sample_cart_write sample_timer_write
              sample_timer_update sample_ppu_write sample_ppu_write
              sample_ppu_write sample_ppu_start_dma sample_ppu_update)
    as [Hw Ht].
  assert (H1 : Z.land 0x81 0x81 = 0x81) by reflexivity.
  assert (H2 : sample_write sample_gb 0xFF02 0x81
               = Ok (sample_write_result sample_gb 0xFF02 0x81, [0x42]))
    by (vm_compute; reflexivity).
  split; [split; [exact H1 | split; [exact H2 | exact (Hw _ _ _ _ H1 H2)]]|].
  assert (B1 : 0 <= clock_count sample_gb_sending) by (apply Z.leb_le; vm_compute; reflexivity).
  assert (B2 : 0 <= 4000) by (apply Z.leb_le; reflexivity).
  assert (B3 : clock_count sample_gb_sending + 4000 + SERIAL_OFFSET < 2 ^ 64)
    by (apply Z.ltb_lt; vm_compute; reflexivity).
  assert (B4 : 0 < serial_transfer_started sample_gb_sending < 2 ^ 64 - 7)
    by (split; apply Z.ltb_lt; vm_compute; reflexivity).
  pose proof (Ht sample_gb_sending 4000 B1 B2 B3 B4) as H. cbv zeta in H.
  assert (C : (serial_transfer_started sample_gb_sending + 8
               <=? Z.shiftr (clock_count sample_gb_sending + 4000 + SERIAL_OFFSET) 9)
              = true) by (vm_compute; reflexivity).
  rewrite C in H.
  split; [split; [exact B1 | split; [exact B2 | split; [exact B3 | exact B4]]] | exact H].
Defined.

Lemma nr52_power_off_witness :
  (Z.land 0x00 0x80 = 0
   /\ sound_write sample_apu_on 0 0x26 0x00 = Ok (sound_write_result sample_apu_on 0 0x26 0x00))
  /\ on (sound_write_result sample_apu_on 0 0x26 0x00) = false
  /\ sound_read (sound_write_result sample_apu_on 0 0x26 0x00) 0x24 = Ok 0.
Proof.
  assert (H1 : Z.land 0x00 0x80 = 0) by reflexivity.
  assert (H2 : sound_write sample_apu_on 0 0x26 0x00
               = Ok (sound_write_result sample_apu_on 0 0x26 0x00))
    by (vm_compute; reflexivity).
  destruct (nr52_power_off _ _ _ _ H1 H2) as [Hon [_ [_ [_ Hr]]]].
  split; [split; [exact H1 | exact H2]|].
  split; [exact Hon|].
  apply Hr; [split; apply Z.leb_le; reflexivity | discriminate | discriminate].
Defined.

(** C3, the failing input: from the default state at clock 0, after NR52 = 0x80,
    NR10 = 0x77, NR13 = 0xD0, NR14 = 0x07 and the trigger NR14 = 0x87, the
    channel-1 enable latch is still true after [update] to clock
    [8 * 32768], a span holding eight sweep ticks (the clocks [c] with
    [(c + 16384) mod 32768 = 0]). *)
Lemma ch1_sweep_latch_still_on :
  ch1_sweep_scenario sound_default 0
    = Ok (match ch1_sweep_scenario sound_default 0 with
          | Ok s => s | Err _ => sound_default end)
  /\ ch1_channel_enable
       (update (match ch1_sweep_scenario sound_default 0 with
                | Ok s => s | Err _ => sound_default end) (8 * 32768)) = true.
Proof.
  assert (E : ch1_sweep_scenario sound_default 0
              = Ok (match ch1_sweep_scenario sound_default 0 with
                    | Ok s => s | Err _ => sound_default end))
    by (vm_compute; reflexivity).
  split; [exact E|].
  apply update_ch1_on, (ch1_sweep_scenario_ch1_on _ _ _ E).
Qed.

Lemma ch1_sweep_overflow_keeps_latch_witness :
  (2048 <= snd (calculate_frequency (set_ch1_shadow_freq 2000 sound_default) 0 false)
   /\ ch1_sweep_enabled (fst (calculate_frequency (set_ch1_shadow_freq 2000 sound_default) 0 false))
      = false)
  /\ (ch1_sweep_scenario sound_default 100
        = Ok (match ch1_sweep_scenario sound_default 100 with
              | Ok s => s | Err _ => sound_default end)
      /\ ch1_channel_enable
           (update (match ch1_sweep_scenario sound_default 100 with
                    | Ok s => s | Err _ => sound_default end) 5000) = true).
Proof.
  destruct ch1_sweep_overflow_keeps_latch as [Hc Hs].
  assert (H1 : 2048 <= snd (calculate_frequency (set_ch1_shadow_freq 2000 sound_default) 0 false))
    by (apply Z.leb_le; vm_compute; reflexivity).
  assert (H2 : ch1_sweep_scenario sound_default 100
               = Ok (match ch1_sweep_scenario sound_default 100 with
                     | Ok s => s | Err _ => sound_default end))
    by (vm_compute; reflexivity).
  split; [split; [exact H1 | exact (proj1 (Hc _ _ _ H1))]|].
  split; [exact H2 | exact (Hs _ _ _ 5000 H2)].
Defined.

(** * Further properties of the bus and the sound controller *)

Lemma length_list_set {A} (xs : list A) (i : nat) (v : A) :
  length (list_set xs i v) = length xs.
Proof.
  revert i. induction xs as [|x xs IH]; intros [|i]; simpl; auto.
Qed.

Lemma nth_list_set_eq {A} (xs : list A) (i : nat) (v d : A) :
  (i < length xs)%nat -> nth i (list_set xs i v) d = v.
Proof.
  revert i. induction xs as [|x xs IH]; intros [|i] H; simpl in *; try lia; auto.
  apply IH. lia.
Qed.

Lemma nth_list_set_neq {A} (xs : list A) (i j : nat) (v d : A) :
  i <> j -> nth j (list_set xs i v) d = nth j xs d.
Proof.
  revert i j. induction xs as [|x xs IH]; intros [|i] [|j] H; simpl; auto;
    try contradiction; apply IH; lia.
Qed.

Lemma echo_rewrite_wram (A : Z) :
  0xC000 <= A <= 0xFDFF -> 0xC000 <= echo_rewrite A <= 0xDFFF.
Proof.
  unfold echo_rewrite.
  destruct (Z.leb_spec 0xE000 A), (Z.leb_spec A 0xFDFF); simpl; lia.
Qed.

Lemma bus_region_wram (x : Z) : 0xC000 <= x <= 0xDFFF -> bus_region x = WorkRam.
Proof.
  intros H. unfold bus_region.
  repeat match goal with |- context [if ?x <=? ?y then _ else _] =>
    destruct (Z.leb_spec x y); try lia end; reflexivity.
Qed.

Lemma bus_region_hram (x : Z) : 0xFF80 <= x <= 0xFFFE -> bus_region x = HighRam.
Proof.
  intros H. unfold bus_region.
  repeat match goal with |- context [if ?x <=? ?y then _ else _] =>
    destruct (Z.leb_spec x y); try lia end; reflexivity.
Qed.

Lemma not_boot_window (b : bool) (A : Z) : 0x100 <= A -> b && (A <? 0x100) = false.
Proof. intros H. destruct (Z.ltb_spec A 0x100); [lia|]. apply andb_false_r. Qed.

Lemma Z_to_nat_inj_neq (x y : Z) : 0 <= x -> 0 <= y -> x <> y -> Z.to_nat x <> Z.to_nat y.
Proof. intros Hx Hy Hne E. apply Hne. apply Z2Nat.inj; auto. Qed.

Ltac bit_case :=
  repeat match goal with
  | |- context [Z.testbit ?x ?k] =>
      lazymatch x with
      | Zpos _ => fail
      | Z0 => fail
      | Zneg _ => fail
      | _ => destruct (Z.testbit x k)
      end
  end.

(** Decide the tests of [if]s whose condition is closed. *)
Ltac reduce_closed_ifs :=
  repeat match goal with
  | |- context [if ?c then _ else _] =>
      lazymatch c with
      | true => fail
      | false => fail
      | _ => let b := eval vm_compute in c in change c with b; cbv beta iota
      end
  end.

(** Equality of values built from variables and byte constants, bit by bit. *)
Ltac bit_solve :=
  apply Z.bits_inj'; intros n Hn;
  repeat rewrite ?Z.land_spec, ?Z.lor_spec;
  destruct (Z.lt_ge_cases n 8) as [Hlt|Hge];
  [ assert (Hc : n = 0 \/ n = 1 \/ n = 2 \/ n = 3 \/ n = 4 \/ n = 5 \/ n = 6 \/ n = 7)
      by lia;
    destruct Hc as [->|[->|[->|[->|[->|[->|[->| ->]]]]]]];
    bit_case; reflexivity
  | rewrite ?Z.bits_0;
    repeat rewrite (Z.bits_above_log2 (Zpos _) n) by (cbn; lia);
    bit_case; reflexivity ].

Section BusExtras.

Context {Cartridge Ppu : Type}.
Context (cpu_default : Cpu).
Context (cart_read : Cartridge -> Z -> Z).
Context (cart_write : Cartridge -> Z -> Z -> Cartridge).
Context (timer_new : Timer).
Context (timer_read : Timer -> Z -> Z).
Context (timer_write : Timer -> Z -> Z -> Timer).
Context (timer_update : Timer -> Z -> Timer * bool).
Context (ppu_default : Ppu).
Context (ppu_reset_after_boot : Ppu -> Ppu).
Context (ppu_read_vram ppu_read_oam ppu_read : GameBoy (Cartridge:=Cartridge) (Ppu:=Ppu) -> Z -> Z).
Context (ppu_write_vram ppu_write_oam ppu_write :
          GameBoy (Cartridge:=Cartridge) (Ppu:=Ppu) -> Z -> Z -> Ppu).
Context (ppu_start_dma : GameBoy (Cartridge:=Cartridge) (Ppu:=Ppu) -> Z -> Ppu * Z).
Context (ppu_update : GameBoy (Cartridge:=Cartridge) (Ppu:=Ppu) -> Ppu * bool * bool).
Context (sound_load_after_boot : SoundController -> SoundController).

Local Abbreviation gb_read :=
  (read cart_read timer_read ppu_read_vram ppu_read_oam ppu_read).
Local Abbreviation gb_read_io := (read_io timer_read ppu_read).
Local Abbreviation gb_write :=
  (write cart_write timer_write ppu_write_vram ppu_write_oam ppu_write ppu_start_dma).
Local Abbreviation gb_write_io := (write_io timer_write ppu_write ppu_start_dma).
Local Abbreviation gb_tick := (tick timer_update ppu_update).
Local Abbreviation gb_read16 :=
  (read16 cart_read timer_read ppu_read_vram ppu_read_oam ppu_read).
Local Abbreviation gb_write16 :=
  (write16 cart_write timer_write ppu_write_vram ppu_write_oam ppu_write ppu_start_dma).
Local Abbreviation gb_new :=
  (new cpu_default timer_new ppu_default ppu_reset_after_boot sound_load_after_boot).
Local Abbreviation gb_reset :=
  (reset cpu_default timer_new ppu_default ppu_reset_after_boot sound_load_after_boot).

Lemma read_wram (gb : GameBoy) (B : Z) :
  0xC000 <= B <= 0xFDFF ->
  gb_read gb B = Ok (nth (Z.to_nat (echo_rewrite B - 0xC000)) (wram gb) 0).
Proof.
  intros H. unfold read. rewrite not_boot_window by lia.
  rewrite (bus_region_wram _ (echo_rewrite_wram _ H)). reflexivity.
Qed.

Lemma write_wram (gb : GameBoy) (A v : Z) :
  0xC000 <= A <= 0xFDFF ->
  gb_write gb A v
  = Ok (set_wram (list_set (wram gb) (Z.to_nat (echo_rewrite A - 0xC000)) v) gb, []).
Proof.
  intros H. unfold write. cbv zeta.
  rewrite (bus_region_wram _ (echo_rewrite_wram _ H)). reflexivity.
Qed.

Lemma read_hram (gb : GameBoy) (B : Z) :
  0xFF80 <= B <= 0xFFFE ->
  gb_read gb B = Ok (nth (Z.to_nat (B - 0xFF80)) (hram gb) 0).
Proof.
  intros H. unfold read. rewrite not_boot_window by lia.
  rewrite echo_rewrite_other by lia. rewrite (bus_region_hram _ H). reflexivity.
Qed.

Lemma write_hram (gb : GameBoy) (A v : Z) :
  0xFF80 <= A <= 0xFFFE ->
  gb_write gb A v = Ok (set_hram (list_set (hram gb) (Z.to_nat (A - 0xFF80)) v) gb, []).
Proof.
  intros H. unfold write. cbv zeta.
  rewrite echo_rewrite_other by lia. rewrite (bus_region_hram _ H). reflexivity.
Qed.

Lemma wram_write_read_gen (gb : GameBoy) (A v : Z) :
  0xC000 <= A <= 0xFDFF -> length (wram gb) = 0x2000%nat ->
  exists gb', gb_write gb A v = Ok (gb', [])
    /\ forall B, 0xC000 <= B <= 0xFDFF ->
       gb_read gb' B = if echo_rewrite B =? echo_rewrite A then Ok v else gb_read gb B.
Proof.
  intros HA Hlen. eexists. split; [apply write_wram, HA|].
  intros B HB. rewrite !read_wram by assumption. simpl.
  pose proof (echo_rewrite_wram _ HA). pose proof (echo_rewrite_wram _ HB).
  destruct (Z.eqb_spec (echo_rewrite B) (echo_rewrite A)) as [E|E].
  - rewrite E, nth_list_set_eq; [reflexivity|]. rewrite Hlen. lia.
  - rewrite nth_list_set_neq; [reflexivity|]. apply Z_to_nat_inj_neq; lia.
Qed.

(** Work RAM read after write: a bus write of [v] to an address of work RAM
    or of its echo succeeds; afterwards every address of 0xC000-0xFDFF
    with the same echo-rewritten address reads [v], every other one reads
    as before. *)
Theorem wram_write_read (gb : GameBoy) (A v : Z) :
  0xC000 <= A <= 0xFDFF -> length (wram gb) = 0x2000%nat ->
  exists gb', gb_write gb A v = Ok (gb', [])
    /\ forall B, 0xC000 <= B <= 0xFDFF ->
       gb_read gb' B = if echo_rewrite B =? echo_rewrite A then Ok v else gb_read gb B.
Proof. apply wram_write_read_gen. Qed.

(** High RAM read after write: a bus write of [v] to 0xFF80-0xFFFE
    succeeds; afterwards that address reads [v] and every other high RAM
    address reads as before. *)
Theorem hram_write_read (gb : GameBoy) (A v : Z) :
  0xFF80 <= A <= 0xFFFE -> length (hram gb) = 0x7F%nat ->
  exists gb', gb_write gb A v = Ok (gb', [])
    /\ forall B, 0xFF80 <= B <= 0xFFFE ->
       gb_read gb' B = if B =? A then Ok v else gb_read gb B.
Proof.
  intros HA Hlen. eexists. split; [apply write_hram, HA|].
  intros B HB. rewrite !read_hram by assumption. simpl.
  destruct (Z.eqb_spec B A) as [->|E].
  - rewrite nth_list_set_eq; [reflexivity|]. rewrite Hlen. lia.
  - rewrite nth_list_set_neq; [reflexivity|]. apply Z_to_nat_inj_neq; lia.
Qed.

(** I/O registers read back through the bus: SB as written, SC with bits
    1-6 set, IF with bits 5-7 set and IE as written; each of these writes
    succeeds. *)
Theorem io_register_readback (gb : GameBoy) (v : Z) :
  (exists gb', gb_write gb 0xFF01 v = Ok (gb', []) /\ gb_read gb' 0xFF01 = Ok v)
  /\ (exists gb' out, gb_write gb 0xFF02 v = Ok (gb', out)
                      /\ gb_read gb' 0xFF02 = Ok (Z.lor v 0x7E))
  /\ (exists gb', gb_write gb 0xFF0F v = Ok (gb', [])
                  /\ gb_read gb' 0xFF0F = Ok (Z.lor v 0xE0))
  /\ (exists gb', gb_write gb 0xFFFF v = Ok (gb', []) /\ gb_read gb' 0xFFFF = Ok v).
Proof.
  split; [|split; [|split]].
  - eexists. split; [unfold write, write_io; simpl; reflexivity|].
    unfold read, read_io; rewrite not_boot_window by lia; simpl; reflexivity.
  - unfold write, write_io; simpl.
    destruct (Z.land v 0x81 =? 0x81); do 2 eexists; (split; [reflexivity|]);
      unfold read, read_io; rewrite not_boot_window by lia; simpl; reflexivity.
  - eexists. split; [unfold write, write_io; simpl; reflexivity|].
    unfold read, read_io; rewrite not_boot_window by lia; simpl; reflexivity.
  - eexists. split; [unfold write, write_io; simpl; reflexivity|].
    unfold read, read_io; rewrite not_boot_window by lia; simpl; reflexivity.
Qed.

(** Unused I/O addresses: 0xFF03, 0xFF08-0xFF0E, 0xFF15, 0xFF1F,
    0xFF27-0xFF2F, 0xFF4C-0xFF4F and 0xFF51-0xFF7F read 0xFF and a write to
    them changes nothing; 0xFF50, the boot ROM register, also reads 0xFF. *)
Theorem unmapped_io (gb : GameBoy) (A v : Z) :
  (A = 0xFF03 \/ 0xFF08 <= A <= 0xFF0E \/ A = 0xFF15 \/ A = 0xFF1F
   \/ 0xFF27 <= A <= 0xFF2F \/ 0xFF4C <= A <= 0xFF4F \/ 0xFF51 <= A <= 0xFF7F) ->
  gb_read gb A = Ok 0xFF /\ gb_write gb A v = Ok (gb, [])
  /\ gb_read gb 0xFF50 = Ok 0xFF.
Proof.
  intros H.
  assert (HA : In A ([0xFF03] ++ zseq 0xFF08 7 ++ [0xFF15; 0xFF1F] ++ zseq 0xFF27 9
                     ++ zseq 0xFF4C 4 ++ zseq 0xFF51 47)).
  { rewrite !in_app_iff.
    destruct H as [->|[H|[->|[->|[H|[H|H]]]]]];
      [left; now left
      |right; left; apply in_zseq; simpl; lia
      |right; right; left; now left
      |right; right; left; right; now left
      |right; right; right; left; apply in_zseq; simpl; lia
      |right; right; right; right; left; apply in_zseq; simpl; lia
      |right; right; right; right; right; apply in_zseq; simpl; lia]. }
  simpl in HA. clear H.
  assert (H50 : gb_read gb 0xFF50 = Ok 0xFF)
    by (unfold read, read_io; rewrite not_boot_window by lia; simpl; reflexivity).
  repeat (destruct HA as [<-|HA];
          [split; [|split; [|exact H50]];
           [unfold read, read_io; rewrite not_boot_window by lia; simpl; reflexivity
           |unfold write, write_io; simpl; reflexivity]|]).
  contradiction.
Qed.

(** While the boot ROM is active, a read below 0x100 returns the boot ROM
    byte, but a write there still goes to the cartridge. *)
Theorem boot_rom_overlay (gb : GameBoy) (r : list Z) (A v : Z) :
  boot_rom_active gb = true -> boot_rom gb = Some r -> 0 <= A < 0x100 ->
  gb_read gb A = Ok (nth (Z.to_nat A) r 0)
  /\ gb_write gb A v = Ok (set_cartridge (cart_write (cartridge gb) A v) gb, []).
Proof.
  intros Ha Hr HA. split.
  - unfold read. rewrite Ha, Hr. destruct (Z.ltb_spec A 0x100); [reflexivity|lia].
  - unfold write. cbv zeta. rewrite echo_rewrite_other by lia.
    unfold bus_region. destruct (Z.leb_spec A 0x7FFF); [reflexivity|lia].
Qed.

Lemma write_io_shape (gb gb' : GameBoy) (x v : Z) (out : list Z) :
  gb_write_io gb x v = Ok (gb', out) ->
  boot_rom gb' = boot_rom gb
  /\ (boot_rom_active gb' = true -> boot_rom_active gb = true)
  /\ length (wram gb') = length (wram gb)
  /\ length (hram gb') = length (hram gb).
Proof.
  unfold write_io. intros H. break_ifs_in H; inversion H; subst; clear H; simpl;
  repeat split; try (intros E; exact E); try (intros E; discriminate E);
  try reflexivity; apply length_list_set.
Qed.

Lemma write_shape (gb gb' : GameBoy) (A v : Z) (out : list Z) :
  gb_write gb A v = Ok (gb', out) ->
  boot_rom gb' = boot_rom gb
  /\ (boot_rom_active gb' = true -> boot_rom_active gb = true)
  /\ length (wram gb') = length (wram gb)
  /\ length (hram gb') = length (hram gb).
Proof.
  unfold write. intros H. cbv zeta in H.
  destruct (bus_region (echo_rewrite A));
    try (eapply write_io_shape; eassumption);
    inversion H; subst; clear H; simpl;
    repeat split; try (intros E; exact E); try reflexivity; apply length_list_set.
Qed.

Lemma tick_frame_gen (gb : GameBoy) (n : Z) :
  let gb' := fst (gb_tick gb n) in
  cpu gb' = cpu gb /\ cartridge gb' = cartridge gb /\ wram gb' = wram gb
  /\ hram gb' = hram gb /\ boot_rom gb' = boot_rom gb
  /\ boot_rom_active gb' = boot_rom_active gb /\ sound gb' = sound gb
  /\ joypad_io gb' = joypad_io gb /\ joypad gb' = joypad gb
  /\ serial_data gb' = serial_data gb /\ dma gb' = dma gb
  /\ interrupt_enabled gb' = interrupt_enabled gb
  /\ (forall i, Z.testbit (interrupt_flag gb) i = true ->
                Z.testbit (interrupt_flag gb') i = true).
Proof.
  unfold tick. cbv zeta. break_ifs; simpl;
  (split; [reflexivity|]); repeat (split; [reflexivity|]);
  intros i Hi; rewrite ?Z.lor_spec, Hi; reflexivity.
Qed.

(** [GameBoy::tick] leaves memory, CPU, cartridge, boot ROM state, sound
    controller, joypad, SB, DMA and IE registers untouched and only sets
    bits of IF, never clears one. *)
Theorem tick_frame (gb : GameBoy) (n : Z) :
  let gb' := fst (gb_tick gb n) in
  cpu gb' = cpu gb /\ cartridge gb' = cartridge gb /\ wram gb' = wram gb
  /\ hram gb' = hram gb /\ boot_rom gb' = boot_rom gb
  /\ boot_rom_active gb' = boot_rom_active gb /\ sound gb' = sound gb
  /\ joypad_io gb' = joypad_io gb /\ joypad gb' = joypad gb
  /\ serial_data gb' = serial_data gb /\ dma gb' = dma gb
  /\ interrupt_enabled gb' = interrupt_enabled gb
  /\ (forall i, Z.testbit (interrupt_flag gb) i = true ->
                Z.testbit (interrupt_flag gb') i = true).
Proof. apply tick_frame_gen. Qed.

(** Once the boot ROM is disabled no bus write and no tick enables it
    again, and reads below 0x100 come from the cartridge. *)
Theorem boot_rom_stays_disabled :
  (forall (gb gb' : GameBoy) A v out, boot_rom_active gb = false ->
     gb_write gb A v = Ok (gb', out) -> boot_rom_active gb' = false)
  /\ (forall (gb : GameBoy) n, boot_rom_active gb = false ->
        boot_rom_active (fst (gb_tick gb n)) = false)
  /\ (forall (gb : GameBoy) A, boot_rom_active gb = false -> 0 <= A < 0x100 ->
        gb_read gb A = Ok (cart_read (cartridge gb) (echo_rewrite A))).
Proof.
  split; [|split].
  - intros gb gb' A v out Ha H. destruct (write_shape _ _ _ _ _ H) as [_ [Hb _]].
    destruct (boot_rom_active gb'); [|reflexivity]. rewrite Hb in Ha by reflexivity. discriminate.
  - intros gb n Ha. destruct (tick_frame_gen gb n) as [_ [_ [_ [_ [_ [E _]]]]]].
    simpl in E. rewrite E. exact Ha.
  - intros gb A Ha HA. unfold read. rewrite Ha. simpl.
    rewrite echo_rewrite_other by lia. unfold bus_region.
    destruct (Z.leb_spec A 0x7FFF); [reflexivity|lia].
Qed.

Lemma echo_region_never (A : Z) : bus_region (echo_rewrite A) <> EchoRam.
Proof.
  rewrite bus_region_echo. unfold echo_rewrite.
  destruct (Z.leb_spec 0xE000 A), (Z.leb_spec A 0xFDFF); simpl; lia.
Qed.

Lemma sound_read_err (s : SoundController) (x : Z) (p : Panic) :
  sound_read s x = Err p -> p = Unreachable.
Proof.
  unfold sound_read. intros H. break_ifs_in H; inversion H; reflexivity.
Qed.

Lemma sound_write_err (s : SoundController) (clk x v : Z) (p : Panic) :
  sound_write s clk x v = Err p -> p = Unreachable.
Proof.
  unfold sound_write. cbv zeta. generalize (update s clk). intros s' H.
  break_ifs_in H; inversion H; reflexivity.
Qed.

Lemma read_io_ok (gb : GameBoy) (x : Z) : exists r, gb_read_io gb x = Ok r.
Proof.
  destruct (gb_read_io gb x) as [r|p] eqn:E; [eauto|].
  exfalso. assert (p = Unreachable).
  { unfold read_io in E. break_ifs_in E; inversion E; subst; eapply sound_read_err; eauto. }
  subst. eapply read_io_no_unreachable; eauto.
Qed.

Lemma write_io_ok (gb : GameBoy) (x v : Z) : exists r, gb_write_io gb x v = Ok r.
Proof.
  destruct (gb_write_io gb x v) as [r|p] eqn:E; [eauto|].
  exfalso. assert (p = Unreachable).
  { unfold write_io in E.
    repeat match type of E with
    | context [if ?b then _ else _] => destruct b
    | context [match ?q with pair _ _ => _ end] => destruct q
    | context [res_bind (sound_write ?s ?c ?x ?v) _] =>
        unfold res_bind in E; destruct (sound_write s c x v) eqn:Hs
    end; inversion E; subst; eapply sound_write_err; eauto. }
  subst. eapply write_io_no_unreachable; eauto.
Qed.

Lemma well_formed_write (gb gb' : GameBoy) (A v : Z) (out : list Z) :
  well_formed gb -> gb_write gb A v = Ok (gb', out) -> well_formed gb'.
Proof.
  intros [H1 [H2 [H3 H4]]] H.
  destruct (write_shape _ _ _ _ _ H) as [E1 [E2 [E3 E4]]].
  repeat split.
  - rewrite E1. exact H1.
  - rewrite E1. intros Ha. apply H2, E2, Ha.
  - rewrite E3. exact H3.
  - rewrite E4. exact H4.
Qed.

Lemma well_formed_reset_after_boot (gb : GameBoy) :
  boot_rom gb = None ->
  well_formed (Cartridge:=Cartridge) (reset_after_boot ppu_reset_after_boot sound_load_after_boot gb).
Proof.
  intros Hn. unfold reset_after_boot, well_formed. simpl.
  rewrite Hn. repeat split;
    solve [intros; discriminate | rewrite ?length_list_set; apply repeat_length].
Qed.

(** The shape [well_formed] (a boot ROM of 256 bytes, active only when
    present, 8 KiB of work RAM, 127 bytes of high RAM) holds for [new]
    with a 256-byte boot ROM or none, and is kept by every successful bus
    write, by [tick] and by [reset]. *)
Theorem well_formed_invariant :
  (forall r (c : Cartridge), length r = 0x100%nat ->
     well_formed (new cpu_default timer_new ppu_default ppu_reset_after_boot
                      sound_load_after_boot (Some r) c))
  /\ (forall (c : Cartridge), well_formed (gb_new None c))
  /\ (forall (gb gb' : GameBoy) A v out,
        well_formed gb -> gb_write gb A v = Ok (gb', out) -> well_formed gb')
  /\ (forall (gb : GameBoy) n, well_formed gb -> well_formed (fst (gb_tick gb n)))
  /\ (forall (gb : GameBoy (Cartridge:=Cartridge) (Ppu:=Ppu)),
        well_formed gb -> well_formed (gb_reset gb)).
Proof.
  split; [|split; [|split; [|split]]].
  - intros r c Hr. unfold new, well_formed. simpl. repeat split;
      solve [intros r' E; inversion E; subst; exact Hr | intros _ E; discriminate E
            | apply repeat_length].
  - intros c. unfold new. cbv zeta. apply well_formed_reset_after_boot. reflexivity.
  - apply well_formed_write.
  - intros gb n [H1 [H2 [H3 H4]]].
    destruct (tick_frame_gen gb n) as [_ [_ [Ew [Eh [Eb [Ea _]]]]]].
    simpl in Ew, Eh, Eb, Ea. unfold well_formed.
    rewrite Ew, Eh, Eb, Ea. auto.
  - intros gb [H1 [H2 [H3 H4]]]. unfold reset.
    destruct (boot_rom gb) as [r|] eqn:Hb.
    + unfold well_formed. simpl. rewrite Hb. repeat split;
        solve [intros r' E; inversion E; subst; apply H1; congruence
              | intros _ E; discriminate E | apply repeat_length].
    + apply well_formed_reset_after_boot. exact Hb.
Qed.

(** On a [well_formed] state no bus read and no bus write panics: neither
    the [expect] on the boot ROM nor any [unreachable!()] is reached. *)
Theorem read_write_never_fail (gb : GameBoy) (A v : Z) :
  well_formed gb ->
  (exists x, gb_read gb A = Ok x) /\ (exists r, gb_write gb A v = Ok r).
Proof.
  intros [_ [H2 _]]. pose proof (echo_region_never A) as Hr. split.
  - unfold read.
    destruct (boot_rom_active gb && (A <? 0x100)) eqn:E.
    + apply andb_true_iff in E. destruct E as [Ea _].
      destruct (boot_rom gb); [eauto|]. exfalso. apply H2; auto.
    + cbv zeta. destruct (bus_region (echo_rewrite A)); eauto;
        try contradiction; apply read_io_ok.
  - unfold write. cbv zeta.
    destruct (bus_region (echo_rewrite A)); eauto; try contradiction; apply write_io_ok.
Qed.

Lemma byte_split (v : Z) :
  0 <= v < 0x10000 ->
  Z.land v 0xFF + 256 * Z.shiftr v 8 = v /\ 0 <= Z.land v 0xFF < 256.
Proof.
  intros H. change 0xFF with (Z.ones 8). rewrite Z.land_ones, Z.shiftr_div_pow2 by lia.
  change (2 ^ 8) with 256. split; [|apply Z.mod_pos_bound; lia].
  pose proof (Z.div_mod v 256). lia.
Qed.

Lemma echo_rewrite_succ (A : Z) :
  0xC000 <= A <= 0xFDFE -> echo_rewrite (A + 1) <> echo_rewrite A.
Proof.
  unfold echo_rewrite.
  destruct (Z.leb_spec 0xE000 A), (Z.leb_spec A 0xFDFF),
           (Z.leb_spec 0xE000 (A + 1)), (Z.leb_spec (A + 1) 0xFDFF); simpl; lia.
Qed.

(** 16-bit round trip in work RAM: [write16] of a 16-bit value at an
    address of 0xC000-0xFDFE succeeds with no serial output, and [read16]
    at the same address then returns the value. *)
Theorem write16_read16_wram (gb : GameBoy) (A v : Z) :
  0xC000 <= A <= 0xFDFE -> 0 <= v < 0x10000 -> length (wram gb) = 0x2000%nat ->
  exists gb', gb_write16 gb A v = Ok (gb', []) /\ gb_read16 gb' A = Ok v.
Proof.
  intros HA Hv Hlen.
  assert (Hw : wrap16 (A + 1) = A + 1) by (unfold wrap16; apply Z.mod_small; lia).
  unfold write16, read16. cbv zeta.
  rewrite write_wram by lia. cbn [res_bind]. rewrite Hw, write_wram by lia.
  cbn [res_bind]. eexists. split; [reflexivity|].
  rewrite !read_wram by lia. cbn [res_bind wram set_wram].
  pose proof (echo_rewrite_wram A ltac:(lia)).
  pose proof (echo_rewrite_wram (A + 1) ltac:(lia)).
  pose proof (echo_rewrite_succ A HA).
  rewrite nth_list_set_neq by (apply Z_to_nat_inj_neq; lia).
  rewrite nth_list_set_eq by (rewrite Hlen; lia).
  rewrite nth_list_set_eq by (rewrite length_list_set, Hlen; lia).
  f_equal. apply byte_split, Hv.
Qed.

(** [reset] with a boot ROM: on a freshly created machine it gives that
    machine back, it is idempotent, and it keeps the cartridge, the boot
    ROM, the serial registers and a pending serial transfer, IF, IE and the
    DMA register. *)
Theorem reset_with_boot_rom (r : list Z) (c : Cartridge)
  (gb : GameBoy (Cartridge:=Cartridge) (Ppu:=Ppu)) :
  gb_reset (gb_new (Some r) c) = gb_new (Some r) c
  /\ (boot_rom gb <> None ->
      let gb' := reset cpu_default timer_new ppu_default ppu_reset_after_boot
                       sound_load_after_boot gb in
      gb_reset gb' = gb'
      /\ cartridge gb' = cartridge gb /\ boot_rom gb' = boot_rom gb
      /\ boot_rom_active gb' = true
      /\ serial_data gb' = serial_data gb /\ serial_control gb' = serial_control gb
      /\ serial_transfer_started gb' = serial_transfer_started gb
      /\ interrupt_flag gb' = interrupt_flag gb
      /\ interrupt_enabled gb' = interrupt_enabled gb /\ dma gb' = dma gb).
Proof.
  split.
  - unfold reset, new. cbn -[repeat]. reflexivity.
  - intros Hn. destruct gb. cbn [boot_rom] in Hn |- *.
    destruct boot_rom0 as [br|]; [|contradiction].
    cbv beta iota zeta delta [reset set_cpu set_wram set_hram set_boot_rom_active
      set_clock_count set_timer set_sound set_ppu set_joypad set_joypad_io cpu cartridge
      wram hram boot_rom boot_rom_active clock_count timer sound ppu joypad_io joypad
      serial_data serial_control serial_transfer_started serial_transfer_callback
      interrupt_flag dma interrupt_enabled v_blank_trigger].
    repeat split; reflexivity.
Qed.

(** JOYP (0xFF00): a write keeps only the two select bits 4-5; a read then
    returns bits 6-7 set, the select bits as written, and in the low
    nibble 0xF when no group is selected, the direction keys (high nibble
    of [joypad]) when bit 4 is set, the action keys (low nibble) when
    bit 5 is set, and both OR-ed when both are set. *)
Theorem joypad_register (gb : GameBoy) (v : Z) :
  exists gb', gb_write gb 0xFF00 v = Ok (gb', [])
  /\ exists r, gb_read gb' 0xFF00 = Ok r
  /\ Z.land r 0xF0 = Z.lor 0xC0 (Z.land v 0x30)
  /\ (Z.land v 0x30 = 0 -> Z.land r 0x0F = 0x0F)
  /\ (Z.land v 0x30 = 0x10 -> Z.land r 0x0F = Z.land (Z.shiftr (joypad gb) 4) 0x0F)
  /\ (Z.land v 0x30 = 0x20 -> Z.land r 0x0F = Z.land (joypad gb) 0x0F)
  /\ (Z.land v 0x30 = 0x30 ->
        Z.land r 0x0F = Z.lor (Z.land (Z.shiftr (joypad gb) 4) 0x0F)
                              (Z.land (joypad gb) 0x0F)).
Proof.
  eexists. split.
  { unfold write. cbv zeta. rewrite echo_rewrite_other by lia.
    replace (bus_region 0xFF00) with IoRegisters by (symmetry; apply bus_region_io; lia).
    change (Z.land 0xFF00 0xFF) with 0. reflexivity. }
  unfold read. rewrite not_boot_window by lia. cbv zeta.
  rewrite echo_rewrite_other by lia.
  replace (bus_region 0xFF00) with IoRegisters by (symmetry; apply bus_region_io; lia).
  change (Z.land 0xFF00 0xFF) with 0. unfold read_io. change (0 =? 0) with true.
  cbv beta iota zeta. unfold set_joypad_io. cbn [joypad_io joypad].
  assert (Hw : Z.land (Z.lor 0xCF (Z.land v 0x30)) 0x30 = Z.land v 0x30) by bit_solve.
  rewrite Hw.
  set (X := Z.shiftr (joypad gb) 4). set (J := joypad gb). clearbody X J.
  eexists. split; [reflexivity|].
  split; [|split; [|split; [|split]]].
  - destruct (negb (Z.land (Z.land v 48) 16 =? 0)), (negb (Z.land (Z.land v 48) 32 =? 0)),
      (Z.land v 48 =? 0); bit_solve.
  - intros E. rewrite E. reflexivity.
  - intros E. rewrite E. reduce_closed_ifs. bit_solve.
  - intros E. rewrite E. reduce_closed_ifs. bit_solve.
  - intros E. rewrite E. reduce_closed_ifs. bit_solve.
Qed.

End BusExtras.

Lemma wrap64_double (n : Z) : exists k, Z.to_nat (wrap64 (2 * n)) = (2 * k)%nat.
Proof.
  exists (Z.to_nat (n mod 9223372036854775808)). unfold wrap64.
  change 18446744073709551616 with (2 * 9223372036854775808).
  rewrite Z.mul_mod_distr_l by lia.
  pose proof (Z.mod_pos_bound n 9223372036854775808).
  rewrite Z2Nat.inj_mul by lia. reflexivity.
Qed.

Section UpdateInvariant.

Variable P : SoundController -> Prop.
Hypothesis P_freq : forall q f s, P s -> P (step_frequency_timers (update_params q) f s).
Hypothesis P_length : forall s, P s -> P (length_step s).
Hypothesis P_env : forall q s, P s -> P (envelope_step (update_params q) s).
Hypothesis P_sweep : forall q s f, P s -> P (fst (sweep_step (update_params q) (s, f))).
Hypothesis P_sample : forall q s, P s -> P (collect_sample (update_params q) s).
Hypothesis P_last : forall c s, P s -> P (set_last_clock c s).
Hypothesis P_off : forall s k c m, on s = false -> P s ->
  P (set_sample_mod m (set_last_clock c (set_output (output s ++ repeat 0 (2 * k)) s))).

Lemma update_clock_inv q clock s f :
  P s -> P (fst (update_clock (update_params q) clock (s, f))).
Proof.
  intros H. unfold update_clock. cbv beta iota zeta.
  pose proof (P_freq q f s H) as H1.
  set (s1 := step_frequency_timers _ f s) in *. clearbody s1.
  set (s2 := if clock mod (CLOCK_SPEED / 256) =? 0 then length_step s1 else s1).
  assert (H2 : P s2) by (subst s2; destruct (_ =? 0); auto).
  clearbody s2.
  set (s3 := if clock mod (CLOCK_SPEED / 64) =? 0 then envelope_step _ s2 else s2).
  assert (H3 : P s3) by (subst s3; destruct (_ =? 0); auto).
  clearbody s3.
  pose proof (P_sweep q s3 f H3) as H4.
  destruct (sweep_step _ (s3, f)) as [s4 f4]. cbn [fst] in H4.
  destruct (clock mod (CLOCK_SPEED / 512) =? 0); [destruct (_ =? 0)|]; cbn [fst]; auto.
Qed.

Lemma update_loop_inv q n clock s f :
  P s -> P (fst (update_loop (update_params q) n clock (s, f))).
Proof.
  revert clock s f. induction n as [|n IH]; intros clock s f H;
    cbn [update_loop]; [exact H|].
  pose proof (update_clock_inv q clock s f H) as H1.
  destruct (update_clock _ clock (s, f)) as [s1 f1]. apply IH. exact H1.
Qed.

Lemma update_inv s c : P s -> P (update s c).
Proof.
  intros H. unfold update. destruct (on s) eqn:Hon; cbn [negb]; cbv zeta.
  - pose proof (update_loop_inv s (Z.to_nat (c - last_clock s)) (last_clock s) s
                  (freq_of (nr14 s) (nr13 s)) H) as H1.
    destruct (update_loop _ _ _ _) as [s1 f1]. apply P_last. exact H1.
  - match goal with |- context [Z.to_nat (wrap64 (2 * ?n))] =>
      destruct (wrap64_double n) as [k Hk]; rewrite Hk end.
    apply P_off; assumption.
Qed.

End UpdateInvariant.

Lemma frame_gen (s : SoundController) (c : Z) : sound_frame (update s c) = sound_frame s.
Proof.
  apply (update_inv (fun s' => sound_frame s' = sound_frame s)).
  - intros q f s0 H. unfold step_frequency_timers. break_ifs; exact H.
  - intros s0 H. unfold length_step. break_ifs; exact H.
  - intros q s0 H. unfold envelope_step. break_ifs; exact H.
  - intros q s0 f H. unfold sweep_step, calculate_frequency. cbv beta iota zeta.
    break_ifs; exact H.
  - intros q s0 H. unfold collect_sample. cbv beta zeta. break_ifs; exact H.
  - intros c0 s0 H. exact H.
  - intros s0 k c0 m _ H. exact H.
  - reflexivity.
Qed.

(** [SoundController::update] writes no register but NR13 and NR14: the
    other registers, the wave pattern RAM, the power flag and the sample
    frequency are the same after it, powered on or off. *)
Theorem update_register_frame (s : SoundController) (c : Z) :
  sound_frame (update s c) = sound_frame s.
Proof. apply frame_gen. Qed.

Lemma env_bound (per t v : Z) (up : bool) :
  0 <= v <= 15 -> 0 <= snd (env per t v up) <= 15.
Proof.
  intros Hv. unfold env. destruct up; cbv zeta; cbn [negb];
  rewrite ?andb_true_r, ?andb_false_r, ?orb_false_r, ?orb_false_l;
  repeat match goal with |- context [if ?b then _ else _] => destruct b eqn:? end;
  cbn [snd] in *; rewrite ?Z.ltb_lt, ?Z.ltb_ge in *; lia.
Qed.

Lemma land_ones_bound (x k : Z) : 0 <= k -> 0 <= Z.land x (Z.ones k) < 2 ^ k.
Proof.
  intros Hk. rewrite Z.land_ones by exact Hk. apply Z.mod_pos_bound.
  apply Z.pow_pos_nonneg; lia.
Qed.

Lemma nib_bound (x : Z) : 0 <= Z.shiftr (Z.land x 240) 4 <= 15.
Proof.
  rewrite Z.shiftr_land. change (Z.shiftr 240 4) with (Z.ones 4).
  pose proof (land_ones_bound (Z.shiftr x 4) 4 ltac:(lia)). simpl in *. lia.
Qed.

Lemma amp_bound (t pos v : Z) :
  0 <= v <= 15 -> 0 <= wrap8 (Z.land (Z.shiftr t pos) 1 * v) <= 15.
Proof.
  intros Hv. pose proof (land_ones_bound (Z.shiftr t pos) 1 ltac:(lia)) as Hb.
  change (Z.ones 1) with 1 in Hb. change (2 ^ 1) with 2 in Hb.
  unfold wrap8. rewrite Z.mod_small; nia.
Qed.

Lemma amp3_bound (w lvl : Z) : 0 <= lvl -> 0 <= Z.shiftr (Z.land w 15) lvl <= 15.
Proof.
  intros Hl. pose proof (land_ones_bound w 4 ltac:(lia)) as Hb.
  change (Z.ones 4) with 15 in Hb. change (2 ^ 4) with 16 in Hb.
  rewrite Z.shiftr_div_pow2 by exact Hl.
  pose proof (Z.pow_pos_nonneg 2 lvl ltac:(lia) Hl).
  split; [apply Z.div_pos; lia|]. apply Z.div_le_upper_bound; nia.
Qed.

Lemma volume_bounds (q : SoundController) :
  0 <= p_volume_left (update_params q) <= 7 /\ 0 <= p_volume_right (update_params q) <= 7.
Proof.
  cbn [p_volume_left p_volume_right update_params].
  rewrite Z.shiftr_land. change (Z.shiftr 112 4) with (Z.ones 3).
  pose proof (land_ones_bound (Z.shiftr (nr50 q) 4) 3 ltac:(lia)).
  pose proof (land_ones_bound (nr50 q) 3 ltac:(lia)).
  change (Z.ones 3) with 7 in *. simpl in *. lia.
Qed.

Lemma level_nonneg (q : SoundController) : 0 <= p_ch3_output_level (update_params q).
Proof.
  cbn [p_ch3_output_level update_params].
  destruct (Z.to_nat _) as [|[|[|[|[|]]]]]; simpl; lia.
Qed.

Lemma wrap16_small (x : Z) : 0 <= x < 65536 -> wrap16 x = x.
Proof. intros H. unfold wrap16. apply Z.mod_small. exact H. Qed.

Lemma collect_sample_out (q s : SoundController) :
  0 <= ch1_current_volume s <= 15 -> 0 <= ch2_current_volume s <= 15 ->
  output (collect_sample (update_params q) s) = output s
  \/ exists x y, output (collect_sample (update_params q) s) = output s ++ [x; y]
                 /\ 0 <= x <= 315 /\ 0 <= y <= 315.
Proof.
  intros H1 H2. destruct (volume_bounds q) as [Hl Hr].
  pose proof (level_nonneg q) as Hlv.
  unfold collect_sample. cbv beta zeta.
  destruct (_ <? _); [right|left; reflexivity].
  repeat match goal with
  | |- context [wrap8 (Z.land (Z.shiftr ?t ?pos) 1 * ?v)] =>
      let a := fresh "a" in
      assert (0 <= wrap8 (Z.land (Z.shiftr t pos) 1 * v) <= 15)
        by (apply amp_bound; assumption);
      set (a := wrap8 (Z.land (Z.shiftr t pos) 1 * v)) in *; clearbody a
  | |- context [Z.shiftr (Z.land ?w 15) (p_ch3_output_level ?p)] =>
      let a := fresh "a" in
      assert (0 <= Z.shiftr (Z.land w 15) (p_ch3_output_level p) <= 15)
        by (apply amp3_bound; assumption);
      set (a := Z.shiftr (Z.land w 15) (p_ch3_output_level p)) in *; clearbody a
  end.
  set (vl := p_volume_left (update_params q)) in *.
  set (vr := p_volume_right (update_params q)) in *. clearbody vl vr.
  repeat match goal with |- context [if ?b then _ else _] => destruct b end;
  cbv beta iota; do 2 eexists; (split; [reflexivity|]);
  repeat match goal with |- context [wrap16 ?x] =>
    lazymatch x with
    | context [wrap16 _] => fail
    | _ => rewrite (wrap16_small x) by nia
    end
  end;
  nia.
Qed.

Ltac bounds_close :=
  unfold channel_bounds in *; simpl in *;
  repeat match goal with H : _ /\ _ |- _ => destruct H end;
  repeat match goal with |- _ /\ _ => first [apply Z.mod_pos_bound; lia | split] end;
  lia.

Lemma bounds_gen (s : SoundController) (c : Z) :
  channel_bounds s ->
  channel_bounds (update s c)
  /\ exists l, output (update s c) = output s ++ l /\ Nat.Even (length l)
               /\ Forall (fun x => 0 <= x <= 315) l.
Proof.
  intros H.
  apply (update_inv (fun s' => channel_bounds s'
          /\ exists l, output s' = output s ++ l /\ Nat.Even (length l)
                       /\ Forall (fun x => 0 <= x <= 315) l)).
  - intros q f s0 [Hb Ho]. unfold step_frequency_timers.
    split; break_ifs; first [exact Ho | bounds_close].
  - intros s0 [Hb Ho]. unfold length_step. split; break_ifs; assumption.
  - intros q s0 [Hb Ho]. split; [|unfold envelope_step; break_ifs; exact Ho].
    destruct Hb as (B1 & B2 & B3 & B4 & B5). unfold envelope_step.
    pose proof (env_bound (p_ch1_env_period (update_params q)) (ch1_env_period_timer s0)
                  (ch1_current_volume s0) (p_ch1_env_direction (update_params q)) B1) as E1.
    destruct (env _ (ch1_env_period_timer s0) _ _) as [t1 v1].
    match goal with |- context [env ?a ?b ?c ?d] =>
      pose proof (env_bound a b c d B2) as E2; destruct (env a b c d) as [t2 v2] end.
    cbn [snd] in E1, E2. unfold channel_bounds. cbn. lia.
  - intros q s0 f [Hb Ho]. unfold sweep_step, calculate_frequency. cbv beta iota zeta.
    split; break_ifs; assumption.
  - intros q s0 [Hb Ho]. split; [unfold collect_sample; cbv beta zeta; break_ifs; exact Hb|].
    destruct Hb as (B1 & B2 & _).
    destruct Ho as (l & E & Ev & F).
    destruct (collect_sample_out q s0 B1 B2) as [E'|(x & y & E' & Hx & Hy)].
    + exists l. rewrite E', E. auto.
    + exists (l ++ [x; y]). rewrite E', E, app_assoc. split; [reflexivity|]. split.
      * rewrite length_app. destruct Ev as [m Hm]. exists (S m). simpl. lia.
      * apply Forall_app. split; [exact F|]. repeat constructor; lia.
  - intros c0 s0 [Hb Ho]. split; assumption.
  - intros s0 k c0 m _ [Hb Ho]. split; [exact Hb|].
    destruct Ho as (l & E & Ev & F). exists (l ++ repeat 0 (2 * k)).
    cbn [output set_sample_mod set_last_clock set_output]. rewrite E, app_assoc.
    split; [reflexivity|]. split.
    + rewrite length_app, repeat_length. destruct Ev as [m' Hm]. exists (m' + k)%nat. lia.
    + apply Forall_app. split; [exact F|]. apply Forall_forall.
      intros x Hx. apply repeat_spec in Hx. lia.
  - split; [exact H|]. exists []. rewrite app_nil_r.
    split; [reflexivity|]. split; [exists 0%nat; reflexivity|constructor].
Qed.

Lemma write_bounds_gen (s : SoundController) (c A v : Z) (s' : SoundController) :
  channel_bounds s -> sound_write s c A v = Ok s' -> channel_bounds s'.
Proof.
  intros H E. pose proof (proj1 (bounds_gen s c H)) as Hu.
  unfold sound_write in E. cbv zeta in E.
  set (u := update s c) in *. clearbody u.
  pose proof (nib_bound (nr12 u)). pose proof (nib_bound (nr22 u)).
  break_ifs_in E; inversion E; subst; clear E;
    try exact Hu;
    try (unfold ch1_trigger, ch2_trigger, ch3_trigger, calculate_frequency;
         cbv beta iota zeta; break_ifs; bounds_close).
Qed.

(** [channel_bounds] (volumes 0-15, duty positions 0-7, wave position
    0-31) is kept by [update] and by every successful [SoundController::write];
    [update] only appends to the output buffer, an even number of samples
    (left and right), each between 0 and 315. *)
Theorem channel_bounds_invariant (s : SoundController) (c : Z) :
  channel_bounds s ->
  channel_bounds (update s c)
  /\ (exists l, output (update s c) = output s ++ l /\ Nat.Even (length l)
                /\ Forall (fun x => 0 <= x <= 315) l)
  /\ (forall A v s', sound_write s c A v = Ok s' -> channel_bounds s').
Proof.
  intros H. destruct (bounds_gen s c H) as [H1 H2].
  split; [exact H1|]. split; [exact H2|].
  intros A v s'. apply write_bounds_gen. exact H.
Qed.

Lemma update_wave_pattern (s : SoundController) (c : Z) :
  ch3_wave_pattern (update s c) = ch3_wave_pattern s.
Proof.
  pose proof (frame_gen s c) as F.
  apply (f_equal (fun t => snd (fst (fst t)))) in F. exact F.
Qed.

Lemma update_nr21 (s : SoundController) (c : Z) : nr21 (update s c) = nr21 s.
Proof.
  pose proof (frame_gen s c) as F.
  apply (f_equal (fun t => nth 3 (fst (fst (fst t))) 0)) in F. exact F.
Qed.

Lemma update_nr52 (s : SoundController) (c : Z) : nr52 (update s c) = nr52 s.
Proof.
  pose proof (frame_gen s c) as F.
  apply (f_equal (fun t => nth 18 (fst (fst (fst t))) 0)) in F. exact F.
Qed.

(** Read after write on the sound registers: for every sound I/O address but
    NR52 (0x26), a [SoundController::write] of [v] succeeds and a [read] of
    the same address then returns [v] (with the 16-byte wave RAM). *)
Theorem sound_write_then_read (s : SoundController) (c A v : Z) :
  is_sound_io A = true -> A <> 0x26 -> length (ch3_wave_pattern s) = 16%nat ->
  exists s', sound_write s c A v = Ok s' /\ sound_read s' A = Ok v.
Proof.
  intros HA H38 Hl.
  assert (Hu : length (ch3_wave_pattern (update s c)) = 16%nat)
    by (rewrite update_wave_pattern; exact Hl).
  unfold sound_write. cbv zeta. set (u := update s c) in *. clearbody u.
  apply is_sound_io_in in HA. simpl in HA.
  repeat (destruct HA as [<-|HA];
          [first [exfalso; apply H38; reflexivity
                 | eexists; split; [reflexivity|];
                   unfold sound_read; simpl;
                   first [reflexivity | f_equal; apply nth_list_set_eq; lia]]|]).
  contradiction.
Qed.

Lemma nr52_write_gen (s : SoundController) (c A v : Z) (s' : SoundController) :
  nr52 s = 0 -> sound_write s c A v = Ok s' -> nr52 s' = 0.
Proof.
  intros H E. assert (Hu : nr52 (update s c) = 0) by (rewrite update_nr52; exact H).
  unfold sound_write in E. cbv zeta in E.
  set (u := update s c) in *. clearbody u.
  break_ifs_in E; inversion E; subst; clear E;
    first [exact Hu | reflexivity
          | unfold ch1_trigger, ch2_trigger, ch3_trigger, calculate_frequency;
            cbv beta iota zeta; break_ifs; exact Hu].
Qed.

(** NR52 is never written: from a state where it is 0 (as in [Default]),
    it stays 0 through [update] and every write, also the power-on write
    0x80 to 0xFF26, so a read of 0xFF26 always returns 0. *)
Theorem nr52_reads_zero (s : SoundController) :
  nr52 s = 0 ->
  (forall c, nr52 (update s c) = 0)
  /\ (forall c A v s', sound_write s c A v = Ok s' ->
        nr52 s' = 0 /\ sound_read s' 0x26 = Ok 0).
Proof.
  intros H. split.
  - intros c. rewrite update_nr52. exact H.
  - intros c A v s' E. pose proof (nr52_write_gen s c A v s' H E) as H'.
    split; [exact H'|]. unfold sound_read. simpl. rewrite H'. reflexivity.
Qed.

(** Where the length counters are loaded: a write to NR11 sets the
    channel-1 length to [64 - (v & 63)] and a write to NR31 the channel-3
    length to [256 - v] (16-bit wrapping), but a write to NR21 leaves the
    channel-2 length as [update] left it; the channel-2 length is loaded
    from NR21 only when NR23 is written. *)
Theorem length_counter_loads (s : SoundController) (c v : Z) :
  (exists s', sound_write s c 0x11 v = Ok s' /\ nr11 s' = v
              /\ ch1_length_timer s' = 64 - Z.land v 63)
  /\ (exists s', sound_write s c 0x16 v = Ok s' /\ nr21 s' = v
                 /\ ch2_length_timer s' = ch2_length_timer (update s c))
  /\ (exists s', sound_write s c 0x18 v = Ok s' /\ nr23 s' = v
                 /\ ch2_length_timer s' = 64 - Z.land (nr21 s) 63)
  /\ (exists s', sound_write s c 0x1B v = Ok s' /\ nr31 s' = v
                 /\ ch3_length_timer s' = wrap16 (256 - v)).
Proof.
  split; [|split; [|split]]; (eexists; split; [reflexivity|]);
    cbn [nr11 nr21 nr23 nr31 ch1_length_timer ch2_length_timer ch3_length_timer
         set_nr11 set_nr21 set_nr23 set_nr31 set_ch1_length_timer set_ch2_length_timer
         set_ch3_length_timer];
    split; try reflexivity.
  rewrite update_nr21. reflexivity.
Qed.

(** [get_output] while powered off: the samples returned are the buffered
    ones followed by an even number of zeros; the buffer is left empty, the
    last clock becomes the given one, the power stays off and the sample
    phase is only reduced modulo [CLOCK_SPEED]. *)
Theorem get_output_powered_off (s : SoundController) (c : Z) :
  on s = false ->
  let '(out, s') := get_output s c in
  (exists k, out = output s ++ repeat 0 (2 * k))
  /\ output s' = [] /\ last_clock s' = c /\ on s' = false
  /\ sample_mod s' = wrap64 (sample_mod s) mod CLOCK_SPEED.
Proof.
  intros Hon. unfold get_output, update. rewrite Hon. cbn [negb]. cbv beta iota zeta.
  match goal with |- context [Z.to_nat (wrap64 (2 * ?n))] =>
    destruct (wrap64_double n) as [k Hk]; rewrite Hk end.
  split; [exists k; reflexivity|].
  cbn [output on last_clock sample_mod set_output set_last_clock set_sample_mod].
  split; [reflexivity|]. split; [reflexivity|]. split; [exact Hon|].
  rewrite Z.sub_diag. change (wrap64 0) with 0. rewrite Z.mul_0_l.
  change (wrap64 0) with 0. rewrite Z.add_0_r. reflexivity.
Qed.

Lemma wrap64_small (x : Z) : 0 <= x < 18446744073709551616 -> wrap64 x = x.
Proof. intros H. unfold wrap64. apply Z.mod_small. exact H. Qed.

(** While powered off, [get_output] at the clock of the previous call
    (no time elapsed) still yields a pair of zero samples when the sample
    phase [(last_clock mod CLOCK_SPEED) * sample_frequency mod CLOCK_SPEED]
    is below [sample_frequency], and nothing else; this holds for every
    sample frequency, since [CLOCK_SPEED] divides [2^64]. *)
Theorem get_output_off_same_clock (s : SoundController) :
  on s = false ->
  fst (get_output s (last_clock s))
  = output s ++ (if (last_clock s mod CLOCK_SPEED * sample_frequency s) mod CLOCK_SPEED
                     <? sample_frequency s then [0; 0] else []).
Proof.
  intros Hon. unfold get_output, update. rewrite Hon. cbn [negb fst]. cbv beta iota zeta.
  cbn [output set_sample_mod set_last_clock set_output].
  replace (last_clock s - (last_clock s - last_clock s mod CLOCK_SPEED))
    with (last_clock s mod CLOCK_SPEED) by ring.
  pose proof (Z.mod_pos_bound (last_clock s) CLOCK_SPEED ltac:(reflexivity)) as Hm.
  unfold CLOCK_SPEED in *.
  set (m := last_clock s mod 4194304) in *. set (fs := sample_frequency s) in *.
  clearbody m fs.
  rewrite (wrap64_small m) by lia.
  assert (Hw : wrap64 (m * fs) mod 4194304 = (m * fs) mod 4194304).
  { unfold wrap64. apply Z.mod_mod_divide. exists 4398046511104. reflexivity. }
  rewrite Hw, Z.sub_diag. change (wrap64 0) with 0.
  destruct ((m * fs) mod 4194304 <? fs); reflexivity.
Qed.

(** A downward frequency sweep never overflows: with a shadow frequency
    below 2048 and a shift in 0..7 (the callers pass [nr10 & 7]),
    [calculate_frequency] leaves the state
    unchanged (the sweep stays enabled) and returns
    [shadow - (shadow >> shift)], again in 0..2047. *)
Theorem sweep_down_no_overflow (s : SoundController) (sh : Z) :
  0 <= ch1_shadow_freq s < 2048 -> 0 <= sh < 8 ->
  calculate_frequency s sh true = (s, ch1_shadow_freq s - Z.shiftr (ch1_shadow_freq s) sh)
  /\ 0 <= ch1_shadow_freq s - Z.shiftr (ch1_shadow_freq s) sh < 2048.
Proof.
  intros Hf Hs.
  assert (Hd : 0 <= Z.shiftr (ch1_shadow_freq s) sh <= ch1_shadow_freq s).
  { rewrite Z.shiftr_div_pow2 by lia.
    pose proof (Z.pow_pos_nonneg 2 sh ltac:(lia) ltac:(lia)).
    split; [apply Z.div_pos; lia|]. apply Z.div_le_upper_bound; nia. }
  unfold calculate_frequency. cbv zeta.
  destruct (Z.leb_spec 2048 (ch1_shadow_freq s - Z.shiftr (ch1_shadow_freq s) sh));
    [lia|]. split; [reflexivity|lia].
Qed.

Ltac sound_io_close :=
  repeat match goal with
  | H : (_ =? _) = true |- _ => apply Z.eqb_eq in H
  | H : (_ && _) = true |- _ => apply andb_true_iff in H; destruct H
  | H : (_ <=? _) = true |- _ => apply Z.leb_le in H
  end;
  unfold is_sound_io;
  repeat match goal with |- context [?x <=? ?y] => destruct (Z.leb_spec x y) end;
  simpl; try reflexivity; lia.

(** [SoundController::read] and [write] succeed exactly on the sound
    addresses the bus dispatches to them (0x10-0x14, 0x16-0x1E, 0x20-0x26,
    0x30-0x3F); on every other address they reach [unreachable!()]. *)
Theorem sound_io_domain (s : SoundController) (c A v : Z) :
  ((exists x, sound_read s A = Ok x) <-> is_sound_io A = true)
  /\ ((exists s', sound_write s c A v = Ok s') <-> is_sound_io A = true).
Proof.
  split; split.
  - intros [x H]. unfold sound_read in H. break_ifs_in H; try discriminate; sound_io_close.
  - intros HA. apply is_sound_io_in in HA. simpl in HA.
    repeat (destruct HA as [<-|HA]; [eexists; reflexivity|]). contradiction.
  - intros [x H]. unfold sound_write in H. cbv zeta in H.
    break_ifs_in H; try discriminate; sound_io_close.
  - intros HA. apply is_sound_io_in in HA. simpl in HA. unfold sound_write. cbv zeta.
    repeat (destruct HA as [<-|HA]; [simpl; break_ifs; eexists; reflexivity|]).
    contradiction.
Qed.

(** ** Instances of the further properties on concrete states *)

Lemma wram_write_read_witness :
  (0xC000 <= 0xE123 <= 0xFDFF /\ length (wram sample_gb) = 0x2000%nat)
  /\ exists gb', sample_write sample_gb 0xE123 0x5A = Ok (gb', [])
    /\ forall B, 0xC000 <= B <= 0xFDFF ->
       sample_read gb' B = if echo_rewrite B =? echo_rewrite 0xE123
                           then Ok 0x5A else sample_read sample_gb B.
Proof.
  split; [split; [lia | reflexivity]|].
  unfold sample_write, sample_read. apply wram_write_read; [lia | reflexivity].
Defined.

Lemma hram_write_read_witness :
  (0xFF80 <= 0xFF85 <= 0xFFFE /\ length (hram sample_gb) = 0x7F%nat)
  /\ exists gb', sample_write sample_gb 0xFF85 0x5A = Ok (gb', [])
    /\ forall B, 0xFF80 <= B <= 0xFFFE ->
       sample_read gb' B = if B =? 0xFF85 then Ok 0x5A else sample_read sample_gb B.
Proof.
  split; [split; [lia | reflexivity]|].
  unfold sample_write, sample_read. apply hram_write_read; [lia | reflexivity].
Defined.

Lemma unmapped_io_witness :
  (0xFF03 = 0xFF03 \/ 0xFF08 <= 0xFF03 <= 0xFF0E \/ 0xFF03 = 0xFF15 \/ 0xFF03 = 0xFF1F
   \/ 0xFF27 <= 0xFF03 <= 0xFF2F \/ 0xFF4C <= 0xFF03 <= 0xFF4F
   \/ 0xFF51 <= 0xFF03 <= 0xFF7F)
  /\ sample_read sample_gb 0xFF03 = Ok 0xFF
  /\ sample_write sample_gb 0xFF03 7 = Ok (sample_gb, [])
  /\ sample_read sample_gb 0xFF50 = Ok 0xFF.
Proof.
  split; [left; reflexivity|].
  unfold sample_write, sample_read. apply unmapped_io. left; reflexivity.
Defined.

Lemma boot_rom_overlay_witness :
  (boot_rom_active sample_gb_boot = true
   /\ boot_rom sample_gb_boot = Some (repeat 0x31 0x100) /\ 0 <= 5 < 0x100)
  /\ sample_read sample_gb_boot 5 = Ok (nth (Z.to_nat 5) (repeat 0x31 0x100) 0)
  /\ sample_write sample_gb_boot 5 9
     = Ok (set_cartridge (sample_cart_write (cartridge sample_gb_boot) 5 9) sample_gb_boot, []).
Proof.
  split; [split; [reflexivity | split; [reflexivity | lia]]|].
  unfold sample_write, sample_read. apply boot_rom_overlay; [reflexivity | reflexivity | lia].
Defined.

Lemma read_write_never_fail_witness :
  well_formed sample_gb_boot
  /\ (exists x, sample_read sample_gb_boot 0xFF26 = Ok x)
  /\ (exists r, sample_write sample_gb_boot 0xFF26 0x80 = Ok r).
Proof.
  assert (W : well_formed sample_gb_boot).
  { unfold well_formed. split; [|split; [|split]].
    - intros r Hr. inversion Hr. reflexivity.
    - intros _. discriminate.
    - reflexivity.
    - reflexivity. }
  split; [exact W|].
  unfold sample_write, sample_read. apply read_write_never_fail. exact W.
Defined.

Lemma write16_read16_wram_witness :
  (0xC000 <= 0xC100 <= 0xFDFE /\ 0 <= 0xBEEF < 0x10000
   /\ length (wram sample_gb) = 0x2000%nat)
  /\ exists gb',
       write16 sample_cart_write sample_timer_write sample_ppu_write sample_ppu_write
         sample_ppu_write sample_ppu_start_dma sample_gb 0xC100 0xBEEF = Ok (gb', [])
       /\ read16 sample_cart_read sample_timer_read sample_ppu_read sample_ppu_read
            sample_ppu_read gb' 0xC100 = Ok 0xBEEF.
Proof.
  split; [split; [lia | split; [lia | reflexivity]]|].
  apply write16_read16_wram; [lia | lia | reflexivity].
Defined.

Lemma channel_bounds_invariant_witness :
  channel_bounds sound_default
  /\ channel_bounds (update sound_default 0)
  /\ (forall A v s', sound_write sound_default 0 A v = Ok s' -> channel_bounds s').
Proof.
  assert (H : channel_bounds sound_default)
    by (unfold channel_bounds; cbn; lia).
  split; [exact H|].
  destruct (channel_bounds_invariant sound_default 0 H) as [H1 [_ H3]].
  split; [exact H1 | exact H3].
Defined.

Lemma sound_write_then_read_witness :
  (is_sound_io 0x30 = true /\ 0x30 <> 0x26
   /\ length (ch3_wave_pattern sound_default) = 16%nat)
  /\ exists s', sound_write sound_default 0 0x30 0xAB = Ok s'
                /\ sound_read s' 0x30 = Ok 0xAB.
Proof.
  split; [split; [reflexivity | split; [lia | reflexivity]]|].
  apply sound_write_then_read; [reflexivity | lia | reflexivity].
Defined.

Lemma nr52_reads_zero_witness :
  nr52 sound_default = 0
  /\ (forall c, nr52 (update sound_default c) = 0)
  /\ (forall c A v s', sound_write sound_default c A v = Ok s' ->
        nr52 s' = 0 /\ sound_read s' 0x26 = Ok 0).
Proof.
  split; [reflexivity|]. apply nr52_reads_zero. reflexivity.
Defined.

Lemma get_output_powered_off_witness :
  on sound_default = false
  /\ let '(out, s') := get_output sound_default 5000 in
     (exists k, out = output sound_default ++ repeat 0 (2 * k))
     /\ output s' = [] /\ last_clock s' = 5000 /\ on s' = false
     /\ sample_mod s' = wrap64 (sample_mod sound_default) mod CLOCK_SPEED.
Proof.
  split; [reflexivity|]. apply get_output_powered_off. reflexivity.
Defined.

Lemma get_output_off_same_clock_witness :
  on (set_last_clock 1000 sound_default) = false
  /\ fst (get_output (set_last_clock 1000 sound_default) 1000)
     = output (set_last_clock 1000 sound_default)
       ++ (if (1000 mod CLOCK_SPEED * 48000) mod CLOCK_SPEED <? 48000
           then [0; 0] else []).
Proof.
  split; [reflexivity|].
  apply (get_output_off_same_clock (set_last_clock 1000 sound_default)). reflexivity.
Defined.

Lemma sweep_down_no_overflow_witness :
  (0 <= ch1_shadow_freq (set_ch1_shadow_freq 1000 sound_default) < 2048 /\ 0 <= 3 < 8)
  /\ calculate_frequency (set_ch1_shadow_freq 1000 sound_default) 3 true
     = (set_ch1_shadow_freq 1000 sound_default, 1000 - Z.shiftr 1000 3)
  /\ 0 <= 1000 - Z.shiftr 1000 3 < 2048.
Proof.
  split; [split; [cbn; lia | lia]|].
  apply (sweep_down_no_overflow (set_ch1_shadow_freq 1000 sound_default) 3); [cbn; lia | lia].
Defined.
